(** * psqlchunks: the chunk execution engine (db.cc) and the chunk filters
    (filter.cc), embedded in Rocq.

    Every definition below follows one function of the two C++ sources and
    keeps its name.  The parts of the program that live in headers which are
    not part of the sources (the field declarations of [Db], [Chunk] and
    [Diagnostics], the logging macros, libpq itself) are kept abstract or
    are said to be modelled where they are introduced. *)

From Stdlib Require Import ZArith List String Ascii Bool Lia.
From Stdlib Require Import Permutation.
Import ListNotations.
Local Open Scope Z_scope.

(** ** Machine integers *)

Module MachineInt.

(** Two's-complement reduction of a mathematical integer to [w] bits. *)
Definition wrap_signed (w : Z) (z : Z) : Z :=
  (z + 2 ^ (w - 1)) mod 2 ^ w - 2 ^ (w - 1).

(** [int] is 32 bits wide, [long] (and with it [time_t] and
    [suseconds_t]) 64 bits wide: the LP64 data model. *)
Definition to_int (z : Z) : Z := wrap_signed 32 z.
Definition to_long (z : Z) : Z := wrap_signed 64 z.

Definition INT_MAX : Z := 2 ^ 31 - 1.
Definition INT_MIN : Z := - 2 ^ 31.
Definition LONG_MAX : Z := 2 ^ 63 - 1.
Definition LONG_MIN : Z := - 2 ^ 63.

Definition in_int (z : Z) : Prop := INT_MIN <= z <= INT_MAX.
Definition in_long (z : Z) : Prop := LONG_MIN <= z <= LONG_MAX.

End MachineInt.
Import MachineInt.

(** ** Wall-clock subtraction (db.cc, [timeval_subtract]) *)

(** [struct timeval]: seconds and microseconds, two independent signed
    fields. *)
Record timeval : Type := mk_timeval { tv_sec : Z; tv_usec : Z }.

(** [timeval_subtract (result, x, y)].  The C++ function writes [result],
    updates its argument [y] in place and returns whether the difference is
    negative; the model returns the three of them.  The field arithmetic is
    [long] arithmetic, [nsec] is an [int], the product [1000000 * nsec] is
    an [int] product and [/] truncates towards zero. *)
Definition timeval_subtract (x y : timeval) : timeval * timeval * bool :=
  let y :=
    if tv_usec x <? tv_usec y then
      let nsec := to_int (to_long (to_long (tv_usec y - tv_usec x) ÷ 1000000 + 1)) in
      let y_usec := to_long (tv_usec y - to_int (1000000 * nsec)) in
      let y_sec := to_long (tv_sec y + nsec) in
      mk_timeval y_sec y_usec
    else y in
  let y :=
    if to_long (tv_usec x - tv_usec y) >? 1000000 then
      let nsec := to_int (to_long (tv_usec x - tv_usec y) ÷ 1000000) in
      let y_usec := to_long (tv_usec y + to_int (1000000 * nsec)) in
      let y_sec := to_long (tv_sec y - nsec) in
      mk_timeval y_sec y_usec
    else y in
  let result :=
    mk_timeval (to_long (tv_sec x - tv_sec y)) (to_long (tv_usec x - tv_usec y)) in
  (result, y, tv_sec x <? tv_sec y).

(** The instant a [timeval] denotes, in microseconds. *)
Definition micros (t : timeval) : Z := tv_sec t * 1000000 + tv_usec t.

(** A timestamp as [gettimeofday] delivers it: a microsecond part below one
    second, and seconds (before or after the epoch) far enough from the ends
    of [long] for the difference of two timestamps to be a [long]. *)
Definition timestamp (t : timeval) : Prop :=
  - 2 ^ 62 <= tv_sec t < 2 ^ 62 /\ 0 <= tv_usec t < 1000000.

Definition timestampb (t : timeval) : bool :=
  (- 2 ^ 62 <=? tv_sec t) && (tv_sec t <? 2 ^ 62)
  && (0 <=? tv_usec t) && (tv_usec t <? 1000000).

(** ** Character strings *)

Module CString.

(** The line feed, ['\n']. *)
Definition newline : ascii := "010"%char.
(** The double quote. *)
Definition dquote : ascii := "034"%char.

(** [isspace] in the C locale. *)
Definition isspace (c : ascii) : bool :=
  let n := N_of_ascii c in
  (n =? 32)%N || ((9 <=? n)%N && (n <=? 13)%N).

Definition digit_of (c : ascii) : option Z :=
  let n := Z.of_N (N_of_ascii c) in
  if (48 <=? n) && (n <=? 57) then Some (n - 48) else None.

Fixpoint skip_space (s : string) : string :=
  match s with
  | String c s' => if isspace c then skip_space s' else s
  | EmptyString => s
  end.

(** The value of the longest prefix of decimal digits, [acc] being the
    value read so far. *)
Fixpoint read_digits (acc : Z) (s : string) : Z :=
  match s with
  | String c s' =>
      match digit_of c with
      | Some d => read_digits (10 * acc + d) s'
      | None => acc
      end
  | EmptyString => acc
  end.

(** The integer a string starts with: blanks, an optional sign, decimal
    digits; 0 when there is no digit. *)
Definition leading_integer (s : string) : Z :=
  match skip_space s with
  | String "-"%char s' => - read_digits 0 s'
  | String "+"%char s' => read_digits 0 s'
  | s' => read_digits 0 s'
  end.

(** [atoi].  The C library leaves the result undefined when the value does
    not fit an [int]; the model answers [None] there. *)
Definition atoi (s : string) : option Z :=
  let v := leading_integer s in
  if (INT_MIN <=? v) && (v <=? INT_MAX) then Some v else None.

(** [std::count (s.begin (), s.begin () + pos, c)] for [0 <= pos]. *)
Definition count_before (s : string) (pos : Z) (c : ascii) : Z :=
  Z.of_nat (count_occ ascii_dec (firstn (Z.to_nat pos) (list_ascii_of_string s)) c).

Definition size (s : string) : Z := Z.of_nat (String.length s).

End CString.

(** ** Chunks and their diagnostics (declared in chunk.h) *)

(** Modelled from the spec: [linenumber_t] is a typedef of chunk.h, which is
    not among the sources; the specification gives line numbers as 1-based
    numbers without a width, and they are taken as mathematical integers. *)
Definition linenumber_t : Type := Z.

Module Diagnostics.

(** Modelled from the spec: the status of a chunk, "enum { NotRun, Ok, Fail }";
    db.cc uses [Diagnostics::Ok] and [Diagnostics::Fail]. *)
Inductive Status : Type := NotRun | Ok | Fail.

Definition Status_eqb (a b : Status) : bool :=
  match a, b with
  | NotRun, NotRun | Ok, Ok | Fail, Fail => true
  | _, _ => false
  end.

(** Modelled from the spec: the class [Diagnostics] of chunk.h, with the
    members db.cc assigns. *)
Record t : Type := mk {
  status : Status;
  runtime : timeval;
  error_line : linenumber_t;
  sqlstate : string;
  msg_primary : string;
  msg_detail : string;
  msg_hint : string
}.

Definition set_status (v : Status) (d : t) : t :=
  mk v (runtime d) (error_line d) (sqlstate d) (msg_primary d) (msg_detail d) (msg_hint d).
Definition set_runtime (v : timeval) (d : t) : t :=
  mk (status d) v (error_line d) (sqlstate d) (msg_primary d) (msg_detail d) (msg_hint d).
Definition set_error_line (v : linenumber_t) (d : t) : t :=
  mk (status d) (runtime d) v (sqlstate d) (msg_primary d) (msg_detail d) (msg_hint d).
Definition set_sqlstate (v : string) (d : t) : t :=
  mk (status d) (runtime d) (error_line d) v (msg_primary d) (msg_detail d) (msg_hint d).
Definition set_msg_primary (v : string) (d : t) : t :=
  mk (status d) (runtime d) (error_line d) (sqlstate d) v (msg_detail d) (msg_hint d).
Definition set_msg_detail (v : string) (d : t) : t :=
  mk (status d) (runtime d) (error_line d) (sqlstate d) (msg_primary d) v (msg_hint d).
Definition set_msg_hint (v : string) (d : t) : t :=
  mk (status d) (runtime d) (error_line d) (sqlstate d) (msg_primary d) (msg_detail d) v.

End Diagnostics.

(** Modelled from the spec: the class [Chunk] of chunk.h, with its line
    range, its SQL text, its description and its diagnostics. *)
Record Chunk : Type := mk_Chunk {
  start_line : linenumber_t;
  end_line : linenumber_t;
  sql : string;
  description : string;
  diagnostics : Diagnostics.t
}.

Definition getSql (chunk : Chunk) : string := sql chunk.
Definition getDescription (chunk : Chunk) : string := description chunk.

Definition set_diagnostics (d : Diagnostics.t) (chunk : Chunk) : Chunk :=
  mk_Chunk (start_line chunk) (end_line chunk) (sql chunk) (description chunk) d.

(** ** Filters (filter.cc) *)

(** [std::getline (stream, line, delim)] called until it fails: the lines it
    delivers.  [line] holds the characters of the line being read.  A call
    that meets the end of the input before any character or delimiter fails,
    so neither the empty input nor the end of an input that closes with the
    delimiter gives a line. *)
Fixpoint getlines (delim : ascii) (line : string) (s : string) : list string :=
  match s with
  | EmptyString =>
      match line with
      | EmptyString => []
      | _ => [line]
      end
  | String c s' =>
      if Ascii.eqb c delim then line :: getlines delim EmptyString s'
      else getlines delim (line ++ String c EmptyString) s'
  end.

(** [numberstream >> number] followed by [numberstream.fail ()], for a
    stream holding one token: the number read, or [None] when the extraction
    fails.  The conversion belongs to the C++ library and to the definition
    of [linenumber_t]; the filters are verified for every such function. *)
Class NumberExtraction : Type := extract : string -> option linenumber_t.

Module LineFilter.

(** Modelled from the spec: the class [LineFilter] of filter.h; filter.cc
    uses its member [linenumbers], a vector of [linenumber_t]. *)
Record t : Type := mk { linenumbers : list linenumber_t }.

(** Modelled from the spec: the constructor of [LineFilter] is in filter.h;
    a vector member starts empty. *)
Definition create : t := mk [].

Section WithExtraction.
Context {extraction : NumberExtraction}.

(** The [while] loop of [setParams] over the lines [std::getline]
    delivers: the line numbers afterwards and, when a token is not a
    number, that token. *)
Fixpoint parse (lines : list string) (linenumbers : list linenumber_t)
  : list linenumber_t * option string :=
  match lines with
  | [] => (linenumbers, None)
  | numberstring :: lines' =>
      match extract numberstring with
      | None => ([], Some numberstring)
      | Some number => parse lines' (linenumbers ++ [number])
      end
  end.

(** [LineFilter::setParams (params, errmsg)]: the return value, the
    filter and [errmsg] afterwards. *)
Definition setParams (f : t) (params : string) (errmsg : string)
  : bool * t * string :=
  match parse (getlines ","%char EmptyString params) (linenumbers f) with
  | (_, Some numberstring) =>
      (false, mk [], ("Not a number: " ++ numberstring)%string)
  | (numbers, None) =>
      let errmsg :=
        match numbers with
        | [] => "No linenumbers given."%string
        | _ => errmsg
        end in
      (negb (match numbers with [] => true | _ => false end), mk numbers, errmsg)
  end.

End WithExtraction.

(** The loop of [LineFilter::match]. *)
Fixpoint match_loop (chunk : Chunk) (numbers : list linenumber_t) : bool :=
  match numbers with
  | [] => false
  | number :: numbers' =>
      if (start_line chunk <=? number) && (end_line chunk >=? number) then true
      else match_loop chunk numbers'
  end.

Definition match_ (f : t) (chunk : Chunk) : bool :=
  match_loop chunk (linenumbers f).

End LineFilter.

Module RegexFilter.

(** Modelled from the spec: the class [RegexFilter] of filter.h.  The
    pattern it holds is declared there; no function of filter.cc reads or
    writes it. *)
Inductive t : Type := mk.

Definition create : t := mk.

Definition matchString (f : t) (str : string) : bool := true.

Definition setParams (f : t) (params : string) (errmsg : string)
  : bool * t * string :=
  (true, f, errmsg).

End RegexFilter.

Module DescriptionRegexFilter.
Definition match_ (f : RegexFilter.t) (chunk : Chunk) : bool :=
  let desc := getDescription chunk in
  RegexFilter.matchString f desc.
End DescriptionRegexFilter.

Module ContentRegexFilter.
Definition match_ (f : RegexFilter.t) (chunk : Chunk) : bool :=
  let sql := getSql chunk in
  RegexFilter.matchString f sql.
End ContentRegexFilter.

(** The class [Filter] with its virtual [match] and [setParams]: one
    constructor for each class that implements them. *)
Module Filter.

Inductive t : Type :=
| Line (f : LineFilter.t)
| DescriptionRegex (f : RegexFilter.t)
| ContentRegex (f : RegexFilter.t).

Definition match_ (f : t) (chunk : Chunk) : bool :=
  match f with
  | Line f => LineFilter.match_ f chunk
  | DescriptionRegex f => DescriptionRegexFilter.match_ f chunk
  | ContentRegex f => ContentRegexFilter.match_ f chunk
  end.

Definition setParams {extraction : NumberExtraction}
  (f : t) (params : string) (errmsg : string) : bool * t * string :=
  match f with
  | Line f =>
      let '(ok, f', errmsg') := LineFilter.setParams f params errmsg in
      (ok, Line f', errmsg')
  | DescriptionRegex f =>
      let '(ok, f', errmsg') := RegexFilter.setParams f params errmsg in
      (ok, DescriptionRegex f', errmsg')
  | ContentRegex f =>
      let '(ok, f', errmsg') := RegexFilter.setParams f params errmsg in
      (ok, ContentRegex f', errmsg')
  end.

(** The filters whose parameters were never parsed with success: a filter
    as constructed, and what a [setParams] that returned [false] leaves of
    such a filter. *)
Inductive unconfigured {extraction : NumberExtraction} : t -> Prop :=
| unconfigured_line : unconfigured (Line LineFilter.create)
| unconfigured_description : unconfigured (DescriptionRegex RegexFilter.create)
| unconfigured_content : unconfigured (ContentRegex RegexFilter.create)
| unconfigured_failed f params errmsg f' errmsg' :
    unconfigured f ->
    setParams f params errmsg = (false, f', errmsg') ->
    unconfigured f'.

End Filter.

Module FilterChain.

Definition t : Type := list Filter.t.

Definition addFilter (filters : t) (filter : Filter.t) : t :=
  filters ++ [filter].

Fixpoint match_ (filters : t) (chunk : Chunk) : bool :=
  match filters with
  | [] => true
  | filter :: filters' =>
      if negb (Filter.match_ filter chunk) then false
      else match_ filters' chunk
  end.

End FilterChain.

(** A number extraction for the worked examples only: blanks are skipped, a
    run of decimal digits is read up to the first other character, and the
    extraction fails when there is no digit.  This is what [>>] does for a
    token without a sign whose number fits [linenumber_t]; a token that
    starts with a sign, or whose number does not fit, is outside of what
    this instance describes, and the examples use no such token.  The
    properties of the filters are proved for every extraction. *)
Definition decimal_extraction : NumberExtraction :=
  fun s =>
    match CString.skip_space s with
    | String c s' =>
        match CString.digit_of c with
        | Some _ => Some (CString.read_digits 0 (String c s'))
        | None => None
        end
    | EmptyString => None
    end.

(** ** Computations with a state that may throw *)

(** Modelled from the spec: [DbException] of db.h, an exception carrying a
    message. *)
Inductive DbException : Type := mk_DbException (what : string).

(** How a call ends: it returns, it throws, or the C++ standard gives it no
    meaning. *)
Inductive outcome (A : Type) : Type :=
| Returns (a : A)
| Throws (e : DbException)
| Undefined.
Arguments Returns {A} a.
Arguments Throws {A} e.
Arguments Undefined {A}.

Definition M (S A : Type) : Type := S -> outcome A * S.

Definition ret {S A : Type} (a : A) : M S A := fun s => (Returns a, s).

Definition bind {S A B : Type} (m : M S A) (k : A -> M S B) : M S B :=
  fun s =>
    match m s with
    | (Returns a, s') => k a s'
    | (Throws e, s') => (Throws e, s')
    | (Undefined, s') => (Undefined, s')
    end.

Definition throw {S A : Type} (e : DbException) : M S A := fun s => (Throws e, s).
Definition undefined {S A : Type} : M S A := fun s => (Undefined, s).
Definition get {S : Type} : M S S := fun s => (Returns s, s).
Definition modify {S : Type} (f : S -> S) : M S unit := fun s => (Returns tt, f s).

Declare Scope monad_scope.
Delimit Scope monad_scope with monad.
Notation "x <- m ;; k" := (bind m (fun x => k))
  (at level 61, m at next level, right associativity) : monad_scope.
Notation "m ;; k" := (bind m (fun _ => k))
  (at level 61, right associativity) : monad_scope.

(** ** The interfaces the engine is written against *)

Inductive ConnStatusType : Type :=
| CONNECTION_OK | CONNECTION_BAD | CONNECTION_STARTED | CONNECTION_MADE
| CONNECTION_AWAITING_RESPONSE | CONNECTION_AUTH_OK | CONNECTION_SETENV
| CONNECTION_SSL_STARTUP | CONNECTION_NEEDED.

Inductive ExecStatusType : Type :=
| PGRES_EMPTY_QUERY | PGRES_COMMAND_OK | PGRES_TUPLES_OK | PGRES_COPY_OUT
| PGRES_COPY_IN | PGRES_BAD_RESPONSE | PGRES_NONFATAL_ERROR | PGRES_FATAL_ERROR.

(** The error fields [Db] asks for. *)
Inductive PGdiag : Type :=
| PG_DIAG_STATEMENT_POSITION | PG_DIAG_SQLSTATE | PG_DIAG_MESSAGE_PRIMARY
| PG_DIAG_MESSAGE_DETAIL | PG_DIAG_MESSAGE_HINT.

(** A [PGresult]: its status and its error fields, [None] for a field the
    server did not send ([PQresultErrorField] returns [NULL]). *)
Record PGresult : Type := mk_PGresult {
  PQresultStatus : ExecStatusType;
  PQresultErrorField : PGdiag -> option string
}.

(** libpq.  A [PGconn] value is the connection together with the server
    behind it, so a call that talks to the server returns the connection
    afterwards.  [PQexec] answers [None] for a [NULL] result; [PQcancel]
    gives its return code and what it wrote to the error buffer. *)
Class Libpq : Type := {
  PGconn : Type;
  PGcancel : Type;
  PQsetdbLogin :
    option string -> option string -> option string -> option string ->
    option string -> option string -> option string -> option PGconn;
  PQstatus : PGconn -> ConnStatusType;
  PQexec : PGconn -> string -> PGconn * option PGresult;
  PQgetCancel : PGconn -> option PGcancel;
  PQcancel : PGcancel -> Z -> Z * string
}.

(** The system clock: [gettimeofday] gives the time, or fails with the
    text [strerror (errno)] would give. *)
Class SysClock : Type := {
  Clock : Type;
  gettimeofday : Clock -> Clock * (timeval + string)
}.

(** What db.cc takes from chunk.h and db.h, which are not among the
    sources: the "no line number" value and the default of the parameter
    [silent] of [Db::executeSql].  The engine is verified for every choice
    of them. *)
Class Headers : Type := {
  LINE_NUMBER_NOT_AVAILABLE : linenumber_t;
  silent_default : bool
}.

(** What [Db::setEncoding] uses of libpq besides the above:
    [PQsetClientEncoding] gives the connection afterwards and its return
    code, 0 for success. *)
Class LibpqClient {pq : Libpq} : Type := {
  PQsetClientEncoding : PGconn -> string -> PGconn * Z
}.

Definition CANCEL_BUF_SIZE : Z := 256.

Definition ConnStatusType_eqb (a b : ConnStatusType) : bool :=
  match a, b with
  | CONNECTION_OK, CONNECTION_OK | CONNECTION_BAD, CONNECTION_BAD
  | CONNECTION_STARTED, CONNECTION_STARTED | CONNECTION_MADE, CONNECTION_MADE
  | CONNECTION_AWAITING_RESPONSE, CONNECTION_AWAITING_RESPONSE
  | CONNECTION_AUTH_OK, CONNECTION_AUTH_OK | CONNECTION_SETENV, CONNECTION_SETENV
  | CONNECTION_SSL_STARTUP, CONNECTION_SSL_STARTUP
  | CONNECTION_NEEDED, CONNECTION_NEEDED => true
  | _, _ => false
  end.

(** [(PQresultStatus (pgres) == PGRES_FATAL_ERROR) ||
     (PQresultStatus (pgres) == PGRES_NONFATAL_ERROR)] *)
Definition is_error (pgres : PGresult) : bool :=
  match PQresultStatus pgres with
  | PGRES_FATAL_ERROR | PGRES_NONFATAL_ERROR => true
  | _ => false
  end.

(** Modelled from the spec: the logging macros [log_debug], [log_warn] and
    [log_error] of debug.h, as entries appended to a log, the format
    directives replaced by their arguments. *)
Inductive LogLevel : Type := LogDebug | LogWarn | LogError.
Definition LogEntry : Type := (LogLevel * string)%type.

(** ** The execution engine (db.cc) *)

Module Db.
Section Engine.
Context {pq : Libpq} {sys : SysClock} {hdr : Headers}.
Local Open Scope monad_scope.
Local Open Scope string_scope.

(** Modelled from the spec: the data members of [Db], declared in db.h and
    initialised by the constructor in db.cc; [failed_count] is an [int]. *)
Record t : Type := mk {
conn : option PGconn;
do_commit : bool;
failed_count : Z;
in_transaction : bool
}.

(** [Db::Db ()] *)
Definition create : t := mk None false 0 false.

(** A [Db] object in its process: the object, the system clock, the log
  written so far and every statement [Db] handed to [PQexec] so far. *)
Record Session : Type := mk_Session {
db : t;
clock : Clock;
log : list LogEntry;
submitted : list string
}.

Definition set_conn (c : option PGconn) (s : Session) : Session :=
mk_Session (mk c (do_commit (db s)) (failed_count (db s)) (in_transaction (db s)))
           (clock s) (log s) (submitted s).
Definition set_failed_count (n : Z) (s : Session) : Session :=
mk_Session (mk (conn (db s)) (do_commit (db s)) n (in_transaction (db s)))
           (clock s) (log s) (submitted s).
Definition set_in_transaction (b : bool) (s : Session) : Session :=
mk_Session (mk (conn (db s)) (do_commit (db s)) (failed_count (db s)) b)
           (clock s) (log s) (submitted s).
Definition set_clock (c : Clock) (s : Session) : Session :=
mk_Session (db s) c (log s) (submitted s).
Definition add_log (e : LogEntry) (s : Session) : Session :=
mk_Session (db s) (clock s) (log s ++ [e]) (submitted s).
Definition add_submitted (q : string) (s : Session) : Session :=
mk_Session (db s) (clock s) (log s) (submitted s ++ [q]).

Definition log_debug (msg : string) : M Session unit := modify (add_log (LogDebug, msg)).
Definition log_warn (msg : string) : M Session unit := modify (add_log (LogWarn, msg)).
Definition log_error (msg : string) : M Session unit := modify (add_log (LogError, msg)).

(** [PQstatus (conn)]; a [NULL] connection is a bad one. *)
Definition conn_status (c : option PGconn) : ConnStatusType :=
match c with
| Some c => PQstatus c
| None => CONNECTION_BAD
end.

(** [PQexec (conn, sqlstr)] on the connection of the object; without a
  connection the result is [NULL]. *)
Definition exec (sqlstr : string) : M Session (option PGresult) :=
fun s =>
  match conn (db s) with
  | Some c =>
      let '(c', pgres) := PQexec c sqlstr in
      (Returns pgres, add_submitted sqlstr (set_conn (Some c') s))
  | None => (Returns None, add_submitted sqlstr s)
  end.

(** [gettimeofday (&t, NULL)], throwing as [runChunk] does when it fails. *)
Definition now : M Session timeval :=
fun s =>
  match gettimeofday (clock s) with
  | (clk, inl t) => (Returns t, set_clock clk s)
  | (clk, inr err) => (Throws (mk_DbException err), set_clock clk s)
  end.

(** [Db::isConnected] *)
Definition isConnected : M Session bool :=
s <- get ;;
if negb (ConnStatusType_eqb (conn_status (conn (db s))) CONNECTION_OK) then
  log_debug "no db connection" ;;
  ret false
else
  log_debug "got a working db connection" ;;
  ret true.

(** [Db::connect] *)
Definition connect (host db_name port user passwd : option string) : M Session bool :=
modify (set_conn (PQsetdbLogin host port None None db_name user passwd)) ;;
isConnected.

(** [Db::executeSql] *)
Definition executeSql (sqlstr : string) (silent : bool) : M Session unit :=
connected <- isConnected ;;
(if negb connected then log_warn "can not run chunk - no db connection" else ret tt) ;;
log_debug ("executing sql: " ++ sqlstr) ;;
pgres <- exec sqlstr ;;
match pgres with
| None =>
    log_error "PQExec failed" ;;
    throw (mk_DbException "PQExec failed")
| Some pgres =>
    if is_error pgres then
      let error_primary := PQresultErrorField pgres PG_DIAG_MESSAGE_PRIMARY in
      let msg :=
        "could not execute query " ++ String CString.dquote sqlstr
        ++ String CString.dquote ": "
        ++ match error_primary with Some e => e | None => EmptyString end in
      (if negb silent then log_error msg else ret tt) ;;
      throw (mk_DbException msg)
    else ret tt
end.

(** [Db::begin] *)
Definition begin : M Session unit :=
s <- get ;;
if negb (in_transaction (db s)) then
  executeSql "begin;" silent_default ;;
  modify (set_in_transaction true)
else ret tt.

(** [Db::rollback] *)
Definition rollback : M Session unit :=
s <- get ;;
if in_transaction (db s) then
  executeSql "rollback;" silent_default ;;
  modify (set_in_transaction false)
else ret tt.

(** [Db::commit] *)
Definition commit : M Session unit :=
s <- get ;;
if negb (do_commit (db s)) then rollback
else
  s <- get ;;
  if in_transaction (db s) then
    executeSql "commit;" silent_default ;;
    modify (set_in_transaction false)
  else ret tt.

(** [Db::finish] *)
Definition finish : M Session unit :=
s <- get ;;
(if (failed_count (db s) >? 0)%Z then rollback else commit) ;;
modify (set_failed_count 0).

(** [Db::cancel (errmsg)]: the return value and [errmsg] afterwards. *)
Definition cancel (errmsg : string) : M Session (bool * string) :=
connected <- isConnected ;;
if negb connected then
  log_debug "not connected - no query to cancel" ;;
  ret (true, errmsg)
else
  s <- get ;;
  match match conn (db s) with Some c => PQgetCancel c | None => None end with
  | None =>
      log_error "could not get PGCancel pointer" ;;
      ret (false, errmsg)
  | Some cncl =>
      log_debug "Query successfuly canceled" ;;
      let '(rc, cnclbuf) := PQcancel cncl CANCEL_BUF_SIZE in
      if negb (rc =? 1)%Z then
        log_debug ("could not cancel running query: " ++ cnclbuf) ;;
        ret (false, cnclbuf)
      else ret (true, errmsg)
  end.

(** *** [Db::runChunk] *)

(** [runChunk] works on the session and on the chunk it was given by
  reference. *)
Definition RunState : Type := (Session * Chunk)%type.

Definition in_session {A : Type} (m : M Session A) : M RunState A :=
fun '(s, chunk) => let '(r, s') := m s in (r, (s', chunk)).

Definition the_chunk : M RunState Chunk := fun '(s, chunk) => (Returns chunk, (s, chunk)).

Definition update_diagnostics (f : Diagnostics.t -> Diagnostics.t) : M RunState unit :=
fun '(s, chunk) => (Returns tt, (s, set_diagnostics (f (diagnostics chunk)) chunk)).

(** [char * v = PQresultErrorField (pgres, field); if (v) { ... assign (v); }] *)
Definition assign_field (pgres : PGresult) (field : PGdiag)
(set : string -> Diagnostics.t -> Diagnostics.t) : M RunState unit :=
match PQresultErrorField pgres field with
| Some v => update_diagnostics (set v)
| None => ret tt
end.

(** The error line of a failed chunk (db.cc, lines 146 to 160).  The
    iterators of the string are taken as addresses, so that
    [(sql.begin () + pos) < sql.end ()] compares [pos] with the length of
    the text.  A negative [pos] passes this comparison and makes
    [std::count] run over a range whose end lies before its start. *)
Definition locate_error (pgres : PGresult) (sql : string) : M RunState unit :=
match PQresultErrorField pgres PG_DIAG_STATEMENT_POSITION with
| Some statement_position =>
    match CString.atoi statement_position with
    | None => undefined
    | Some pos =>
        if (pos <? CString.size sql)%Z then
          if (pos <? 0)%Z then undefined
          else
            chunk <- the_chunk ;;
            update_diagnostics
              (Diagnostics.set_error_line
                 (start_line chunk + CString.count_before sql pos CString.newline))
        else
          in_session
            (log_error "PG_DIAG_STATEMENT_POSITION is beyond the length of sql string")
    end
| None =>
    in_session (log_debug "got an empty PG_DIAG_STATEMENT_POSITION") ;;
    update_diagnostics (Diagnostics.set_error_line LINE_NUMBER_NOT_AVAILABLE)
end.

(** What [runChunk] does with a result that is an error (db.cc, lines 143
  to 180). *)
Definition record_failure (pgres : PGresult) (sql : string) : M RunState unit :=
update_diagnostics (Diagnostics.set_status Diagnostics.Fail) ;;
locate_error pgres sql ;;
assign_field pgres PG_DIAG_SQLSTATE Diagnostics.set_sqlstate ;;
assign_field pgres PG_DIAG_MESSAGE_PRIMARY Diagnostics.set_msg_primary ;;
assign_field pgres PG_DIAG_MESSAGE_DETAIL Diagnostics.set_msg_detail ;;
assign_field pgres PG_DIAG_MESSAGE_HINT Diagnostics.set_msg_hint.

Definition runChunk_body : M RunState bool :=
connected <- in_session isConnected ;;
if negb connected then throw (mk_DbException "lost db connection")
else
  in_session begin ;;
  chunk <- the_chunk ;;
  let sql := getSql chunk in
  update_diagnostics (Diagnostics.set_status Diagnostics.Ok) ;;
  start_time <- in_session now ;;
  in_session (executeSql "savepoint chunk;" silent_default) ;;
  pgres <- in_session (exec sql) ;;
  match pgres with
  | None =>
      in_session (log_error "PQExec failed") ;;
      throw (mk_DbException "PQExec failed")
  | Some pgres =>
      end_time <- in_session now ;;
      update_diagnostics
        (Diagnostics.set_runtime (fst (fst (timeval_subtract end_time start_time)))) ;;
      (if is_error pgres then record_failure pgres sql else ret tt) ;;
      chunk <- the_chunk ;;
      (if negb (Diagnostics.Status_eqb (Diagnostics.status (diagnostics chunk))
                  Diagnostics.Ok) then
         in_session (executeSql "rollback to savepoint chunk;" silent_default) ;;
         in_session (s <- get ;; modify (set_failed_count (to_int (failed_count (db s) + 1))))
       else
         in_session (executeSql "release savepoint chunk;" silent_default)) ;;
      chunk <- the_chunk ;;
      ret (Diagnostics.Status_eqb (Diagnostics.status (diagnostics chunk)) Diagnostics.Ok)
  end.

(** [Db::runChunk (chunk)]: how the call ends, the chunk and the session
  afterwards. *)
Definition runChunk (chunk : Chunk) (s : Session) : outcome bool * Chunk * Session :=
let '(r, (s', chunk')) := runChunk_body (s, chunk) in (r, chunk', s').


(** The server answers the statement [q], sent over [c], without an
  error, and the connection is [c'] afterwards. *)
Definition accepted (c : PGconn) (q : string) (c' : PGconn) : Prop :=
exists pgres, PQexec c q = (c', Some pgres) /\ is_error pgres = false.

(** Two sessions with the same commit flag, the same count of failed
  chunks and the same transaction flag. *)
Definition same_counts (s s' : Session) : Prop :=
do_commit (db s') = do_commit (db s)
/\ failed_count (db s') = failed_count (db s)
/\ in_transaction (db s') = in_transaction (db s).

(** One call of [runChunk] in which the engine itself meets no failure:
  the connection is usable, the clock can be read at the start and at
  the end, the server accepts the statements the engine sends on its
  own account (begin when no transaction is open, the savepoint, then
  its release or the rollback to it) and answers the SQL of the chunk
  with [pgres].  When [pgres] is an error that carries a statement
  position, the position is a non-negative [int], as libpq documents
  it. *)
Inductive served (s : Session) (chunk : Chunk) (pgres : PGresult) : Prop :=
| served_intro (c c1 c2 c3 c4 : PGconn) (clk1 clk2 : Clock) (t0 t1 : timeval) :
  conn (db s) = Some c ->
  PQstatus c = CONNECTION_OK ->
  (if in_transaction (db s) then c1 = c else accepted c "begin;" c1) ->
  gettimeofday (clock s) = (clk1, inl t0) ->
  accepted c1 "savepoint chunk;" c2 ->
  PQexec c2 (getSql chunk) = (c3, Some pgres) ->
  gettimeofday clk1 = (clk2, inl t1) ->
  (forall statement_position,
      is_error pgres = true ->
      PQresultErrorField pgres PG_DIAG_STATEMENT_POSITION = Some statement_position ->
      exists pos, CString.atoi statement_position = Some pos /\ (0 <= pos)%Z) ->
  accepted c3
    (if is_error pgres then "rollback to savepoint chunk;"
     else "release savepoint chunk;") c4 ->
  served s chunk pgres.

(** The error line after [locate_error], for a position that is a
  non-negative [int]. *)
Definition located (pgres : PGresult) (sql : string) (chunk : Chunk)
(before after : Diagnostics.t) (l : list LogEntry) : Prop :=
match PQresultErrorField pgres PG_DIAG_STATEMENT_POSITION with
| None => Diagnostics.error_line after = LINE_NUMBER_NOT_AVAILABLE
| Some statement_position =>
    forall pos, CString.atoi statement_position = Some pos ->
      ((pos < CString.size sql)%Z ->
       Diagnostics.error_line after =
         (start_line chunk + CString.count_before sql pos CString.newline)%Z)
      /\ ((CString.size sql <= pos)%Z ->
          Diagnostics.error_line after = Diagnostics.error_line before
          /\ In (LogError,
                 "PG_DIAG_STATEMENT_POSITION is beyond the length of sql string") l)
end.


(** *** The rest of the engine *)

Context {pqc : LibpqClient}.

(** [PQsetClientEncoding (conn, enc_name)] on the connection of the object;
    without a connection libpq answers -1.  What libpq sends to the server
    on its own account to set the encoding belongs to [PQsetClientEncoding]
    and shows in the connection afterwards; [submitted] holds the
    statements [Db] itself hands to [PQexec], and this is not one of them. *)
Definition set_client_encoding (enc_name : string) : M Session Z :=
  fun s =>
    match conn (db s) with
    | Some c =>
        let '(c', rc) := PQsetClientEncoding c enc_name in
        (Returns rc, set_conn (Some c') s)
    | None => (Returns (-1)%Z, s)
    end.

(** [Db::setEncoding (enc_name)]; [None] is the [NULL] name. *)
Definition setEncoding (enc_name : option string) : M Session bool :=
  match enc_name with
  | None => ret false
  | Some enc_name =>
      rc <- set_client_encoding enc_name ;;
      if negb (rc =? 0)%Z then ret false else ret true
  end.

(** A [Db] object in its process, for [Db::disconnect]: the session, the
    connections handed to [PQfinish] so far, and whether the connection the
    object holds has been handed to [PQfinish].  [Db::disconnect] releases
    the connection and keeps the pointer, and libpq gives no meaning to a
    call on a connection that was released. *)
Record Process : Type := mk_Process {
  session : Session;
  released : list (option PGconn);
  dangling : bool
}.

(** The object holds a connection that was released. *)
Definition holds_released (p : Process) : bool :=
  dangling p && match conn (db (session p)) with Some _ => true | None => false end.

(** [finish ()] called in the process.  [finish] hands the connection to
    libpq, in [executeSql], exactly when a transaction is open. *)
Definition finish_in_process : M Process unit :=
  fun p =>
    if holds_released p && in_transaction (db (session p)) then (Undefined, p)
    else
      let '(r, s') := finish (session p) in
      (r, mk_Process s' (released p) (dangling p)).

(** [PQfinish (conn)]: nothing happens for the [NULL] connection, a live
    connection is released, and a connection that was released already is
    freed a second time. *)
Definition finish_connection : M Process unit :=
  fun p =>
    match conn (db (session p)) with
    | None => (Returns tt, mk_Process (session p) (released p ++ [None])%list (dangling p))
    | Some c =>
        if dangling p then (Undefined, p)
        else (Returns tt, mk_Process (session p) (released p ++ [Some c])%list true)
    end.

(** [Db::disconnect]; the destructor [Db::~Db] calls it and does nothing
    else. *)
Definition disconnect : M Process unit :=
  finish_in_process ;;
  finish_connection.

(** *** Notions used to state what the engine keeps *)

(** The members of a chunk that say what it is, as opposed to its
    diagnostics. *)
Definition same_text (chunk chunk' : Chunk) : Prop :=
  start_line chunk' = start_line chunk
  /\ end_line chunk' = end_line chunk
  /\ sql chunk' = sql chunk
  /\ description chunk' = description chunk.

(** A session after steps that keep the commit flag, do not close the
    transaction and only add to the statements sent and to the log. *)
Definition session_grown (s s' : Session) : Prop :=
  do_commit (db s') = do_commit (db s)
  /\ (in_transaction (db s) = true -> in_transaction (db s') = true)
  /\ (exists sent, submitted s' = (submitted s ++ sent)%list)
  /\ (exists l, log s' = (log s ++ l)%list).

(** The same for a run state, the count of failed chunks being kept too. *)
Definition quiet (st st' : RunState) : Prop :=
  session_grown (fst st) (fst st')
  /\ failed_count (db (fst st')) = failed_count (db (fst st))
  /\ same_text (snd st) (snd st').

(** What a call of [runChunk] that ends with [r] may have changed: the count
    of failed chunks is one more exactly when the call returned false. *)
Definition counted (st : RunState) (r : outcome bool) (st' : RunState) : Prop :=
  session_grown (fst st) (fst st')
  /\ same_text (snd st) (snd st')
  /\ failed_count (db (fst st')) =
       match r with
       | Returns false => to_int (failed_count (db (fst st)) + 1)
       | _ => failed_count (db (fst st))
       end.

(** A step on the session alone that keeps the count of failed chunks. *)
Definition session_quiet (s s' : Session) : Prop :=
  session_grown s s' /\ failed_count (db s') = failed_count (db s).

(** [if (v) { member.assign (v); }]: the member afterwards, [old] being the
    member before. *)
Definition field_or (pgres : PGresult) (field : PGdiag) (old : string) : string :=
  match PQresultErrorField pgres field with
  | Some v => v
  | None => old
  end.

(** What the server answers to the SQL of [chunk] in a call of [runChunk]
    from [s]: the connection of the object is usable, the begin (when no
    transaction is open) and the savepoint are accepted, and [PQexec] then
    gives [pgres] for the SQL, the connection being [c3] afterwards. *)
Definition answered (s : Session) (chunk : Chunk) (pgres : PGresult) (c3 : PGconn) : Prop :=
  exists c c1 c2 : PGconn,
    conn (db s) = Some c
    /\ PQstatus c = CONNECTION_OK
    /\ (if in_transaction (db s) then c1 = c else accepted c "begin;" c1)
    /\ accepted c1 "savepoint chunk;" c2
    /\ PQexec c2 (getSql chunk) = (c3, Some pgres).

(** The statements of one call of [runChunk] that returned [ok], after the
    begin. *)
Definition bracket (chunk : Chunk) (ok : bool) : list string :=
  ["savepoint chunk;"; getSql chunk;
   if ok then "release savepoint chunk;" else "rollback to savepoint chunk;"].

(** A run: [runChunk] called on one chunk after the other, each call
    returning; [results] are the values returned. *)
Inductive run : Session -> list Chunk -> list bool -> Session -> Prop :=
| run_nil s : run s [] [] s
| run_cons s chunk ok chunk' s' chunks results s'' :
    runChunk chunk s = (Returns ok, chunk', s') ->
    run s' chunks results s'' ->
    run s (chunk :: chunks) (ok :: results) s''.

(** The number of calls of a run that returned false. *)
Fixpoint failures (results : list bool) : Z :=
  match results with
  | [] => 0
  | ok :: results' => ((if ok then 0 else 1) + failures results')%Z
  end.

(** The statements of the calls of a run, without the begin. *)
Fixpoint brackets (chunks : list Chunk) (results : list bool) : list string :=
  match chunks, results with
  | chunk :: chunks', ok :: results' => (bracket chunk ok ++ brackets chunks' results')%list
  | _, _ => []
  end.

End Engine.
End Db.

(** ** A scripted server and clock, for the worked examples *)

Module Script.

Local Open Scope string_scope.

(** A server answers each statement by a function of its text; it may or
    may not hand out a cancel handle, which carries what [PQcancel] will
    answer. *)
Record Server : Type := mk_Server {
  server_status : ConnStatusType;
  server_answer : string -> option PGresult;
  server_cancel : option (Z * string)
}.

Definition command_ok : PGresult := mk_PGresult PGRES_COMMAND_OK (fun _ => None).

(** A syntax error, with the position the server reports for it. *)
Definition syntax_error (position : option string) : PGresult :=
  mk_PGresult PGRES_FATAL_ERROR
    (fun field =>
       match field with
       | PG_DIAG_STATEMENT_POSITION => position
       | PG_DIAG_SQLSTATE => Some "42601"
       | PG_DIAG_MESSAGE_PRIMARY => Some "syntax error at or near selct"
       | PG_DIAG_MESSAGE_DETAIL | PG_DIAG_MESSAGE_HINT => None
       end).

(** A live server that rejects the statement [bad] and accepts every
    other one. *)
Definition rejecting (bad : string) (position : option string) : Server :=
  mk_Server CONNECTION_OK
    (fun q => if String.eqb q bad then Some (syntax_error position) else Some command_ok)
    (Some (0, "PQcancel() -- connect() failed: Connection refused")).

(** A connection that went bad. *)
Definition lost : Server :=
  mk_Server CONNECTION_BAD (fun _ => None) None.

(** The two statements of the worked example of the error line, the
    second one misspelt. *)
Definition two_statements : string :=
  "select 1;" ++ String CString.newline ("selct 2;" ++ String CString.newline EmptyString).

Definition libpq : Libpq := {|
  PGconn := Server;
  PGcancel := Z * string;
  PQsetdbLogin := fun _ _ _ _ _ _ _ => Some (rejecting two_statements (Some "11"));
  PQstatus := server_status;
  PQexec := fun c q => (c, server_answer c q);
  PQgetCancel := server_cancel;
  PQcancel := fun k _ => k
|}.

(** A clock that counts microseconds and advances by a fifth of a second
    at each reading. *)
Definition sysclock : SysClock := {|
  Clock := Z;
  gettimeofday := fun t => (t + 200000, inl (mk_timeval (t / 1000000) (t mod 1000000)))
|}.

Definition headers : Headers := {|
  LINE_NUMBER_NOT_AVAILABLE := 0;
  silent_default := false
|}.

Definition no_diagnostics : Diagnostics.t :=
  Diagnostics.mk Diagnostics.NotRun (mk_timeval 0 0) 7 EmptyString EmptyString
    EmptyString EmptyString.

Definition chunk_of (first last : linenumber_t) (text : string) : Chunk :=
  mk_Chunk first last text "example" no_diagnostics.

(** A session on [server] in which nothing has happened yet. *)
Definition session_on (server : option Server) (commit : bool) (failed : Z) (open : bool)
  : @Db.Session libpq sysclock :=
  @Db.mk_Session libpq sysclock (@Db.mk libpq server commit failed open) 5900000 [] [].

(** A live server that gives no result at all for the statement [bad]
    ([PQexec] returns [NULL]) and accepts every other one. *)
Definition mute_on (bad : string) : Server :=
  mk_Server CONNECTION_OK
    (fun q => if String.eqb q bad then None else Some command_ok)
    None.

(** A live server that accepts every statement and every cancel request. *)
Definition obliging : Server :=
  mk_Server CONNECTION_OK (fun _ => Some command_ok) (Some (1, EmptyString)).

(** A live server that answers every statement with an error. *)
Definition refusing : Server :=
  mk_Server CONNECTION_OK (fun _ => Some (syntax_error None)) None.

(** A clock that can be read as many times as it says and fails from then
    on. *)
Definition running_down : SysClock := {|
  Clock := nat;
  gettimeofday := fun readings =>
    match readings with
    | O => (O, inr "Invalid argument")
    | S readings' => (readings', inl (mk_timeval 5 900000))
    end
|}.

(** A session on [server] whose clock can be read [readings] times. *)
Definition session_until (readings : nat) (server : Server) (open : bool)
  : @Db.Session libpq running_down :=
  @Db.mk_Session libpq running_down (@Db.mk libpq (Some server) true 0 open) readings [] [].







(** The scripted servers know the encoding UTF8 only. *)
Definition client : @LibpqClient libpq := {|
  PQsetClientEncoding := fun c name => (c, if String.eqb name "UTF8" then 0 else -1)
|}.

End Script.

(** * Properties *)

(** ** Machine integers *)

Lemma INT_MAX_value : INT_MAX = 2147483647.
Proof. reflexivity. Qed.

Lemma INT_MIN_value : INT_MIN = -2147483648.
Proof. reflexivity. Qed.

Lemma LONG_MAX_value : LONG_MAX = 9223372036854775807.
Proof. reflexivity. Qed.

Lemma LONG_MIN_value : LONG_MIN = -9223372036854775808.
Proof. reflexivity. Qed.

Lemma to_int_id (z : Z) : in_int z -> to_int z = z.
Proof.
  unfold in_int; rewrite INT_MIN_value, INT_MAX_value; intros Hz.
  unfold to_int, wrap_signed.
  change (2 ^ (32 - 1)) with 2147483648.
  change (2 ^ 32) with 4294967296.
  rewrite Z.mod_small; lia.
Qed.

Lemma to_long_id (z : Z) : in_long z -> to_long z = z.
Proof.
  unfold in_long; rewrite LONG_MIN_value, LONG_MAX_value; intros Hz.
  unfold to_long, wrap_signed.
  change (2 ^ (64 - 1)) with 9223372036854775808.
  change (2 ^ 64) with 18446744073709551616.
  rewrite Z.mod_small; lia.
Qed.

Ltac long_range :=
  unfold in_long; rewrite LONG_MIN_value, LONG_MAX_value; lia.

(** ** Wall-clock subtraction *)

Lemma timestampb_spec (t : timeval) : timestampb t = true <-> timestamp t.
Proof.
  unfold timestampb, timestamp.
  rewrite !andb_true_iff, !Z.leb_le, !Z.ltb_lt. tauto.
Qed.

(** When the end has the smaller microsecond part, one second is borrowed:
    the start becomes one second later and a million microseconds
    earlier. *)
Lemma timeval_subtract_borrow (x y : timeval) :
  timestamp x -> timestamp y -> tv_usec x < tv_usec y -> tv_sec y < tv_sec x ->
  timeval_subtract x y =
    (mk_timeval (tv_sec x - (tv_sec y + 1)) (tv_usec x - (tv_usec y - 1000000)),
     mk_timeval (tv_sec y + 1) (tv_usec y - 1000000),
     false).
Proof.
  intros [Hxs Hxu] [Hys Hyu] Hlt Hsec.
  change (2 ^ 62) with 4611686018427387904 in *.
  unfold timeval_subtract.
  destruct (Z.ltb_spec (tv_usec x) (tv_usec y)) as [_ | Hge]; [ | lia ].
  rewrite (to_long_id (tv_usec y - tv_usec x)) by long_range.
  rewrite (Z.quot_small (tv_usec y - tv_usec x) 1000000) by lia.
  change (to_int (to_long (0 + 1))) with 1.
  change (to_int (1000000 * 1)) with 1000000.
  rewrite (to_long_id (tv_usec y - 1000000)) by long_range.
  rewrite (to_long_id (tv_sec y + 1)) by long_range.
  cbn [tv_sec tv_usec].
  rewrite (to_long_id (tv_usec x - (tv_usec y - 1000000))) by long_range.
  destruct (Z.gtb_spec (tv_usec x - (tv_usec y - 1000000)) 1000000) as [Hgt | _]; [ lia | ].
  cbn [tv_sec tv_usec].
  rewrite (to_long_id (tv_sec x - (tv_sec y + 1))) by long_range.
  rewrite (to_long_id (tv_usec x - (tv_usec y - 1000000))) by long_range.
  destruct (Z.ltb_spec (tv_sec x) (tv_sec y + 1)) as [Hneg | _]; [ lia | ].
  reflexivity.
Qed.

(** Otherwise the fields are subtracted one by one. *)
Lemma timeval_subtract_plain (x y : timeval) :
  timestamp x -> timestamp y -> tv_usec y <= tv_usec x -> tv_sec y <= tv_sec x ->
  timeval_subtract x y =
    (mk_timeval (tv_sec x - tv_sec y) (tv_usec x - tv_usec y), y, false).
Proof.
  intros [Hxs Hxu] [Hys Hyu] Hle Hsec.
  change (2 ^ 62) with 4611686018427387904 in *.
  unfold timeval_subtract.
  destruct (Z.ltb_spec (tv_usec x) (tv_usec y)) as [Hlt | _]; [ lia | ].
  rewrite (to_long_id (tv_usec x - tv_usec y)) by long_range.
  destruct (Z.gtb_spec (tv_usec x - tv_usec y) 1000000) as [Hgt | _]; [ lia | ].
  rewrite (to_long_id (tv_sec x - tv_sec y)) by long_range.
  rewrite (to_long_id (tv_usec x - tv_usec y)) by long_range.
  destruct (Z.ltb_spec (tv_sec x) (tv_sec y)) as [Hneg | _]; [ lia | ].
  reflexivity.
Qed.

(** C6.  For a start and an end timestamp, the end not earlier than the
    start, [timeval_subtract] gives the exact difference as a duration with
    non-negative seconds and a microsecond part between 0 and 999999, and
    reports that the difference is not negative; from (5 s, 900000 us) to
    (6 s, 100000 us) the duration is (0 s, 200000 us). *)
Theorem timeval_subtract_exact :
  (forall end_time start_time : timeval,
      timestamp start_time -> timestamp end_time ->
      micros start_time <= micros end_time ->
      let '(result, _, negative) := timeval_subtract end_time start_time in
      micros result = micros end_time - micros start_time
      /\ 0 <= tv_sec result
      /\ 0 <= tv_usec result < 1000000
      /\ negative = false)
  /\ fst (fst (timeval_subtract (mk_timeval 6 100000) (mk_timeval 5 900000)))
     = mk_timeval 0 200000.
Proof.
  split; [ | reflexivity ].
  intros x y Hy Hx Hle.
  pose proof Hx as [Hxs Hxu]. pose proof Hy as [Hys Hyu].
  unfold micros in Hle.
  destruct (Z.lt_ge_cases (tv_usec x) (tv_usec y)) as [Hlt | Hge].
  - rewrite timeval_subtract_borrow by (auto; lia).
    unfold micros; cbn [tv_sec tv_usec]. lia.
  - rewrite timeval_subtract_plain by (auto; lia).
    unfold micros; cbn [tv_sec tv_usec]. lia.
Qed.

Lemma timeval_subtract_exact_witness :
  timestamp (mk_timeval 5 900000) /\ timestamp (mk_timeval 6 100000)
  /\ micros (fst (fst (timeval_subtract (mk_timeval 6 100000) (mk_timeval 5 900000))))
     = micros (mk_timeval 6 100000) - micros (mk_timeval 5 900000).
Proof.
  assert (Hs : timestamp (mk_timeval 5 900000)).
  { apply timestampb_spec. reflexivity. }
  assert (He : timestamp (mk_timeval 6 100000)).
  { apply timestampb_spec. reflexivity. }
  split; [ exact Hs | split; [ exact He | ] ].
  assert (Hle : micros (mk_timeval 5 900000) <= micros (mk_timeval 6 100000)).
  { vm_compute. discriminate. }
  exact (proj1 (proj1 timeval_subtract_exact (mk_timeval 6 100000) (mk_timeval 5 900000)
                  Hs He Hle)).
Defined.

(** ** Filters *)

Section FilterProperties.
Context {extraction : NumberExtraction}.

Lemma match_loop_true (chunk : Chunk) (numbers : list linenumber_t) :
  LineFilter.match_loop chunk numbers = true <->
  exists n, In n numbers /\ start_line chunk <= n <= end_line chunk.
Proof.
  induction numbers as [ | number numbers IH ]; cbn [LineFilter.match_loop].
  - split; [ discriminate | intros (n & [] & _) ].
  - destruct ((start_line chunk <=? number) && (end_line chunk >=? number)) eqn:Hin.
    + apply andb_true_iff in Hin as [Hlo Hhi].
      apply Z.leb_le in Hlo. rewrite Z.geb_le in Hhi.
      split; [ intros _ | reflexivity ].
      exists number. split; [ left; reflexivity | lia ].
    + rewrite IH. split.
      * intros (n & Hn & Hrange). exists n. split; [ right; exact Hn | exact Hrange ].
      * intros (n & [Heq | Hn] & Hrange).
        -- subst n. apply andb_false_iff in Hin as [Hlo | Hhi].
           ++ apply Z.leb_gt in Hlo. lia.
           ++ rewrite Z.geb_leb in Hhi. apply Z.leb_gt in Hhi. lia.
        -- exists n. split; assumption.
Qed.

Lemma match_no_linenumbers (f : LineFilter.t) (chunk : Chunk) :
  LineFilter.linenumbers f = [] -> LineFilter.match_ f chunk = false.
Proof. unfold LineFilter.match_. intros ->. reflexivity. Qed.

(** The loop of [setParams] stops at the first token that is not a number
    and leaves no line number behind. *)
Lemma parse_stopped (lines : list string) :
  forall (acc numbers : list linenumber_t) (tok : string),
    LineFilter.parse lines acc = (numbers, Some tok) ->
    numbers = [] /\ In tok lines /\ extract tok = None.
Proof.
  induction lines as [ | line lines IH ]; intros acc numbers tok; cbn [LineFilter.parse].
  - discriminate.
  - destruct (extract line) as [ number | ] eqn:Hline.
    + intros Hrest. destruct (IH _ _ _ Hrest) as (Hnil & Hin & Htok).
      repeat split; [ exact Hnil | right; exact Hin | exact Htok ].
    + intros [= <- <-]. repeat split; [ left; reflexivity | exact Hline ].
Qed.

Lemma parse_bad_token (lines : list string) :
  forall (acc : list linenumber_t) (tok : string),
    In tok lines -> extract tok = None ->
    exists bad, LineFilter.parse lines acc = ([], Some bad).
Proof.
  induction lines as [ | line lines IH ]; intros acc tok; cbn [LineFilter.parse In].
  - intros [].
  - intros Hin Htok. destruct (extract line) as [ number | ] eqn:Hline.
    + destruct Hin as [ -> | Hin ]; [ congruence | ].
      exact (IH _ tok Hin Htok).
    + exists line. reflexivity.
Qed.

Lemma setParams_failed (f f' : LineFilter.t) (params errmsg errmsg' : string) :
  LineFilter.setParams f params errmsg = (false, f', errmsg') ->
  LineFilter.linenumbers f' = []
  /\ (errmsg' = "No linenumbers given."%string
      \/ exists tok, In tok (getlines ","%char EmptyString params)
                     /\ extract tok = None
                     /\ errmsg' = ("Not a number: " ++ tok)%string).
Proof.
  unfold LineFilter.setParams.
  destruct (LineFilter.parse _ _) as [numbers [ tok | ]] eqn:Hparse.
  - intros [= <- <-]. split; [ reflexivity | right ].
    apply parse_stopped in Hparse as (_ & Hin & Htok).
    exists tok. repeat split; assumption.
  - destruct numbers as [ | number numbers ]; cbn [negb].
    + intros [= <- <-]. split; [ reflexivity | left; reflexivity ].
    + discriminate.
Qed.

Lemma Line_unconfigured (f : LineFilter.t) :
  Filter.unconfigured (Filter.Line f) -> LineFilter.linenumbers f = [].
Proof.
  intros H. inversion H as [ | | | f0 params errmsg f1 errmsg' _ Hset Hf1 ].
  - reflexivity.
  - destruct f0 as [ g | g | g ]; cbn [Filter.setParams] in Hset.
    + destruct (LineFilter.setParams g params errmsg) as [[ok g'] e] eqn:Hg.
      injection Hset as Hok Hg' He. subst ok g' e.
      exact (proj1 (setParams_failed _ _ _ _ _ Hg)).
    + unfold RegexFilter.setParams in Hset. discriminate.
    + unfold RegexFilter.setParams in Hset. discriminate.
Qed.

Lemma chain_match_true (filters : FilterChain.t) (chunk : Chunk) :
  FilterChain.match_ filters chunk = true <->
  forall f, In f filters -> Filter.match_ f chunk = true.
Proof.
  induction filters as [ | filter filters IH ]; cbn [FilterChain.match_ In].
  - split; [ intros _ f [] | reflexivity ].
  - destruct (Filter.match_ filter chunk) eqn:Hfilter; cbn [negb].
    + rewrite IH. split.
      * intros Hall f [ <- | Hin ]; [ exact Hfilter | exact (Hall f Hin) ].
      * intros Hall f Hin. apply Hall. right. exact Hin.
    + split; [ discriminate | ].
      intros Hall. rewrite <- Hfilter. apply Hall. left. reflexivity.
Qed.

End FilterProperties.

(** C7.  [LineFilter::match] returns true exactly when one of the line
    numbers of the filter lies between [start_line] and [end_line], both
    included; the filter set up from the parameter 5 holds the line 5,
    matches a chunk of the lines 3 to 7 and does not match a chunk of the
    lines 8 to 10. *)
Theorem LineFilter_match_inclusive :
  (forall (f : LineFilter.t) (chunk : Chunk),
      LineFilter.match_ f chunk = true <->
      exists n, In n (LineFilter.linenumbers f)
                /\ start_line chunk <= n <= end_line chunk)
  /\ (forall errmsg,
         @LineFilter.setParams decimal_extraction LineFilter.create "5" errmsg
         = (true, LineFilter.mk [5], errmsg))
  /\ (forall text desc diag,
         LineFilter.match_ (LineFilter.mk [5]) (mk_Chunk 3 7 text desc diag) = true)
  /\ (forall text desc diag,
         LineFilter.match_ (LineFilter.mk [5]) (mk_Chunk 8 10 text desc diag) = false).
Proof.
  split; [ | split; [ | split ] ].
  - intros f chunk. unfold LineFilter.match_. apply match_loop_true.
  - intros errmsg. reflexivity.
  - intros text desc diag. reflexivity.
  - intros text desc diag. reflexivity.
Qed.

Lemma LineFilter_match_inclusive_witness :
  exists n, In n [5] /\ 3 <= n <= 7.
Proof.
  apply (proj1 (proj1 LineFilter_match_inclusive (LineFilter.mk [5])
                  (Script.chunk_of 3 7 "select 1;"%string))).
  reflexivity.
Defined.

(** C8.  [FilterChain::match] returns true exactly when every filter of the
    chain matches the chunk; the chain without filters matches every chunk,
    and a chain that holds a filter which matches no chunk matches no chunk,
    whatever its other filters are. *)
Theorem FilterChain_match_conjunction :
  (forall (filters : FilterChain.t) (chunk : Chunk),
      FilterChain.match_ filters chunk = true <->
      forall f, In f filters -> Filter.match_ f chunk = true)
  /\ (forall chunk : Chunk, FilterChain.match_ [] chunk = true)
  /\ (forall (filters : FilterChain.t) (never : Filter.t),
         In never filters ->
         (forall chunk, Filter.match_ never chunk = false) ->
         forall chunk, FilterChain.match_ filters chunk = false).
Proof.
  split; [ | split ].
  - exact chain_match_true.
  - intros chunk. reflexivity.
  - intros filters never Hin Hnever chunk.
    destruct (FilterChain.match_ filters chunk) eqn:Hchain; [ | reflexivity ].
    rewrite chain_match_true in Hchain.
    specialize (Hchain never Hin). rewrite Hnever in Hchain. discriminate Hchain.
Qed.

Lemma FilterChain_match_conjunction_witness :
  FilterChain.match_
    (FilterChain.addFilter
       (FilterChain.addFilter [Filter.DescriptionRegex RegexFilter.create]
          (Filter.Line LineFilter.create))
       (Filter.ContentRegex RegexFilter.create))
    (Script.chunk_of 3 7 "select 1;"%string) = false.
Proof.
  apply (proj2 (proj2 FilterChain_match_conjunction) _ (Filter.Line LineFilter.create)).
  - simpl. right. left. reflexivity.
  - intros chunk. reflexivity.
Defined.

(** C3, as the code has it.  A [LineFilter] whose parameters were never
    parsed with success matches no chunk.  Whenever
    [LineFilter::setParams] returns false it leaves the filter without line
    numbers, so that it matches no chunk, and the error message is either
    that no line number was given or names a token of the parameters that
    is not a number; it returns false whenever a token is not a number and
    whenever the filter holds no line number afterwards.  The regex filters
    are stubs: [RegexFilter::setParams] returns true and changes nothing,
    and the two regex filters match every chunk. *)
Theorem LineFilter_fails_closed {extraction : NumberExtraction} :
  (forall (f : LineFilter.t) (chunk : Chunk),
      Filter.unconfigured (Filter.Line f) -> LineFilter.match_ f chunk = false)
  /\ (forall (f f' : LineFilter.t) (params errmsg errmsg' : string),
         LineFilter.setParams f params errmsg = (false, f', errmsg') ->
         LineFilter.linenumbers f' = []
         /\ (forall chunk, LineFilter.match_ f' chunk = false)
         /\ (errmsg' = "No linenumbers given."%string
             \/ exists tok, In tok (getlines ","%char EmptyString params)
                            /\ extract tok = None
                            /\ errmsg' = ("Not a number: " ++ tok)%string))
  /\ (forall (f : LineFilter.t) (params errmsg tok : string),
         In tok (getlines ","%char EmptyString params) -> extract tok = None ->
         fst (fst (LineFilter.setParams f params errmsg)) = false)
  /\ (forall (f : LineFilter.t) (params errmsg : string),
         LineFilter.linenumbers (snd (fst (LineFilter.setParams f params errmsg))) = [] ->
         fst (fst (LineFilter.setParams f params errmsg)) = false)
  /\ (forall (f : RegexFilter.t) (params errmsg : string),
         RegexFilter.setParams f params errmsg = (true, f, errmsg))
  /\ (forall (f : RegexFilter.t) (chunk : Chunk),
         DescriptionRegexFilter.match_ f chunk = true
         /\ ContentRegexFilter.match_ f chunk = true).
Proof.
  repeat apply conj.
  - intros f chunk Hf. apply match_no_linenumbers. exact (Line_unconfigured f Hf).
  - intros f f' params errmsg errmsg' Hset.
    destruct (setParams_failed _ _ _ _ _ Hset) as [Hnil Hmsg].
    split; [ exact Hnil | split; [ | exact Hmsg ] ].
    intros chunk. apply match_no_linenumbers. exact Hnil.
  - intros f params errmsg tok Hin Htok. unfold LineFilter.setParams.
    destruct (parse_bad_token _ (LineFilter.linenumbers f) tok Hin Htok) as [bad ->].
    reflexivity.
  - intros f params errmsg. unfold LineFilter.setParams.
    destruct (LineFilter.parse _ _) as [numbers [ tok | ]]; [ reflexivity | ].
    destruct numbers; [ reflexivity | discriminate ].
  - intros f params errmsg. reflexivity.
  - intros f chunk. split; reflexivity.
Qed.

Lemma LineFilter_fails_closed_witness :
  @LineFilter.setParams decimal_extraction LineFilter.create "3,x,5" EmptyString
  = (false, LineFilter.mk [], "Not a number: x"%string)
  /\ LineFilter.match_
       (snd (fst (@LineFilter.setParams decimal_extraction LineFilter.create "3,x,5"
                    EmptyString)))
       (Script.chunk_of 3 7 "select 1;"%string) = false.
Proof.
  split; [ reflexivity | ].
  refine (proj1 (proj2 (proj1 (proj2 (@LineFilter_fails_closed decimal_extraction))
                          LineFilter.create _ "3,x,5"%string EmptyString _ _))
            (Script.chunk_of 3 7 "select 1;"%string)).
  reflexivity.
Defined.

(** The first half of C3 fails for the regex filters: a regex filter as
    constructed, whose parameters were never parsed, matches a chunk. *)
Lemma unconfigured_regex_filter_matches :
  @Filter.unconfigured decimal_extraction (Filter.DescriptionRegex RegexFilter.create)
  /\ Filter.match_ (Filter.DescriptionRegex RegexFilter.create)
       (Script.chunk_of 3 7 "select 1;"%string) = true
  /\ @Filter.unconfigured decimal_extraction (Filter.ContentRegex RegexFilter.create)
  /\ Filter.match_ (Filter.ContentRegex RegexFilter.create)
       (Script.chunk_of 3 7 "select 1;"%string) = true.
Proof.
  split; [ constructor | split; [ reflexivity | split; [ constructor | reflexivity ] ] ].
Qed.

(** ** Computations *)

Lemma bind_returns {S A B : Type} (m : M S A) (k : A -> M S B) (s s' : S) (a : A) :
  m s = (Returns a, s') -> bind m k s = k a s'.
Proof. unfold bind. intros ->. reflexivity. Qed.

Lemma bind_Returns_inv {S A B : Type} (m : M S A) (k : A -> M S B) (s s'' : S) (b : B) :
  bind m k s = (Returns b, s'') ->
  exists a s', m s = (Returns a, s') /\ k a s' = (Returns b, s'').
Proof.
  unfold bind. destruct (m s) as [[ a | e | ] s'].
  - intros Hk. exists a, s'. split; [ reflexivity | exact Hk ].
  - discriminate.
  - discriminate.
Qed.

Lemma bind_assoc {S A B C : Type} (m : M S A) (k1 : A -> M S B) (k2 : B -> M S C) (s : S) :
  bind (bind m k1) k2 s = bind m (fun a => bind (k1 a) k2) s.
Proof. unfold bind. destruct (m s) as [[ a | e | ] s']; reflexivity. Qed.


Lemma bind_frame {S A B : Type} (R : S -> S -> Prop) (m : M S A) (k : A -> M S B) :
  (forall s1 s2 s3, R s1 s2 -> R s2 s3 -> R s1 s3) ->
  (forall s r s', m s = (r, s') -> R s s') ->
  (forall a s r s', k a s = (r, s') -> R s s') ->
  forall s r s', bind m k s = (r, s') -> R s s'.
Proof.
  intros Htrans Hm Hk s r s'. unfold bind.
  destruct (m s) as [[ a | e | ] s1] eqn:Hrun.
  - intros Hrest. exact (Htrans _ _ _ (Hm _ _ _ Hrun) (Hk _ _ _ _ Hrest)).
  - intros [= <- <-]. exact (Hm _ _ _ Hrun).
  - intros [= <- <-]. exact (Hm _ _ _ Hrun).
Qed.

(** ** The execution engine *)

Section DbProperties.
Context {pq : Libpq} {sys : SysClock} {hdr : Headers}.
Local Open Scope string_scope.
Local Open Scope list_scope.
Import Db.

Lemma isConnected_run (s : Db.Session) :
  Db.isConnected s =
    (Returns (ConnStatusType_eqb (Db.conn_status (Db.conn (Db.db s))) CONNECTION_OK),
     Db.add_log
       (LogDebug,
        if ConnStatusType_eqb (Db.conn_status (Db.conn (Db.db s))) CONNECTION_OK
        then "got a working db connection" else "no db connection") s).
Proof.
  unfold Db.isConnected, bind, get, Db.log_debug, modify, ret.
  destruct (ConnStatusType_eqb _ _); reflexivity.
Qed.

(** Whatever the server answers, [executeSql] hands exactly its statement
    to [PQexec] and touches neither the flags, nor the count of failed
    chunks, nor the clock. *)
Lemma executeSql_frame (q : string) (silent : bool) (s s' : Db.Session) (r : outcome unit) :
  Db.executeSql q silent s = (r, s') ->
  same_counts s s'
  /\ Db.clock s' = Db.clock s
  /\ Db.submitted s' = Db.submitted s ++ [q]
  /\ exists l, Db.log s' = Db.log s ++ l.
Proof.
  unfold Db.executeSql.
  rewrite (bind_returns _ _ _ _ _ (isConnected_run s)).
  unfold bind, Db.exec, Db.log_warn, Db.log_debug, Db.log_error, modify, ret, throw.
  destruct (ConnStatusType_eqb _ _); cbn [negb];
    destruct s as [[[ c | ] commit failed open] clk lg sub]; cbn;
    try destruct (PQexec c q) as [c' [ pgres | ]]; cbn;
    try destruct (is_error pgres); try destruct silent; cbn;
    intros [= <- <-]; cbn; unfold same_counts; cbn;
    (repeat split; rewrite <- ?app_assoc; eexists; reflexivity).
Qed.

Lemma executeSql_accepted (q : string) (silent : bool) (s : Db.Session) (c c' : PGconn) :
  Db.conn (Db.db s) = Some c -> accepted c q c' ->
  exists l,
    Db.executeSql q silent s =
      (Returns tt,
       Db.mk_Session
         (Db.mk (Some c') (Db.do_commit (Db.db s)) (Db.failed_count (Db.db s))
            (Db.in_transaction (Db.db s)))
         (Db.clock s) (Db.log s ++ l) (Db.submitted s ++ [q])).
Proof.
  intros Hc (pgres & Hexec & Hok).
  unfold Db.executeSql.
  rewrite (bind_returns _ _ _ _ _ (isConnected_run s)).
  unfold bind, Db.exec, Db.log_warn, Db.log_debug, Db.log_error, modify, ret, throw.
  destruct s as [[c0 commit failed open] clk lg sub]; cbn in Hc; subst c0.
  destruct (ConnStatusType_eqb _ _); cbn; rewrite Hexec; cbn; rewrite Hok;
    unfold Db.add_submitted, Db.set_conn, Db.add_log; cbn;
    rewrite <- ?app_assoc; eexists; reflexivity.
Qed.

(** [rollback] and [commit] as [finish] uses them: [q] is the statement
    the call sends when a transaction is open. *)
Lemma closing_run (m : M Db.Session unit) (q : string) :
  (forall s, m s =
     bind get (fun s0 =>
       if Db.in_transaction (Db.db s0) then
         bind (Db.executeSql q silent_default)
              (fun _ => modify (Db.set_in_transaction false))
       else ret tt) s) ->
  forall s,
    Db.submitted (snd (m s)) =
      Db.submitted s ++ (if Db.in_transaction (Db.db s) then [q] else [])
    /\ Db.do_commit (Db.db (snd (m s))) = Db.do_commit (Db.db s)
    /\ Db.failed_count (Db.db (snd (m s))) = Db.failed_count (Db.db s)
    /\ (fst (m s) = Returns tt -> Db.in_transaction (Db.db (snd (m s))) = false)
    /\ (Db.in_transaction (Db.db s) = false -> m s = (Returns tt, s))
    /\ (forall c c', Db.conn (Db.db s) = Some c -> accepted c q c' -> fst (m s) = Returns tt).
Proof.
  intros Hm s.
  assert (Hs : m s =
            if in_transaction (db s) then
              bind (executeSql q silent_default)
                   (fun _ => modify (set_in_transaction false)) s
            else (Returns tt, s)).
  { rewrite Hm. unfold bind at 1, get. cbn beta iota.
    destruct (in_transaction (db s)); reflexivity. }
  rewrite Hs. clear Hm Hs.
  destruct (in_transaction (db s)) eqn:Hopen.
  - unfold bind, modify.
    destruct (executeSql q silent_default s) as [r s'] eqn:Hexec.
    pose proof (executeSql_frame _ _ _ _ _ Hexec) as ((Hcommit & Hfailed & Hin) & _ & Hsub & _).
    repeat split.
    + destruct r; cbn; exact Hsub.
    + destruct r; cbn; exact Hcommit.
    + destruct r; cbn; exact Hfailed.
    + destruct r; cbn; [ reflexivity | discriminate | discriminate ].
    + discriminate.
    + intros c c' Hc Hacc.
      destruct (executeSql_accepted q silent_default s c c' Hc Hacc) as [l Hrun].
      rewrite Hrun in Hexec. injection Hexec as <- <-. reflexivity.
  - cbn. rewrite app_nil_r. repeat split; auto.
Qed.

Lemma rollback_run (s : Db.Session) :
  Db.submitted (snd (Db.rollback s)) =
    Db.submitted s ++ (if Db.in_transaction (Db.db s) then ["rollback;"] else [])
  /\ Db.do_commit (Db.db (snd (Db.rollback s))) = Db.do_commit (Db.db s)
  /\ Db.failed_count (Db.db (snd (Db.rollback s))) = Db.failed_count (Db.db s)
  /\ (fst (Db.rollback s) = Returns tt ->
      Db.in_transaction (Db.db (snd (Db.rollback s))) = false)
  /\ (Db.in_transaction (Db.db s) = false -> Db.rollback s = (Returns tt, s))
  /\ (forall c c', Db.conn (Db.db s) = Some c -> accepted c "rollback;" c' ->
                   fst (Db.rollback s) = Returns tt).
Proof. apply closing_run. reflexivity. Qed.

Lemma commit_run (s : Db.Session) :
  Db.do_commit (Db.db s) = true ->
  Db.submitted (snd (Db.commit s)) =
    Db.submitted s ++ (if Db.in_transaction (Db.db s) then ["commit;"] else [])
  /\ Db.do_commit (Db.db (snd (Db.commit s))) = Db.do_commit (Db.db s)
  /\ Db.failed_count (Db.db (snd (Db.commit s))) = Db.failed_count (Db.db s)
  /\ (fst (Db.commit s) = Returns tt ->
      Db.in_transaction (Db.db (snd (Db.commit s))) = false)
  /\ (Db.in_transaction (Db.db s) = false -> Db.commit s = (Returns tt, s))
  /\ (forall c c', Db.conn (Db.db s) = Some c -> accepted c "commit;" c' ->
                   fst (Db.commit s) = Returns tt).
Proof.
  intros Hcommit.
  assert (Hm : Db.commit s =
    bind get (fun s0 =>
      if Db.in_transaction (Db.db s0) then
        bind (Db.executeSql "commit;" silent_default)
             (fun _ => modify (Db.set_in_transaction false))
      else ret tt) s).
  { unfold Db.commit, bind at 1, get. rewrite Hcommit. reflexivity. }
  rewrite Hm.
  apply (closing_run
           (bind get (fun s0 =>
              if Db.in_transaction (Db.db s0) then
                bind (Db.executeSql "commit;" silent_default)
                     (fun _ => modify (Db.set_in_transaction false))
              else ret tt)) "commit;").
  reflexivity.
Qed.

Lemma commit_dry_run (s : Db.Session) :
  Db.do_commit (Db.db s) = false -> Db.commit s = Db.rollback s.
Proof.
  intros Hcommit. unfold Db.commit, bind at 1, get. rewrite Hcommit. reflexivity.
Qed.

Lemma finish_close (m : M Session unit) (s : Session) :
  finish s = bind m (fun _ => modify (set_failed_count 0)) s ->
  submitted (snd (finish s)) = submitted (snd (m s))
  /\ (fst (m s) = Returns tt -> fst (finish s) = Returns tt)
  /\ (fst (finish s) = Returns tt ->
      fst (m s) = Returns tt
      /\ failed_count (db (snd (finish s))) = 0
      /\ in_transaction (db (snd (finish s))) = in_transaction (db (snd (m s)))).
Proof.
  intros ->. unfold bind, modify.
  destruct (m s) as [[ [] | e | ] s1]; cbn.
  - repeat split.
  - split; [ reflexivity | split; discriminate ].
  - split; [ reflexivity | split; discriminate ].
Qed.

Lemma finish_failed (s : Session) :
  0 < failed_count (db s) ->
  finish s = bind rollback (fun _ => modify (set_failed_count 0)) s.
Proof.
  intros Hfailed. unfold finish, bind at 1, get. cbn beta iota.
  destruct (Z.gtb_spec (failed_count (db s)) 0) as [_ | Hle]; [ reflexivity | lia ].
Qed.

Lemma finish_clean (s : Session) :
  failed_count (db s) <= 0 ->
  finish s = bind commit (fun _ => modify (set_failed_count 0)) s.
Proof.
  intros Hfailed. unfold finish, bind at 1, get. cbn beta iota.
  destruct (Z.gtb_spec (failed_count (db s)) 0) as [Hgt | _]; [ lia | reflexivity ].
Qed.



End DbProperties.


Section RunChunkProperties.
Context {pq : Libpq} {sys : SysClock} {hdr : Headers}.
Local Open Scope string_scope.
Local Open Scope list_scope.
Import Db.

Lemma in_session_run {A : Type} (m : M Session A) (s s' : Session) (chunk : Chunk)
  (r : outcome A) :
  m s = (r, s') -> in_session m (s, chunk) = (r, (s', chunk)).
Proof. unfold in_session. intros ->. reflexivity. Qed.

Lemma in_session_inv {A : Type} (m : M Session A) (st st' : RunState) (r : outcome A) :
  in_session m st = (r, st') ->
  m (fst st) = (r, fst st') /\ snd st' = snd st.
Proof.
  destruct st as [s chunk]. unfold in_session. cbn [fst snd].
  destruct (m s) as [r0 s0]. intros [= <- <-]. split; reflexivity.
Qed.

Lemma begin_served (s : Session) (c c1 : PGconn) :
  conn (db s) = Some c ->
  (if in_transaction (db s) then c1 = c else accepted c "begin;" c1) ->
  exists l,
    begin s =
      (Returns tt,
       mk_Session (mk (Some c1) (do_commit (db s)) (failed_count (db s)) true)
         (clock s) (log s ++ l)
         (submitted s ++ (if in_transaction (db s) then [] else ["begin;"]))).
Proof.
  intros Hc Hbegin. unfold begin, bind at 1, get. cbn beta iota.
  destruct (in_transaction (db s)) eqn:Hopen; cbn [negb].
  - subst c1. exists []. rewrite !app_nil_r.
    destruct s as [[c0 commit failed open] clk lg sub]; cbn in *. subst. reflexivity.
  - destruct (executeSql_accepted "begin;" silent_default s c c1 Hc Hbegin) as [l Hrun].
    exists l. rewrite (bind_returns _ _ _ _ _ Hrun). reflexivity.
Qed.

Lemma now_run (s : Session) (clk : Clock) (t : timeval) :
  gettimeofday (clock s) = (clk, inl t) ->
  now s = (Returns t, mk_Session (db s) clk (log s) (submitted s)).
Proof. unfold now. intros ->. reflexivity. Qed.

Lemma exec_run (s : Session) (q : string) (c c' : PGconn) (pgres : option PGresult) :
  conn (db s) = Some c -> PQexec c q = (c', pgres) ->
  exec q s =
    (Returns pgres,
     mk_Session (mk (Some c') (do_commit (db s)) (failed_count (db s))
                   (in_transaction (db s)))
       (clock s) (log s) (submitted s ++ [q])).
Proof. unfold exec. intros -> ->. reflexivity. Qed.

Lemma assign_field_run (pgres : PGresult) (field : PGdiag)
  (set : string -> Diagnostics.t -> Diagnostics.t) (s : Session) (chunk : Chunk)
  (d : Diagnostics.t) :
  (forall v d0, Diagnostics.status (set v d0) = Diagnostics.status d0
                /\ Diagnostics.error_line (set v d0) = Diagnostics.error_line d0) ->
  exists d',
    assign_field pgres field set (s, set_diagnostics d chunk)
    = (Returns tt, (s, set_diagnostics d' chunk))
    /\ Diagnostics.status d' = Diagnostics.status d
    /\ Diagnostics.error_line d' = Diagnostics.error_line d.
Proof.
  intros Hset. unfold assign_field.
  destruct (PQresultErrorField pgres field) as [ v | ].
  - exists (set v d). split; [ reflexivity | apply Hset ].
  - exists d. repeat split.
Qed.

Lemma session_eta (s : Session) :
  mk_Session (db s) (clock s) (log s ++ []) (submitted s) = s.
Proof. destruct s. cbn. rewrite app_nil_r. reflexivity. Qed.

Lemma locate_error_run (pgres : PGresult) (text : string) (s : Session) (chunk : Chunk)
  (d : Diagnostics.t) :
  (forall statement_position,
      PQresultErrorField pgres PG_DIAG_STATEMENT_POSITION = Some statement_position ->
      exists pos, CString.atoi statement_position = Some pos /\ 0 <= pos) ->
  exists l d',
    locate_error pgres text (s, set_diagnostics d chunk)
    = (Returns tt,
       (mk_Session (db s) (clock s) (log s ++ l) (submitted s), set_diagnostics d' chunk))
    /\ Diagnostics.status d' = Diagnostics.status d
    /\ located pgres text chunk d d' l.
Proof.
  intros Hpos. unfold locate_error, located.
  destruct (PQresultErrorField pgres PG_DIAG_STATEMENT_POSITION) as [ sp | ].
  - destruct (Hpos sp eq_refl) as (pos & Hatoi & Hnn). rewrite Hatoi.
    destruct (Z.ltb_spec pos (CString.size text)) as [Hin | Hout].
    + destruct (Z.ltb_spec pos 0) as [Hneg | _]; [ lia | ].
      exists [], (Diagnostics.set_error_line
                    (start_line chunk + CString.count_before text pos CString.newline) d).
      rewrite session_eta. split; [ reflexivity | split; [ reflexivity | ] ].
      intros pos' [= <-]. split; [ reflexivity | lia ].
    + exists [(LogError, "PG_DIAG_STATEMENT_POSITION is beyond the length of sql string")], d.
      split; [ reflexivity | split; [ reflexivity | ] ].
      intros pos' [= <-]. split; [ lia | ].
      intros _. split; [ reflexivity | left; reflexivity ].
  - exists [(LogDebug, "got an empty PG_DIAG_STATEMENT_POSITION")],
      (Diagnostics.set_error_line LINE_NUMBER_NOT_AVAILABLE d).
    split; [ reflexivity | split; reflexivity ].
Qed.

Lemma record_failure_run (pgres : PGresult) (text : string) (s : Session) (chunk : Chunk)
  (d : Diagnostics.t) :
  (forall statement_position,
      PQresultErrorField pgres PG_DIAG_STATEMENT_POSITION = Some statement_position ->
      exists pos, CString.atoi statement_position = Some pos /\ 0 <= pos) ->
  exists l d',
    record_failure pgres text (s, set_diagnostics d chunk)
    = (Returns tt,
       (mk_Session (db s) (clock s) (log s ++ l) (submitted s), set_diagnostics d' chunk))
    /\ Diagnostics.status d' = Diagnostics.Fail
    /\ located pgres text chunk d d' l.
Proof.
  intros Hpos. unfold record_failure.
  rewrite (bind_returns _ _ _ _ _
             (eq_refl : update_diagnostics (Diagnostics.set_status Diagnostics.Fail)
                          (s, set_diagnostics d chunk)
                        = (Returns tt,
                           (s, set_diagnostics
                                 (Diagnostics.set_status Diagnostics.Fail d) chunk)))).
  destruct (locate_error_run pgres text s chunk
              (Diagnostics.set_status Diagnostics.Fail d) Hpos)
    as (l & d1 & Hrun & Hstatus & Hline).
  rewrite (bind_returns _ _ _ _ _ Hrun).
  destruct (assign_field_run pgres PG_DIAG_SQLSTATE Diagnostics.set_sqlstate
              (mk_Session (db s) (clock s) (log s ++ l) (submitted s)) chunk d1
              ltac:(intros; split; reflexivity)) as (d2 & Hrun2 & Hs2 & Hl2).
  rewrite (bind_returns _ _ _ _ _ Hrun2).
  destruct (assign_field_run pgres PG_DIAG_MESSAGE_PRIMARY Diagnostics.set_msg_primary
              (mk_Session (db s) (clock s) (log s ++ l) (submitted s)) chunk d2
              ltac:(intros; split; reflexivity)) as (d3 & Hrun3 & Hs3 & Hl3).
  rewrite (bind_returns _ _ _ _ _ Hrun3).
  destruct (assign_field_run pgres PG_DIAG_MESSAGE_DETAIL Diagnostics.set_msg_detail
              (mk_Session (db s) (clock s) (log s ++ l) (submitted s)) chunk d3
              ltac:(intros; split; reflexivity)) as (d4 & Hrun4 & Hs4 & Hl4).
  rewrite (bind_returns _ _ _ _ _ Hrun4).
  destruct (assign_field_run pgres PG_DIAG_MESSAGE_HINT Diagnostics.set_msg_hint
              (mk_Session (db s) (clock s) (log s ++ l) (submitted s)) chunk d4
              ltac:(intros; split; reflexivity)) as (d5 & Hrun5 & Hs5 & Hl5).
  rewrite Hrun5.
  exists l, d5. split; [ reflexivity | split ].
  - rewrite Hs5, Hs4, Hs3, Hs2, Hstatus. reflexivity.
  - unfold located in *.
    destruct (PQresultErrorField pgres PG_DIAG_STATEMENT_POSITION) as [ sp | ].
    + intros pos Hatoi. destruct (Hline pos Hatoi) as [Hin Hout].
      split; intros Hcase; rewrite Hl5, Hl4, Hl3, Hl2; [ exact (Hin Hcase) | exact (Hout Hcase) ].
    + rewrite Hl5, Hl4, Hl3, Hl2. exact Hline.
Qed.

Lemma the_chunk_run (s : Session) (chunk : Chunk) :
  the_chunk (s, chunk) = (Returns chunk, (s, chunk)).
Proof. reflexivity. Qed.

Lemma update_diagnostics_run (f : Diagnostics.t -> Diagnostics.t) (s : Session)
  (chunk : Chunk) :
  update_diagnostics f (s, chunk)
  = (Returns tt, (s, set_diagnostics (f (diagnostics chunk)) chunk)).
Proof. reflexivity. Qed.

Lemma ret_run {S A : Type} (a : A) (s : S) : ret a s = (Returns a, s).
Proof. reflexivity. Qed.

Lemma set_diagnostics_twice (a b : Diagnostics.t) (chunk : Chunk) :
  set_diagnostics a (set_diagnostics b chunk) = set_diagnostics a chunk.
Proof. reflexivity. Qed.

Lemma count_failure_run (s : Session) :
  bind get (fun s0 => modify (set_failed_count (to_int (failed_count (db s0) + 1)))) s
  = (Returns tt, set_failed_count (to_int (failed_count (db s) + 1)) s).
Proof. reflexivity. Qed.

Ltac next_state k :=
  match goal with
  | |- context [bind _ _ (?S, _)] => k S
  end.

(** A call of [runChunk] that is served returns, and this is what it
    leaves behind. *)
Lemma runChunk_served (s : Session) (chunk : Chunk) (pgres : PGresult) :
  served s chunk pgres ->
  exists (d' : Diagnostics.t) (s' : Session) (l : list LogEntry),
    runChunk chunk s = (Returns (negb (is_error pgres)), set_diagnostics d' chunk, s')
    /\ do_commit (db s') = do_commit (db s)
    /\ in_transaction (db s') = true
    /\ failed_count (db s') =
         (if is_error pgres then to_int (failed_count (db s) + 1)
          else failed_count (db s))
    /\ submitted s' =
         submitted s ++ (if in_transaction (db s) then [] else ["begin;"])
         ++ ["savepoint chunk;"; getSql chunk;
             if is_error pgres then "rollback to savepoint chunk;"
             else "release savepoint chunk;"]
    /\ log s' = log s ++ l
    /\ Diagnostics.status d' =
         (if is_error pgres then Diagnostics.Fail else Diagnostics.Ok)
    /\ (is_error pgres = true ->
        exists l0 l1 l2, l = l0 ++ l1 ++ l2
                         /\ located pgres (getSql chunk) chunk (diagnostics chunk) d' l1).
Proof.
  intros [c c1 c2 c3 c4 clk1 clk2 t0 t1 Hc Hok Hbegin Ht0 Hsp Hsql Ht1 Hpos Hlast].
  unfold runChunk, runChunk_body.
  pose proof (isConnected_run s) as H1.
  rewrite Hc in H1. cbn [conn_status] in H1. rewrite Hok in H1.
  cbn [ConnStatusType_eqb] in H1.
  rewrite (bind_returns _ _ _ _ _ (in_session_run _ _ _ chunk _ H1)). cbn [negb].
  clear H1.
  next_state ltac:(fun S =>
    destruct (begin_served S c c1 Hc Hbegin) as [l2 H2]).
  rewrite (bind_returns _ _ _ _ _ (in_session_run _ _ _ chunk _ H2)). clear H2.
  cbn [db clock log submitted conn do_commit failed_count in_transaction add_log].
  rewrite (bind_returns _ _ _ _ _ (the_chunk_run _ _)).
  rewrite (bind_returns _ _ _ _ _ (update_diagnostics_run _ _ _)).
  next_state ltac:(fun S =>
    rewrite (bind_returns _ _ _ _ _ (in_session_run _ _ _ _ _ (now_run S clk1 t0 Ht0)))).
  cbn [db clock log submitted conn do_commit failed_count in_transaction].
  next_state ltac:(fun S =>
    destruct (executeSql_accepted "savepoint chunk;" silent_default S c1 c2 eq_refl Hsp)
      as [l6 H6]).
  rewrite (bind_returns _ _ _ _ _ (in_session_run _ _ _ _ _ H6)). clear H6.
  cbn [db clock log submitted conn do_commit failed_count in_transaction].
  next_state ltac:(fun S =>
    rewrite (bind_returns _ _ _ _ _
               (in_session_run _ _ _ _ _
                  (exec_run S (getSql chunk) c2 c3 (Some pgres) eq_refl Hsql)))).
  cbn [db clock log submitted conn do_commit failed_count in_transaction].
  next_state ltac:(fun S =>
    rewrite (bind_returns _ _ _ _ _ (in_session_run _ _ _ _ _ (now_run S clk2 t1 Ht1)))).
  cbn [db clock log submitted conn do_commit failed_count in_transaction].
  rewrite (bind_returns _ _ _ _ _ (update_diagnostics_run _ _ _)).
  rewrite set_diagnostics_twice.
  destruct (is_error pgres) eqn:Herr.
  - match goal with
    | |- context [bind _ _ (?S, set_diagnostics ?D chunk)] =>
        destruct (record_failure_run pgres (getSql chunk) S chunk D
                    (fun sp => Hpos sp eq_refl)) as (lf & d' & Hrf & Hst & Hloc)
    end.
    rewrite (bind_returns _ _ _ _ _ Hrf). clear Hrf.
    cbn [db clock log submitted conn do_commit failed_count in_transaction].
    rewrite (bind_returns _ _ _ _ _ (the_chunk_run _ _)).
    cbn [diagnostics set_diagnostics]. rewrite Hst. cbn [Diagnostics.Status_eqb negb].
    next_state ltac:(fun S =>
      destruct (executeSql_accepted "rollback to savepoint chunk;" silent_default S c3 c4
                  eq_refl Hlast) as [l9 H9]).
    rewrite bind_assoc.
    rewrite (bind_returns _ _ _ _ _ (in_session_run _ _ _ _ _ H9)). clear H9.
    cbn [db clock log submitted conn do_commit failed_count in_transaction].
    next_state ltac:(fun S =>
      rewrite (bind_returns _ _ _ _ _ (in_session_run _ _ _ _ _ (count_failure_run S)))).
    rewrite (bind_returns _ _ _ _ _ (the_chunk_run _ _)).
    cbn [diagnostics set_diagnostics]. rewrite Hst. cbn [Diagnostics.Status_eqb negb].
    unfold ret.
    exists d'. eexists. exists (([(LogDebug, "got a working db connection")] ++ l2 ++ l6) ++ lf ++ l9).
    split; [ reflexivity | ].
    cbn [db clock log submitted conn do_commit failed_count in_transaction set_failed_count].
    repeat split.
    + rewrite <- !app_assoc. reflexivity.
    + rewrite <- !app_assoc. reflexivity.
    + exact Hst.
    + intros _. eexists _, lf, l9. split; [ reflexivity | exact Hloc ].
  - rewrite (bind_returns _ _ _ _ _ (ret_run tt _)).
    rewrite (bind_returns _ _ _ _ _ (the_chunk_run _ _)).
    cbn [diagnostics set_diagnostics Diagnostics.status Diagnostics.set_runtime
           Diagnostics.set_status Diagnostics.Status_eqb negb].
    next_state ltac:(fun S =>
      destruct (executeSql_accepted "release savepoint chunk;" silent_default S c3 c4
                  eq_refl Hlast) as [l9 H9]).
    rewrite (bind_returns _ _ _ _ _ (in_session_run _ _ _ _ _ H9)). clear H9.
    cbn [db clock log submitted conn do_commit failed_count in_transaction].
    rewrite (bind_returns _ _ _ _ _ (the_chunk_run _ _)).
    cbn [diagnostics set_diagnostics Diagnostics.status Diagnostics.set_runtime
           Diagnostics.set_status Diagnostics.Status_eqb negb].
    unfold ret.
    eexists. eexists. exists ([(LogDebug, "got a working db connection")] ++ l2 ++ l6 ++ l9).
    split; [ reflexivity | ].
    cbn [db clock log submitted conn do_commit failed_count in_transaction].
    repeat split.
    + rewrite <- !app_assoc. reflexivity.
    + rewrite <- !app_assoc. reflexivity.
    + discriminate.
Qed.













End RunChunkProperties.


(** C4.  In a call of [runChunk] that is served, when the server answers
    with an error whose statement position is an offset [pos] inside the
    SQL text, [0 <= pos < size], the error line of the chunk is its start
    line plus the number of line feeds among the first [pos] characters of
    the text.  For the start line 10 and the two statements of the worked
    example, every offset into the second line gives the line 11. *)
Theorem runChunk_error_line {pq : Libpq} {sys : SysClock} {hdr : Headers} :
  (forall (s : Db.Session) (chunk : Chunk) (pgres : PGresult)
          (statement_position : string) (pos : Z),
      Db.served s chunk pgres ->
      is_error pgres = true ->
      PQresultErrorField pgres PG_DIAG_STATEMENT_POSITION = Some statement_position ->
      CString.atoi statement_position = Some pos ->
      0 <= pos < CString.size (getSql chunk) ->
      exists (chunk' : Chunk) (s' : Db.Session),
        Db.runChunk chunk s = (Returns false, chunk', s')
        /\ Diagnostics.error_line (diagnostics chunk') =
             start_line chunk
             + CString.count_before (getSql chunk) pos CString.newline)
  /\ (forall pos : Z,
         10 <= pos < CString.size Script.two_statements ->
         10 + CString.count_before Script.two_statements pos CString.newline = 11).
Proof.
  split.
  - intros s chunk pgres sp pos Hserved Herr Hfield Hatoi Hpos.
    destruct (runChunk_served s chunk pgres Hserved)
      as (d' & s' & l & Hrun & _ & _ & _ & _ & _ & _ & Hlocated).
    rewrite Herr in Hrun. cbn [negb] in Hrun.
    exists (set_diagnostics d' chunk), s'. split; [ exact Hrun | ].
    destruct (Hlocated Herr) as (l0 & l1 & l2 & _ & Hline).
    unfold Db.located in Hline. rewrite Hfield in Hline.
    exact (proj1 (Hline pos Hatoi) (proj2 Hpos)).
  - intros pos Hpos. change (CString.size Script.two_statements) with 19 in Hpos.
    assert (Hcases : pos = 10 \/ pos = 11 \/ pos = 12 \/ pos = 13 \/ pos = 14
                     \/ pos = 15 \/ pos = 16 \/ pos = 17 \/ pos = 18) by lia.
    repeat (destruct Hcases as [-> | Hcases]; [ reflexivity | ]).
    subst pos. reflexivity.
Qed.

(** C5.  In a call of [runChunk] that is served and that the server
    answers with an error: when the statement position is an offset at or
    beyond the length of the SQL text, [runChunk] returns false, leaves the
    error line of the chunk as it was before the call and writes an error
    entry to the log; when the error carries no statement position, the
    error line is [LINE_NUMBER_NOT_AVAILABLE]. *)
Theorem runChunk_no_error_line {pq : Libpq} {sys : SysClock} {hdr : Headers}
  (s : Db.Session) (chunk : Chunk) (pgres : PGresult) :
  Db.served s chunk pgres ->
  is_error pgres = true ->
  (forall (statement_position : string) (pos : Z),
      PQresultErrorField pgres PG_DIAG_STATEMENT_POSITION = Some statement_position ->
      CString.atoi statement_position = Some pos ->
      CString.size (getSql chunk) <= pos ->
      exists (chunk' : Chunk) (s' : Db.Session),
        Db.runChunk chunk s = (Returns false, chunk', s')
        /\ Diagnostics.error_line (diagnostics chunk')
           = Diagnostics.error_line (diagnostics chunk)
        /\ In (LogError,
               "PG_DIAG_STATEMENT_POSITION is beyond the length of sql string"%string)
              (Db.log s'))
  /\ (PQresultErrorField pgres PG_DIAG_STATEMENT_POSITION = None ->
      exists (chunk' : Chunk) (s' : Db.Session),
        Db.runChunk chunk s = (Returns false, chunk', s')
        /\ Diagnostics.error_line (diagnostics chunk') = LINE_NUMBER_NOT_AVAILABLE).
Proof.
  intros Hserved Herr.
  destruct (runChunk_served s chunk pgres Hserved)
    as (d' & s' & l & Hrun & _ & _ & _ & _ & Hlog & _ & Hlocated).
  rewrite Herr in Hrun. cbn [negb] in Hrun.
  destruct (Hlocated Herr) as (l0 & l1 & l2 & Hl & Hline).
  unfold Db.located in Hline.
  split.
  - intros sp pos Hfield Hatoi Hpos. rewrite Hfield in Hline.
    destruct (proj2 (Hline pos Hatoi) Hpos) as [Hsame Hentry].
    exists (set_diagnostics d' chunk), s'.
    split; [ exact Hrun | split; [ exact Hsame | ] ].
    rewrite Hlog, Hl. apply in_or_app. right.
    apply in_or_app. right. apply in_or_app. left. exact Hentry.
  - intros Hfield. rewrite Hfield in Hline.
    exists (set_diagnostics d' chunk), s'. split; [ exact Hrun | exact Hline ].
Qed.

Section SessionProperties.
Context {pq : Libpq} {sys : SysClock} {hdr : Headers}.
Local Open Scope string_scope.
Local Open Scope list_scope.
Import Db.

Lemma ConnStatusType_eqb_OK (status : ConnStatusType) :
  ConnStatusType_eqb status CONNECTION_OK = true <-> status = CONNECTION_OK.
Proof. destruct status; cbn; split; congruence. Qed.

Lemma cancel_not_connected (errmsg : string) (s : Session) :
  conn_status (conn (db s)) <> CONNECTION_OK ->
  cancel errmsg s =
    (Returns (true, errmsg),
     mk_Session (db s) (clock s)
       (log s ++ [(LogDebug, "no db connection");
                  (LogDebug, "not connected - no query to cancel")])
       (submitted s)).
Proof.
  intros Hbad. unfold cancel.
  rewrite (bind_returns _ _ _ _ _ (isConnected_run s)).
  destruct (ConnStatusType_eqb (conn_status (conn (db s))) CONNECTION_OK) eqn:Hstatus.
  - apply ConnStatusType_eqb_OK in Hstatus. contradiction.
  - cbn [negb]. unfold bind, log_debug, modify, ret, add_log. cbn.
    rewrite <- app_assoc. reflexivity.
Qed.

Lemma cancel_not_delivered (errmsg : string) (s : Session) (c : PGconn) (cncl : PGcancel)
  (rc : Z) (reason : string) :
  conn (db s) = Some c -> PQstatus c = CONNECTION_OK ->
  PQgetCancel c = Some cncl -> PQcancel cncl CANCEL_BUF_SIZE = (rc, reason) -> rc <> 1 ->
  exists l,
    cancel errmsg s =
      (Returns (false, reason), mk_Session (db s) (clock s) (log s ++ l) (submitted s)).
Proof.
  intros Hc Hok Hcncl Hcancel Hrc. unfold cancel.
  rewrite (bind_returns _ _ _ _ _ (isConnected_run s)).
  rewrite Hc. cbn [conn_status]. rewrite Hok. cbn [ConnStatusType_eqb negb].
  unfold bind, get, log_debug, modify, ret, add_log. cbn. rewrite Hc, Hcncl, Hcancel.
  destruct (Z.eqb_spec rc 1) as [Heq | _]; [ contradiction | ]. cbn.
  rewrite <- !app_assoc. eexists. reflexivity.
Qed.



End SessionProperties.

(** C9.  When the connection is not usable, [Db::cancel] returns true, the
    error message is the one it was given, the [Db] object, the clock and
    the statements sent are unchanged and the only trace is two debug
    entries in the log.  When the connection is usable, a cancel handle is
    obtained and [PQcancel] does not return 1, [cancel] returns false and
    the error message is what [PQcancel] wrote to its buffer. *)
Theorem cancel_outcome {pq : Libpq} {sys : SysClock} (s : Db.Session) (errmsg : string) :
  (Db.conn_status (Db.conn (Db.db s)) <> CONNECTION_OK ->
   exists s' : Db.Session,
     Db.cancel errmsg s = (Returns (true, errmsg), s')
     /\ Db.db s' = Db.db s
     /\ Db.clock s' = Db.clock s
     /\ Db.submitted s' = Db.submitted s
     /\ Db.log s' =
          Db.log s ++ [(LogDebug, "no db connection"%string);
                       (LogDebug, "not connected - no query to cancel"%string)])
  /\ (forall (c : PGconn) (cncl : PGcancel) (rc : Z) (reason : string),
         Db.conn (Db.db s) = Some c ->
         PQstatus c = CONNECTION_OK ->
         PQgetCancel c = Some cncl ->
         PQcancel cncl CANCEL_BUF_SIZE = (rc, reason) ->
         rc <> 1 ->
         exists s' : Db.Session,
           Db.cancel errmsg s = (Returns (false, reason), s')
           /\ Db.db s' = Db.db s
           /\ Db.submitted s' = Db.submitted s).
Proof.
  split.
  - intros Hbad. eexists. split; [ exact (cancel_not_connected errmsg s Hbad) | ].
    repeat split.
  - intros c cncl rc reason Hc Hok Hcncl Hcancel Hrc.
    destruct (cancel_not_delivered errmsg s c cncl rc reason Hc Hok Hcncl Hcancel Hrc)
      as [l Hrun].
    eexists. split; [ exact Hrun | ]. repeat split.
Qed.


(** ** Worked examples on the scripted server *)

Section Examples.
Local Open Scope string_scope.

(** The scripted server serves every call of [runChunk]: it answers the two
    statements of the example with a syntax error and every other SQL with
    success. *)
Lemma scripted_served (position : option string) (commit : bool) (failed : Z) (open : bool)
  (chunk : Chunk) :
  (forall sp, position = Some sp -> exists pos, CString.atoi sp = Some pos /\ 0 <= pos) ->
  @Db.served Script.libpq Script.sysclock
    (Script.session_on (Some (Script.rejecting Script.two_statements position))
       commit failed open)
    chunk
    (if String.eqb (getSql chunk) Script.two_statements
     then Script.syntax_error position else Script.command_ok).
Proof.
  intros Hpos.
  set (server := Script.rejecting Script.two_statements position).
  apply (@Db.served_intro Script.libpq Script.sysclock _ _ _
           server server server server server 6100000 6300000
           (mk_timeval 5 900000) (mk_timeval 6 100000)).
  - reflexivity.
  - reflexivity.
  - destruct open; [ reflexivity | exists Script.command_ok; split; reflexivity ].
  - reflexivity.
  - exists Script.command_ok. split; reflexivity.
  - unfold server, Script.rejecting.
    cbn [PQexec Script.libpq Script.server_answer].
    destruct (String.eqb (getSql chunk) Script.two_statements); reflexivity.
  - reflexivity.
  - intros sp Herr Hfield.
    destruct (String.eqb (getSql chunk) Script.two_statements); cbn in Herr, Hfield.
    + exact (Hpos sp Hfield).
    + discriminate Herr.
  - destruct (String.eqb (getSql chunk) Script.two_statements); cbn;
      exists Script.command_ok; split; reflexivity.
Qed.

Lemma triple_eta {A B C : Type} (x : A * B * C) (a : A) :
  fst (fst x) = a -> x = (a, snd (fst x), snd x).
Proof. destruct x as [[a0 b] c]. cbn. intros ->. reflexivity. Qed.

Lemma position_11 (sp : string) :
  Some "11" = Some sp -> exists pos, CString.atoi sp = Some pos /\ 0 <= pos.
Proof. intros [= <-]. exists 11. split; [ reflexivity | lia ]. Qed.

Lemma position_100 (sp : string) :
  Some "100" = Some sp -> exists pos, CString.atoi sp = Some pos /\ 0 <= pos.
Proof. intros [= <-]. exists 100. split; [ reflexivity | lia ]. Qed.

Lemma position_none (sp : string) :
  @None string = Some sp -> exists pos, CString.atoi sp = Some pos /\ 0 <= pos.
Proof. discriminate. Qed.

End Examples.




Lemma runChunk_error_line_witness :
  exists (chunk' : Chunk) (s' : Db.Session),
    @Db.runChunk Script.libpq Script.sysclock Script.headers
      (Script.chunk_of 10 11 Script.two_statements)
      (Script.session_on (Some (Script.rejecting Script.two_statements (Some "11"%string)))
         true 0 false)
    = (Returns false, chunk', s')
    /\ Diagnostics.error_line (diagnostics chunk') = 11.
Proof.
  apply (proj1 (@runChunk_error_line Script.libpq Script.sysclock Script.headers)
           _ _ _ "11"%string 11
           (scripted_served (Some "11"%string) true 0 false
              (Script.chunk_of 10 11 Script.two_statements) position_11)).
  - reflexivity.
  - reflexivity.
  - reflexivity.
  - vm_compute. split; [ discriminate | reflexivity ].
Defined.

Lemma runChunk_no_error_line_witness :
  (exists (chunk' : Chunk) (s' : Db.Session),
      @Db.runChunk Script.libpq Script.sysclock Script.headers
        (Script.chunk_of 10 11 Script.two_statements)
        (Script.session_on (Some (Script.rejecting Script.two_statements (Some "100"%string)))
           true 0 false)
      = (Returns false, chunk', s')
      /\ Diagnostics.error_line (diagnostics chunk') = 7
      /\ In (LogError,
             "PG_DIAG_STATEMENT_POSITION is beyond the length of sql string"%string)
            (Db.log s'))
  /\ (exists (chunk' : Chunk) (s' : Db.Session),
         @Db.runChunk Script.libpq Script.sysclock Script.headers
           (Script.chunk_of 10 11 Script.two_statements)
           (Script.session_on (Some (Script.rejecting Script.two_statements None))
              true 0 false)
         = (Returns false, chunk', s')
         /\ Diagnostics.error_line (diagnostics chunk') = 0).
Proof.
  split.
  - apply (proj1 (@runChunk_no_error_line Script.libpq Script.sysclock Script.headers
                    _ _ _
                    (scripted_served (Some "100"%string) true 0 false
                       (Script.chunk_of 10 11 Script.two_statements) position_100)
                    eq_refl)
             "100"%string 100).
    + reflexivity.
    + reflexivity.
    + vm_compute. discriminate.
  - apply (proj2 (@runChunk_no_error_line Script.libpq Script.sysclock Script.headers
                    _ _ _
                    (scripted_served None true 0 false
                       (Script.chunk_of 10 11 Script.two_statements) position_none)
                    eq_refl)).
    reflexivity.
Defined.

Lemma cancel_outcome_witness :
  (exists s' : Db.Session,
      @Db.cancel Script.libpq Script.sysclock "unchanged"%string
        (Script.session_on (Some Script.lost) true 0 true)
      = (Returns (true, "unchanged"%string), s')
      /\ Db.db s' = Db.db (Script.session_on (Some Script.lost) true 0 true)
      /\ Db.clock s' = 5900000
      /\ Db.submitted s' = []
      /\ Db.log s' = [(LogDebug, "no db connection"%string);
                      (LogDebug, "not connected - no query to cancel"%string)])
  /\ (exists s' : Db.Session,
         @Db.cancel Script.libpq Script.sysclock "unchanged"%string
           (Script.session_on (Some (Script.rejecting Script.two_statements None))
              true 0 true)
         = (Returns (false, "PQcancel() -- connect() failed: Connection refused"%string), s')
         /\ Db.db s' =
              Db.db (Script.session_on (Some (Script.rejecting Script.two_statements None))
                       true 0 true)
         /\ Db.submitted s' = []).
Proof.
  split.
  - apply (proj1 (@cancel_outcome Script.libpq Script.sysclock
                    (Script.session_on (Some Script.lost) true 0 true) "unchanged"%string)).
    discriminate.
  - apply (proj2 (@cancel_outcome Script.libpq Script.sysclock
                    (Script.session_on (Some (Script.rejecting Script.two_statements None))
                       true 0 true) "unchanged"%string)
             (Script.rejecting Script.two_statements None)
             (0, "PQcancel() -- connect() failed: Connection refused"%string)
             0 "PQcancel() -- connect() failed: Connection refused"%string).
    + reflexivity.
    + reflexivity.
    + reflexivity.
    + reflexivity.
    + discriminate.
Defined.


(** * Further properties of the code *)

(** ** Computations: outcomes and what a step keeps *)

Lemma bind_inv {S A B : Type} (m : M S A) (k : A -> M S B) (s s'' : S) (r : outcome B) :
  bind m k s = (r, s'') ->
  (exists a s', m s = (Returns a, s') /\ k a s' = (r, s''))
  \/ (exists e, m s = (Throws e, s'') /\ r = Throws e)
  \/ (m s = (Undefined, s'') /\ r = Undefined).
Proof.
  unfold bind. destruct (m s) as [[ a | e | ] s'].
  - intros Hk. left. exists a, s'. split; [ reflexivity | exact Hk ].
  - intros [= <- <-]. right. left. exists e. split; reflexivity.
  - intros [= <- <-]. right. right. split; reflexivity.
Qed.

(** A postcondition that may depend on how the computation ends, carried
    over a step that keeps [R]. *)
Lemma bind_post {S A B : Type} (R : S -> S -> Prop) (P : S -> outcome B -> S -> Prop)
  (m : M S A) (k : A -> M S B) :
  (forall s s1 r s', R s s1 -> P s1 r s' -> P s r s') ->
  (forall s s' e, R s s' -> P s (Throws e) s') ->
  (forall s s', R s s' -> P s Undefined s') ->
  (forall s r s', m s = (r, s') -> R s s') ->
  (forall a s r s', k a s = (r, s') -> P s r s') ->
  forall s r s', bind m k s = (r, s') -> P s r s'.
Proof.
  intros Hstep Hthrow Hundef Hm Hk s r s' Hrun.
  apply bind_inv in Hrun as [(a & s1 & Hfirst & Hrest) | [(e & Hfirst & ->) | (Hfirst & ->)]].
  - exact (Hstep _ _ _ _ (Hm _ _ _ Hfirst) (Hk _ _ _ _ Hrest)).
  - exact (Hthrow _ _ _ (Hm _ _ _ Hfirst)).
  - exact (Hundef _ _ (Hm _ _ _ Hfirst)).
Qed.

Section Frames.
Context {pq : Libpq} {sys : SysClock} {hdr : Headers}.
Local Open Scope string_scope.
Local Open Scope list_scope.
Import Db.

Lemma session_grown_refl (s : Session) : session_grown s s.
Proof.
  repeat split; [ auto | exists []; rewrite app_nil_r; reflexivity
                | exists []; rewrite app_nil_r; reflexivity ].
Qed.

Lemma session_grown_trans (s1 s2 s3 : Session) :
  session_grown s1 s2 -> session_grown s2 s3 -> session_grown s1 s3.
Proof.
  intros (Hc1 & Ho1 & (q1 & Hq1) & (l1 & Hl1)) (Hc2 & Ho2 & (q2 & Hq2) & (l2 & Hl2)).
  repeat split.
  - congruence.
  - auto.
  - exists (q1 ++ q2). rewrite Hq2, Hq1, app_assoc. reflexivity.
  - exists (l1 ++ l2). rewrite Hl2, Hl1, app_assoc. reflexivity.
Qed.

Lemma session_grown_same (s s' : Session) :
  do_commit (db s') = do_commit (db s) ->
  in_transaction (db s') = in_transaction (db s) ->
  submitted s' = submitted s -> log s' = log s ->
  session_grown s s'.
Proof.
  intros Hc Ho Hq Hl. repeat split.
  - exact Hc.
  - congruence.
  - exists []. rewrite app_nil_r. exact Hq.
  - exists []. rewrite app_nil_r. exact Hl.
Qed.

Lemma same_text_refl (chunk : Chunk) : same_text chunk chunk.
Proof. repeat split. Qed.

Lemma same_text_trans (c1 c2 c3 : Chunk) :
  same_text c1 c2 -> same_text c2 c3 -> same_text c1 c3.
Proof. unfold same_text. intuition congruence. Qed.

Lemma quiet_refl (st : RunState) : quiet st st.
Proof. split; [ apply session_grown_refl | split; [ reflexivity | apply same_text_refl ] ]. Qed.

Lemma quiet_trans (st1 st2 st3 : RunState) : quiet st1 st2 -> quiet st2 st3 -> quiet st1 st3.
Proof.
  intros (Hg1 & Hf1 & Ht1) (Hg2 & Hf2 & Ht2).
  split; [ exact (session_grown_trans _ _ _ Hg1 Hg2) | split; [ congruence | ] ].
  exact (same_text_trans _ _ _ Ht1 Ht2).
Qed.

Lemma in_session_quiet {A : Type} (m : M Session A) :
  (forall s r s', m s = (r, s') -> session_quiet s s') ->
  forall st r st', in_session m st = (r, st') -> quiet st st'.
Proof.
  intros Hm [s chunk] r [s' chunk'] Hrun.
  apply in_session_inv in Hrun as [Hrun Hchunk]. cbn [fst snd] in *. subst chunk'.
  destruct (Hm _ _ _ Hrun) as [Hg Hf].
  split; [ exact Hg | split; [ exact Hf | apply same_text_refl ] ].
Qed.

Lemma isConnected_quiet (s : Session) (r : outcome bool) (s' : Session) :
  isConnected s = (r, s') -> session_quiet s s'.
Proof.
  rewrite isConnected_run. intros [= <- <-].
  split; [ | reflexivity ].
  repeat split; [ auto | exists []; cbn; rewrite app_nil_r; reflexivity | eexists; reflexivity ].
Qed.

Lemma executeSql_quiet (q : string) (silent : bool) (s : Session) (r : outcome unit)
  (s' : Session) :
  executeSql q silent s = (r, s') -> session_quiet s s'.
Proof.
  intros Hrun. apply executeSql_frame in Hrun as ((Hc & Hf & Ho) & _ & Hq & Hl).
  split; [ | exact Hf ].
  repeat split; [ exact Hc | congruence | eexists; exact Hq | exact Hl ].
Qed.

Lemma begin_quiet (s : Session) (r : outcome unit) (s' : Session) :
  begin s = (r, s') -> session_quiet s s'.
Proof.
  unfold begin, bind at 1, get. cbn beta iota.
  destruct (in_transaction (db s)) eqn:Hopen; cbn [negb].
  - intros [= <- <-]. split; [ apply session_grown_refl | reflexivity ].
  - intros Hrun.
    apply bind_inv in Hrun as [(a & s1 & Hexec & Hset) | [(e & Hexec & ->) | (Hexec & ->)]];
      apply executeSql_quiet in Hexec as ((Hc & Ho & Hq & Hl) & Hf).
    + injection Hset as <- <-. split; [ | exact Hf ].
      repeat split; [ exact Hc | exact Hq | exact Hl ].
    + split; [ | exact Hf ]. repeat split; [ exact Hc | congruence | exact Hq | exact Hl ].
    + split; [ | exact Hf ]. repeat split; [ exact Hc | congruence | exact Hq | exact Hl ].
Qed.

Lemma now_quiet (s : Session) (r : outcome timeval) (s' : Session) :
  now s = (r, s') -> session_quiet s s'.
Proof.
  unfold now. destruct (gettimeofday (clock s)) as [clk [ t | err ]];
    intros [= <- <-]; (split; [ apply session_grown_same; reflexivity | reflexivity ]).
Qed.

Lemma exec_quiet (q : string) (s : Session) (r : outcome (option PGresult)) (s' : Session) :
  exec q s = (r, s') -> session_quiet s s'.
Proof.
  unfold exec. destruct (conn (db s)) as [ c | ].
  - destruct (PQexec c q) as [c' pgres]. intros [= <- <-].
    split; [ | reflexivity ].
    repeat split; [ auto | eexists; reflexivity | exists []; cbn; rewrite app_nil_r; reflexivity ].
  - intros [= <- <-]. split; [ | reflexivity ].
    repeat split; [ auto | eexists; reflexivity | exists []; cbn; rewrite app_nil_r; reflexivity ].
Qed.

Lemma log_quiet (level : LogLevel) (msg : string) (s : Session) (r : outcome unit)
  (s' : Session) :
  modify (add_log (level, msg)) s = (r, s') -> session_quiet s s'.
Proof.
  intros [= <- <-]. split; [ | reflexivity ].
  repeat split; [ auto | exists []; cbn; rewrite app_nil_r; reflexivity | eexists; reflexivity ].
Qed.

Lemma the_chunk_quiet (st : RunState) (r : outcome Chunk) (st' : RunState) :
  the_chunk st = (r, st') -> quiet st st'.
Proof. destruct st as [s chunk]. intros [= <- <-]. apply quiet_refl. Qed.

Lemma update_diagnostics_quiet (f : Diagnostics.t -> Diagnostics.t) (st : RunState)
  (r : outcome unit) (st' : RunState) :
  update_diagnostics f st = (r, st') -> quiet st st'.
Proof.
  destruct st as [s chunk]. intros [= <- <-].
  split; [ apply session_grown_refl | split; [ reflexivity | repeat split ] ].
Qed.

Lemma ret_quiet {A : Type} (a : A) (st : RunState) (r : outcome A) (st' : RunState) :
  ret a st = (r, st') -> quiet st st'.
Proof. intros [= <- <-]. apply quiet_refl. Qed.

Lemma throw_quiet {A : Type} (e : DbException) (st : RunState) (r : outcome A)
  (st' : RunState) :
  throw e st = (r, st') -> quiet st st'.
Proof. intros [= <- <-]. apply quiet_refl. Qed.

Lemma undefined_quiet {A : Type} (st : RunState) (r : outcome A) (st' : RunState) :
  undefined st = (r, st') -> quiet st st'.
Proof. intros [= <- <-]. apply quiet_refl. Qed.

Lemma assign_field_quiet (pgres : PGresult) (field : PGdiag)
  (set : string -> Diagnostics.t -> Diagnostics.t) (st : RunState) (r : outcome unit)
  (st' : RunState) :
  assign_field pgres field set st = (r, st') -> quiet st st'.
Proof.
  unfold assign_field. destruct (PQresultErrorField pgres field) as [ v | ].
  - apply update_diagnostics_quiet.
  - apply ret_quiet.
Qed.

Lemma locate_error_quiet (pgres : PGresult) (text : string) (st : RunState)
  (r : outcome unit) (st' : RunState) :
  locate_error pgres text st = (r, st') -> quiet st st'.
Proof.
  unfold locate_error.
  destruct (PQresultErrorField pgres PG_DIAG_STATEMENT_POSITION) as [ sp | ].
  - destruct (CString.atoi sp) as [ pos | ]; [ | apply undefined_quiet ].
    destruct (pos <? CString.size text)%Z.
    + destruct (pos <? 0)%Z; [ apply undefined_quiet | ].
      apply (bind_frame quiet); [ exact quiet_trans | apply the_chunk_quiet | ].
      intros chunk0. apply update_diagnostics_quiet.
    + apply in_session_quiet. apply log_quiet.
  - apply (bind_frame quiet); [ exact quiet_trans | | ].
    + apply in_session_quiet. apply log_quiet.
    + intros _. apply update_diagnostics_quiet.
Qed.

Lemma record_failure_quiet (pgres : PGresult) (text : string) (st : RunState)
  (r : outcome unit) (st' : RunState) :
  record_failure pgres text st = (r, st') -> quiet st st'.
Proof.
  unfold record_failure.
  apply (bind_frame quiet); [ exact quiet_trans | apply update_diagnostics_quiet | intros _ ].
  apply (bind_frame quiet); [ exact quiet_trans | apply locate_error_quiet | intros _ ].
  apply (bind_frame quiet); [ exact quiet_trans | apply assign_field_quiet | intros _ ].
  apply (bind_frame quiet); [ exact quiet_trans | apply assign_field_quiet | intros _ ].
  apply (bind_frame quiet); [ exact quiet_trans | apply assign_field_quiet | intros _ ].
  apply assign_field_quiet.
Qed.

Lemma counted_step (st st1 : RunState) (r : outcome bool) (st' : RunState) :
  quiet st st1 -> counted st1 r st' -> counted st r st'.
Proof.
  intros (Hg1 & Hf1 & Ht1) (Hg2 & Ht2 & Hf2).
  split; [ exact (session_grown_trans _ _ _ Hg1 Hg2) | ].
  split; [ exact (same_text_trans _ _ _ Ht1 Ht2) | ].
  rewrite Hf2, Hf1. reflexivity.
Qed.

Lemma counted_throw (st st' : RunState) (e : DbException) :
  quiet st st' -> counted st (Throws e) st'.
Proof. intros (Hg & Hf & Ht). split; [ exact Hg | split; [ exact Ht | exact Hf ] ]. Qed.

Lemma counted_undefined (st st' : RunState) : quiet st st' -> counted st Undefined st'.
Proof. intros (Hg & Hf & Ht). split; [ exact Hg | split; [ exact Ht | exact Hf ] ]. Qed.

Lemma counted_true (st st' : RunState) : quiet st st' -> counted st (Returns true) st'.
Proof. intros (Hg & Hf & Ht). split; [ exact Hg | split; [ exact Ht | exact Hf ] ]. Qed.

Ltac counted_bind :=
  apply (bind_post quiet counted);
  [ exact counted_step | exact counted_throw | exact counted_undefined | | ].

(** The last statements of [runChunk]: the savepoint is released or rolled
    back to, and the count of failed chunks goes up with the rollback. *)
Lemma settle_counted (k : M RunState bool) :
  k = bind the_chunk (fun chunk =>
        bind (if negb (Diagnostics.Status_eqb (Diagnostics.status (diagnostics chunk))
                         Diagnostics.Ok)
              then bind (in_session (executeSql "rollback to savepoint chunk;" silent_default))
                     (fun _ => in_session
                        (bind get (fun s =>
                           modify (set_failed_count (to_int (failed_count (db s) + 1))))))
              else in_session (executeSql "release savepoint chunk;" silent_default))
          (fun _ => bind the_chunk (fun chunk =>
             ret (Diagnostics.Status_eqb (Diagnostics.status (diagnostics chunk))
                    Diagnostics.Ok)))) ->
  forall st r st', k st = (r, st') -> counted st r st'.
Proof.
  intros -> [s chunk] r st'.
  rewrite (bind_returns _ _ _ _ _ (the_chunk_run s chunk)).
  destruct (Diagnostics.Status_eqb (Diagnostics.status (diagnostics chunk)) Diagnostics.Ok)
    eqn:Hok; cbn [negb].
  - intros Hrun.
    apply bind_inv in Hrun as [([] & [s1 c1] & Hrel & Hrest) | [(e & Hrel & ->) | (Hrel & ->)]].
    + pose proof Hrel as Hq. apply (in_session_quiet _ (executeSql_quiet _ _)) in Hq.
      apply in_session_inv in Hrel as [_ Hc1]. cbn [snd] in Hc1. subst c1.
      rewrite (bind_returns _ _ _ _ _ (the_chunk_run s1 chunk)) in Hrest.
      rewrite Hok in Hrest. injection Hrest as <- <-. apply counted_true. exact Hq.
    + apply counted_throw. exact (in_session_quiet _ (executeSql_quiet _ _) _ _ _ Hrel).
    + apply counted_undefined. exact (in_session_quiet _ (executeSql_quiet _ _) _ _ _ Hrel).
  - rewrite bind_assoc. intros Hrun.
    apply bind_inv in Hrun as [([] & [s1 c1] & Hroll & Hrest) | [(e & Hroll & ->) | (Hroll & ->)]].
    + pose proof Hroll as Hq. apply (in_session_quiet _ (executeSql_quiet _ _)) in Hq.
      apply in_session_inv in Hroll as [_ Hc1]. cbn [snd] in Hc1. subst c1.
      cbn beta in Hrest.
      rewrite (bind_returns _ _ _ _ _ (in_session_run _ _ _ chunk _ (count_failure_run s1)))
        in Hrest.
      rewrite (bind_returns _ _ _ _ _ (the_chunk_run _ chunk)) in Hrest.
      rewrite Hok in Hrest. injection Hrest as <- <-.
      destruct Hq as ((Hc & Ho & Hsent & Hl) & Hf & Ht). cbn [fst snd] in *.
      split; [ | split; [ exact Ht | cbn; rewrite Hf; reflexivity ] ].
      repeat split; cbn; assumption.
    + apply counted_throw. exact (in_session_quiet _ (executeSql_quiet _ _) _ _ _ Hroll).
    + apply counted_undefined. exact (in_session_quiet _ (executeSql_quiet _ _) _ _ _ Hroll).
Qed.

Lemma runChunk_body_counted (st : RunState) (r : outcome bool) (st' : RunState) :
  runChunk_body st = (r, st') -> counted st r st'.
Proof.
  revert st r st'. unfold runChunk_body.
  counted_bind; [ apply in_session_quiet; exact isConnected_quiet | ].
  intros connected. destruct connected; cbn [negb].
  2:{ intros st r st' [= <- <-]. apply counted_throw. apply quiet_refl. }
  counted_bind; [ apply in_session_quiet; exact begin_quiet | intros _ ].
  counted_bind; [ exact the_chunk_quiet | intros chunk ].
  counted_bind; [ apply update_diagnostics_quiet | intros _ ].
  counted_bind; [ apply in_session_quiet; exact now_quiet | intros start_time ].
  counted_bind; [ apply in_session_quiet; apply executeSql_quiet | intros _ ].
  counted_bind; [ apply in_session_quiet; apply exec_quiet | intros answer ].
  destruct answer as [ pgres | ].
  2:{ counted_bind; [ apply in_session_quiet; apply log_quiet | intros _ ].
      intros st r st' [= <- <-]. apply counted_throw. apply quiet_refl. }
  counted_bind; [ apply in_session_quiet; exact now_quiet | intros end_time ].
  counted_bind; [ apply update_diagnostics_quiet | intros _ ].
  counted_bind.
  { destruct (is_error pgres); [ apply record_failure_quiet | apply ret_quiet ]. }
  intros _. apply settle_counted. reflexivity.
Qed.

End Frames.

(** ** What a call of [runChunk] that returned has done *)

Section Returned.
Context {pq : Libpq} {sys : SysClock} {hdr : Headers}.
Local Open Scope string_scope.
Local Open Scope list_scope.
Import Db.

Lemma ret_inv {S A : Type} (a : A) (s : S) (r : outcome A) (s' : S) :
  ret a s = (r, s') -> r = Returns a /\ s' = s.
Proof. intros [= <- <-]. split; reflexivity. Qed.

Lemma begin_returned (s s' : Session) :
  begin s = (Returns tt, s') ->
  do_commit (db s') = do_commit (db s)
  /\ failed_count (db s') = failed_count (db s)
  /\ in_transaction (db s') = true
  /\ clock s' = clock s
  /\ submitted s' = submitted s ++ (if in_transaction (db s) then [] else ["begin;"]).
Proof.
  unfold begin, bind at 1, get. cbn beta iota.
  destruct (in_transaction (db s)) eqn:Hopen; cbn [negb].
  - intros [= <-]. rewrite app_nil_r. auto.
  - intros Hrun. apply bind_Returns_inv in Hrun as ([] & s1 & Hexec & Hset).
    apply executeSql_frame in Hexec as ((Hcommit & Hfailed & _) & Hclock & Hsent & _).
    injection Hset as <-. cbn. auto.
Qed.

Lemma executeSql_returned (q : string) (silent : bool) (s s' : Session) (c : PGconn) :
  executeSql q silent s = (Returns tt, s') -> conn (db s) = Some c ->
  exists c', accepted c q c' /\ conn (db s') = Some c'.
Proof.
  unfold executeSql.
  rewrite (bind_returns _ _ _ _ _ (isConnected_run s)).
  unfold bind, exec, log_warn, log_debug, log_error, modify, ret, throw.
  destruct s as [[c0 cm failed open] clk lg sub]; cbn. intros Hrun [= ->]. revert Hrun.
  destruct (PQexec c q) as [c' [ pgres | ]] eqn:Hexec.
  - destruct (is_error pgres) eqn:Herr.
    + destruct (ConnStatusType_eqb _ _); cbn; rewrite Hexec; cbn; rewrite Herr;
        destruct silent; discriminate.
    + destruct (ConnStatusType_eqb _ _); cbn; rewrite Hexec; cbn; rewrite Herr;
        intros [= <-]; exists c'; (split; [ exists pgres; split; assumption | reflexivity ]).
  - destruct (ConnStatusType_eqb _ _); cbn; rewrite Hexec; discriminate.
Qed.

Lemma begin_returned_conn (s s' : Session) (c : PGconn) :
  begin s = (Returns tt, s') -> conn (db s) = Some c ->
  exists c1,
    (if in_transaction (db s) then c1 = c else accepted c "begin;" c1)
    /\ conn (db s') = Some c1.
Proof.
  unfold begin, bind at 1, get. cbn beta iota.
  destruct (in_transaction (db s)) eqn:Hopen; cbn [negb].
  - intros [= <-] Hc. exists c. split; [ reflexivity | exact Hc ].
  - intros Hrun Hc. apply bind_Returns_inv in Hrun as ([] & s1 & Hexec & Hset).
    destruct (executeSql_returned _ _ _ _ c Hexec Hc) as (c1 & Hacc & Hc1).
    injection Hset as <-. exists c1. split; [ exact Hacc | exact Hc1 ].
Qed.

Lemma now_returned (s s' : Session) (t : timeval) :
  now s = (Returns t, s') ->
  gettimeofday (clock s) = (clock s', inl t)
  /\ db s' = db s /\ submitted s' = submitted s /\ log s' = log s.
Proof.
  unfold now. destruct (gettimeofday (clock s)) as [clk [ t0 | err ]];
    intros [= <- <-]; repeat split.
Qed.

Lemma exec_returned (q : string) (s s' : Session) (answer : option PGresult) :
  exec q s = (Returns answer, s') ->
  same_counts s s' /\ clock s' = clock s /\ submitted s' = submitted s ++ [q]
  /\ (forall pgres, answer = Some pgres ->
      exists c c', conn (db s) = Some c /\ PQexec c q = (c', Some pgres)
                   /\ conn (db s') = Some c').
Proof.
  unfold exec. destruct (conn (db s)) as [ c | ] eqn:Hc.
  - destruct (PQexec c q) as [c' pgres0] eqn:Hexec. intros [= <- <-].
    repeat split. intros pgres ->. exists c, c'.
    split; [ reflexivity | split; [ exact Hexec | reflexivity ] ].
  - intros [= <- <-]. repeat split. discriminate.
Qed.

Lemma locate_error_returned (pgres : PGresult) (text : string) (s s' : Session)
  (chunk chunk' : Chunk) :
  locate_error pgres text (s, chunk) = (Returns tt, (s', chunk')) ->
  db s' = db s /\ clock s' = clock s /\ submitted s' = submitted s
  /\ same_text chunk chunk'
  /\ Diagnostics.status (diagnostics chunk') = Diagnostics.status (diagnostics chunk)
  /\ Diagnostics.runtime (diagnostics chunk') = Diagnostics.runtime (diagnostics chunk)
  /\ Diagnostics.sqlstate (diagnostics chunk') = Diagnostics.sqlstate (diagnostics chunk)
  /\ Diagnostics.msg_primary (diagnostics chunk') = Diagnostics.msg_primary (diagnostics chunk)
  /\ Diagnostics.msg_detail (diagnostics chunk') = Diagnostics.msg_detail (diagnostics chunk)
  /\ Diagnostics.msg_hint (diagnostics chunk') = Diagnostics.msg_hint (diagnostics chunk).
Proof.
  unfold locate_error.
  destruct (PQresultErrorField pgres PG_DIAG_STATEMENT_POSITION) as [ sp | ].
  - destruct (CString.atoi sp) as [ pos | ]; [ | discriminate ].
    destruct (pos <? CString.size text)%Z.
    + destruct (pos <? 0)%Z; [ discriminate | ].
      intros [= <- <-]. repeat split.
    + intros [= <- <-]. repeat split.
  - intros [= <- <-]. repeat split.
Qed.

Lemma record_failure_returned (pgres : PGresult) (text : string) (s s' : Session)
  (chunk chunk' : Chunk) :
  record_failure pgres text (s, chunk) = (Returns tt, (s', chunk')) ->
  db s' = db s /\ clock s' = clock s /\ submitted s' = submitted s
  /\ same_text chunk chunk'
  /\ Diagnostics.status (diagnostics chunk') = Diagnostics.Fail
  /\ Diagnostics.runtime (diagnostics chunk') = Diagnostics.runtime (diagnostics chunk)
  /\ Diagnostics.sqlstate (diagnostics chunk')
     = field_or pgres PG_DIAG_SQLSTATE (Diagnostics.sqlstate (diagnostics chunk))
  /\ Diagnostics.msg_primary (diagnostics chunk')
     = field_or pgres PG_DIAG_MESSAGE_PRIMARY (Diagnostics.msg_primary (diagnostics chunk))
  /\ Diagnostics.msg_detail (diagnostics chunk')
     = field_or pgres PG_DIAG_MESSAGE_DETAIL (Diagnostics.msg_detail (diagnostics chunk))
  /\ Diagnostics.msg_hint (diagnostics chunk')
     = field_or pgres PG_DIAG_MESSAGE_HINT (Diagnostics.msg_hint (diagnostics chunk)).
Proof.
  unfold record_failure.
  rewrite (bind_returns _ _ _ _ _ (update_diagnostics_run _ s chunk)).
  intros Hrun. apply bind_Returns_inv in Hrun as ([] & [s1 c1] & Hlocate & Hrun).
  apply locate_error_returned in Hlocate
    as (Hdb & Hclock & Hsent & (Hl1 & Hl2 & Hl3 & Hl4) & Hst & Hrt & Hss & Hmp & Hmd & Hmh).
  cbn [diagnostics set_diagnostics start_line end_line sql description
         Diagnostics.status Diagnostics.runtime Diagnostics.sqlstate Diagnostics.msg_primary
         Diagnostics.msg_detail Diagnostics.msg_hint Diagnostics.set_status] in *.
  unfold assign_field, field_or, bind, update_diagnostics, ret in *.
  destruct (PQresultErrorField pgres PG_DIAG_SQLSTATE);
    destruct (PQresultErrorField pgres PG_DIAG_MESSAGE_PRIMARY);
    destruct (PQresultErrorField pgres PG_DIAG_MESSAGE_DETAIL);
    destruct (PQresultErrorField pgres PG_DIAG_MESSAGE_HINT);
    injection Hrun as <- <-; cbn; unfold same_text; cbn; intuition congruence.
Qed.

(** What a call of [runChunk] that returned has done. *)
Lemma runChunk_returned (s s' : Session) (chunk chunk' : Chunk) (ok : bool) :
  runChunk chunk s = (Returns ok, chunk', s') ->
  exists (clk1 : Clock) (t0 t1 : timeval) (c3 c4 : PGconn) (pgres : PGresult),
    gettimeofday (clock s) = (clk1, inl t0)
    /\ gettimeofday clk1 = (clock s', inl t1)
    /\ (answered s chunk pgres c3
        /\ accepted c3 (if ok then "release savepoint chunk;"
                        else "rollback to savepoint chunk;") c4
        /\ conn (db s') = Some c4)
    /\ is_error pgres = negb ok
    /\ do_commit (db s') = do_commit (db s)
    /\ in_transaction (db s') = true
    /\ failed_count (db s') =
         (if ok then failed_count (db s) else to_int (failed_count (db s) + 1))
    /\ submitted s' =
         submitted s ++ (if in_transaction (db s) then [] else ["begin;"])
         ++ bracket chunk ok
    /\ same_text chunk chunk'
    /\ Diagnostics.status (diagnostics chunk')
       = (if ok then Diagnostics.Ok else Diagnostics.Fail)
    /\ Diagnostics.runtime (diagnostics chunk') = fst (fst (timeval_subtract t1 t0))
    /\ Diagnostics.sqlstate (diagnostics chunk')
       = (if ok then Diagnostics.sqlstate (diagnostics chunk)
          else field_or pgres PG_DIAG_SQLSTATE (Diagnostics.sqlstate (diagnostics chunk)))
    /\ Diagnostics.msg_primary (diagnostics chunk')
       = (if ok then Diagnostics.msg_primary (diagnostics chunk)
          else field_or pgres PG_DIAG_MESSAGE_PRIMARY
                 (Diagnostics.msg_primary (diagnostics chunk)))
    /\ Diagnostics.msg_detail (diagnostics chunk')
       = (if ok then Diagnostics.msg_detail (diagnostics chunk)
          else field_or pgres PG_DIAG_MESSAGE_DETAIL
                 (Diagnostics.msg_detail (diagnostics chunk)))
    /\ Diagnostics.msg_hint (diagnostics chunk')
       = (if ok then Diagnostics.msg_hint (diagnostics chunk)
          else field_or pgres PG_DIAG_MESSAGE_HINT
                 (Diagnostics.msg_hint (diagnostics chunk)))
    /\ (ok = true ->
        Diagnostics.error_line (diagnostics chunk')
        = Diagnostics.error_line (diagnostics chunk)).
Proof.
  unfold runChunk.
  destruct (runChunk_body (s, chunk)) as [r [sf chunkf]] eqn:Hrun.
  intros [= -> <- <-]. revert Hrun. unfold runChunk_body.
  rewrite (bind_returns _ _ _ _ _ (in_session_run _ _ _ chunk _ (isConnected_run s))).
  destruct (ConnStatusType_eqb _ _) eqn:Husable; cbn [negb]; [ | discriminate ].
  apply ConnStatusType_eqb_OK in Husable.
  destruct (conn (db s)) as [ c0 | ] eqn:Hc0; [ | discriminate Husable ].
  cbn [conn_status] in Husable.
  intros Hrun.
  apply bind_Returns_inv in Hrun as ([] & [s2 chunk2] & Hbegin & Hrun).
  apply in_session_inv in Hbegin as [Hbegin Hchunk2]. cbn [fst snd] in *. subst chunk2.
  destruct (begin_returned_conn _ _ c0 Hbegin Hc0) as (c1 & Hbegun & Hc1).
  cbn [db in_transaction add_log] in Hbegun.
  apply begin_returned in Hbegin as (Hcommit2 & Hfailed2 & Hopen2 & Hclock2 & Hsent2).
  cbn [db clock submitted add_log] in Hcommit2, Hfailed2, Hclock2, Hsent2.
  rewrite (bind_returns _ _ _ _ _ (the_chunk_run _ _)) in Hrun.
  rewrite (bind_returns _ _ _ _ _ (update_diagnostics_run _ _ _)) in Hrun.
  apply bind_Returns_inv in Hrun as (t0 & [s3 chunk3] & Hnow & Hrun).
  apply in_session_inv in Hnow as [Hnow Hchunk3]. cbn [fst snd] in *. subst chunk3.
  apply now_returned in Hnow as (Ht0 & Hdb3 & Hsent3 & _).
  apply bind_Returns_inv in Hrun as ([] & [s4 chunk4] & Hsave & Hrun).
  apply in_session_inv in Hsave as [Hsave Hchunk4]. cbn [fst snd] in *. subst chunk4.
  assert (Hc3 : conn (db s3) = Some c1) by (rewrite Hdb3; exact Hc1).
  destruct (executeSql_returned _ _ _ _ c1 Hsave Hc3) as (c2 & Hsaved & Hc2).
  apply executeSql_frame in Hsave as ((Hcommit4 & Hfailed4 & Hopen4) & Hclock4 & Hsent4 & _).
  apply bind_Returns_inv in Hrun as (answer & [s5 chunk5] & Hexec & Hrun).
  apply in_session_inv in Hexec as [Hexec Hchunk5]. cbn [fst snd] in *. subst chunk5.
  apply exec_returned in Hexec as ((Hcommit5 & Hfailed5 & Hopen5) & Hclock5 & Hsent5 & Hanswer).
  destruct answer as [ pgres | ].
  2:{ apply bind_Returns_inv in Hrun as (u & st & _ & Hthrow). discriminate Hthrow. }
  destruct (Hanswer pgres eq_refl) as (c & c3 & Hc & Hpq & Hc5). clear Hanswer.
  rewrite Hc2 in Hc. injection Hc as <-.
  assert (Hanswered : answered s chunk pgres c3).
  { exists c0, c1, c2. repeat split; assumption. }
  apply bind_Returns_inv in Hrun as (t1 & [s6 chunk6] & Hnow1 & Hrun).
  apply in_session_inv in Hnow1 as [Hnow1 Hchunk6]. cbn [fst snd] in *. subst chunk6.
  apply now_returned in Hnow1 as (Ht1 & Hdb6 & Hsent6 & _).
  remember (fst (fst (timeval_subtract t1 t0))) as elapsed eqn:Helapsed.
  rewrite (bind_returns _ _ _ _ _ (update_diagnostics_run _ _ _)) in Hrun.
  rewrite set_diagnostics_twice in Hrun.
  apply bind_Returns_inv in Hrun as ([] & [s7 chunk7] & Hrecord & Hrun).
  rewrite (bind_returns _ _ _ _ _ (the_chunk_run _ _)) in Hrun.
  apply bind_Returns_inv in Hrun as ([] & [s8 chunk8] & Hsettle & Hrun).
  rewrite (bind_returns _ _ _ _ _ (the_chunk_run _ _)) in Hrun.
  injection Hrun as Hstatus <- <-.
  assert (Hc6 : conn (db s6) = Some c3) by (rewrite Hdb6; exact Hc5).
  rewrite Hclock2 in Ht0. cbn [clock add_log] in Ht0.
  rewrite Hclock5, Hclock4 in Ht1.
  assert (Hbase : do_commit (db s6) = do_commit (db s)
                  /\ failed_count (db s6) = failed_count (db s)
                  /\ in_transaction (db s6) = true
                  /\ submitted s6 =
                       submitted s ++ (if in_transaction (db s) then [] else ["begin;"])
                       ++ ["savepoint chunk;"; getSql chunk]).
  { rewrite Hdb6, Hcommit5, Hfailed5, Hopen5, Hcommit4, Hfailed4, Hopen4, Hdb3.
    rewrite Hsent6, Hsent5, Hsent4, Hsent3, Hsent2.
    repeat split; try assumption. rewrite <- !app_assoc. reflexivity. }
  destruct Hbase as (Hcommit6 & Hfailed6 & Hopen6 & Hsent6').
  destruct (is_error pgres) eqn:Herr.
  - apply record_failure_returned in Hrecord
      as (Hdb7 & Hclock7 & Hsent7 & Htext & Hst7 & Hrt7 & Hss & Hmp & Hmd & Hmh).
    rewrite Hst7 in Hsettle. cbn [Diagnostics.Status_eqb negb] in Hsettle.
    apply bind_Returns_inv in Hsettle as ([] & [s9 chunk9] & Hroll & Hcount).
    apply in_session_inv in Hroll as [Hroll Hchunk9]. cbn [fst snd] in *. subst chunk9.
    assert (Hc7 : conn (db s7) = Some c3) by (rewrite Hdb7; exact Hc6).
    destruct (executeSql_returned _ _ _ _ c3 Hroll Hc7) as (c4 & Hclosing & Hc9).
    exists (clock s3), t0, t1, c3, c4, pgres.
    apply executeSql_frame in Hroll as ((Hcommit9 & Hfailed9 & Hopen9) & Hclock9 & Hsent9 & _).
    cbn beta in Hcount.
    rewrite (in_session_run _ _ _ chunk7 _ (count_failure_run s9)) in Hcount.
    injection Hcount as <- <-.
    rewrite Hst7 in Hstatus. cbn [Diagnostics.Status_eqb] in Hstatus. subst ok.
    cbn [db clock submitted set_failed_count do_commit failed_count in_transaction
           diagnostics set_diagnostics Diagnostics.runtime Diagnostics.set_runtime
           Diagnostics.sqlstate Diagnostics.msg_primary Diagnostics.msg_detail
           Diagnostics.msg_hint Diagnostics.set_status] in *.
    rewrite Hclock9, Hclock7. subst elapsed.
    split; [ exact Ht0 | ]. split; [ exact Ht1 | ].
    split; [ split; [ exact Hanswered | split; [ exact Hclosing | exact Hc9 ] ] | ].
    split; [ exact Herr | ]. split; [ congruence | ]. split; [ congruence | ].
    split; [ rewrite Hfailed9, Hdb7, Hfailed6; reflexivity | ].
    split.
    { rewrite Hsent9, Hsent7, Hsent6'. unfold bracket. rewrite <- !app_assoc. reflexivity. }
    split; [ destruct Htext as (H1 & H2 & H3 & H4); repeat split; assumption | ].
    split; [ exact Hst7 | ]. split; [ exact Hrt7 | ].
    split; [ exact Hss | ]. split; [ exact Hmp | ]. split; [ exact Hmd | ].
    split; [ exact Hmh | discriminate ].
  - apply ret_inv in Hrecord as [_ Hsame]. injection Hsame as -> ->.
    cbn [diagnostics set_diagnostics Diagnostics.status Diagnostics.set_runtime
           Diagnostics.set_status Diagnostics.Status_eqb negb] in Hsettle.
    apply in_session_inv in Hsettle as [Hrel Hchunk8]. cbn [fst snd] in *. subst chunk8.
    cbn [diagnostics set_diagnostics Diagnostics.status Diagnostics.set_runtime
           Diagnostics.set_status Diagnostics.Status_eqb negb] in Hstatus.
    subst ok.
    destruct (executeSql_returned _ _ _ _ c3 Hrel Hc6) as (c4 & Hclosing & Hc8).
    exists (clock s3), t0, t1, c3, c4, pgres.
    apply executeSql_frame in Hrel as ((Hcommit8 & Hfailed8 & Hopen8) & Hclock8 & Hsent8 & _).
    rewrite Hclock8. subst elapsed.
    split; [ exact Ht0 | ]. split; [ exact Ht1 | ].
    split; [ split; [ exact Hanswered | split; [ exact Hclosing | exact Hc8 ] ] | ].
    split; [ exact Herr | ]. split; [ congruence | ]. split; [ congruence | ].
    split; [ congruence | ].
    split.
    { rewrite Hsent8, Hsent6'. unfold bracket. rewrite <- !app_assoc. reflexivity. }
    repeat split.
Qed.

End Returned.

(** ** Runs of calls, and statements the server does not accept *)

Section Runs.
Context {pq : Libpq} {sys : SysClock} {hdr : Headers}.
Local Open Scope string_scope.
Local Open Scope list_scope.
Import Db.

Lemma failures_nonneg (results : list bool) : 0 <= failures results.
Proof.
  induction results as [ | ok results IH ]; cbn [failures]; [ lia | ].
  destruct ok; lia.
Qed.

(** A run adds the number of its failed calls to the count, and sends one
    begin, if no transaction was open, and then the statements of its
    calls. *)
Lemma run_counted (s s' : Session) (chunks : list Chunk) (results : list bool) :
  run s chunks results s' ->
  INT_MIN <= failed_count (db s) ->
  failed_count (db s) + failures results <= INT_MAX ->
  failed_count (db s') = failed_count (db s) + failures results
  /\ do_commit (db s') = do_commit (db s)
  /\ in_transaction (db s') =
       match chunks with [] => in_transaction (db s) | _ :: _ => true end
  /\ submitted s' =
       submitted s
       ++ (if in_transaction (db s) then []
           else match chunks with [] => [] | _ :: _ => ["begin;"] end)
       ++ brackets chunks results
  /\ List.length results = List.length chunks.
Proof.
  intros Hrun.
  induction Hrun as [ s | s chunk ok chunk' s1 chunks results s2 Hchunk Hrest IH ];
    intros Hlow Hhigh.
  - cbn [failures brackets List.length]. rewrite Z.add_0_r.
    destruct (in_transaction (db s)); rewrite !app_nil_r; auto.
  - apply runChunk_returned in Hchunk
      as (clk1 & t0 & t1 & c & c' & pgres & _ & _ & _ & _ & Hcommit & Hopen & Hfailed & Hsent & _).
    cbn [failures] in Hhigh. pose proof (failures_nonneg results) as Hnn.
    assert (Hstep : failed_count (db s1) = failed_count (db s) + (if ok then 0 else 1)).
    { rewrite Hfailed. destruct ok; [ lia | ].
      apply to_int_id. unfold in_int. rewrite INT_MIN_value, INT_MAX_value in *. lia. }
    destruct IH as (IHfailed & IHcommit & IHopen & IHsent & IHlen).
    { rewrite Hstep. destruct ok; lia. }
    { rewrite Hstep. lia. }
    cbn [failures brackets List.length].
    split; [ rewrite IHfailed, Hstep; lia | ].
    split; [ congruence | ].
    split; [ rewrite IHopen; destruct chunks; [ exact Hopen | reflexivity ] | ].
    split; [ | rewrite IHlen; reflexivity ].
    rewrite IHsent, Hsent, Hopen. cbn [app].
    destruct (in_transaction (db s)); rewrite <- ?app_assoc; reflexivity.
Qed.

Lemma conn_status_OK (s : Session) (c : PGconn) :
  conn (db s) = Some c -> PQstatus c = CONNECTION_OK ->
  ConnStatusType_eqb (conn_status (conn (db s))) CONNECTION_OK = true.
Proof. intros -> Hok. cbn [conn_status]. rewrite Hok. reflexivity. Qed.

(** The message of the exception [executeSql] throws for a refused
    statement. *)
Lemma executeSql_refused (q : string) (silent : bool) (s : Session) (c c' : PGconn)
  (pgres : PGresult) :
  conn (db s) = Some c -> PQexec c q = (c', Some pgres) -> is_error pgres = true ->
  exists l,
    executeSql q silent s =
      (Throws (mk_DbException
                 ("could not execute query " ++ String CString.dquote q
                  ++ String CString.dquote ": "
                  ++ match PQresultErrorField pgres PG_DIAG_MESSAGE_PRIMARY with
                     | Some e => e
                     | None => EmptyString
                     end)%string),
       mk_Session
         (mk (Some c') (do_commit (db s)) (failed_count (db s)) (in_transaction (db s)))
         (clock s) (log s ++ l) (submitted s ++ [q])).
Proof.
  intros Hc Hexec Herr. unfold executeSql.
  rewrite (bind_returns _ _ _ _ _ (isConnected_run s)).
  unfold bind, exec, log_warn, log_debug, log_error, modify, ret, throw.
  destruct s as [[c0 commit failed open] clk lg sub]; cbn in Hc; subst c0.
  destruct (ConnStatusType_eqb _ _); cbn; rewrite Hexec; cbn; rewrite Herr;
    destruct silent; unfold add_submitted, set_conn, add_log; cbn;
    rewrite <- ?app_assoc; eexists; reflexivity.
Qed.

Lemma executeSql_no_result (q : string) (silent : bool) (s : Session) :
  (conn (db s) = None
   \/ exists c c', conn (db s) = Some c /\ PQexec c q = (c', None)) ->
  exists s',
    executeSql q silent s = (Throws (mk_DbException "PQExec failed"), s')
    /\ In (LogError, "PQExec failed") (log s').
Proof.
  intros Hnone. unfold executeSql.
  rewrite (bind_returns _ _ _ _ _ (isConnected_run s)).
  unfold bind, exec, log_warn, log_debug, log_error, modify, ret, throw.
  destruct s as [[c0 commit failed open] clk lg sub]; cbn in Hnone.
  destruct Hnone as [-> | (c & c' & -> & Hexec)].
  - destruct (ConnStatusType_eqb _ _); cbn; eexists; (split; [ reflexivity | ]);
      cbn; rewrite !in_app_iff; cbn; auto.
  - destruct (ConnStatusType_eqb _ _); cbn; rewrite Hexec; cbn;
      eexists; (split; [ reflexivity | ]); cbn; rewrite !in_app_iff; cbn; auto.
Qed.

End Runs.

(** ** Further properties of the wall-clock subtraction *)

Lemma timeval_subtract_borrow_any (x y : timeval) :
  timestamp x -> timestamp y -> tv_usec x < tv_usec y ->
  timeval_subtract x y =
    (mk_timeval (tv_sec x - (tv_sec y + 1)) (tv_usec x - (tv_usec y - 1000000)),
     mk_timeval (tv_sec y + 1) (tv_usec y - 1000000),
     tv_sec x <? tv_sec y + 1).
Proof.
  intros [Hxs Hxu] [Hys Hyu] Hlt.
  change (2 ^ 62) with 4611686018427387904 in *.
  unfold timeval_subtract.
  destruct (Z.ltb_spec (tv_usec x) (tv_usec y)) as [_ | Hge]; [ | lia ].
  rewrite (to_long_id (tv_usec y - tv_usec x)) by long_range.
  rewrite (Z.quot_small (tv_usec y - tv_usec x) 1000000) by lia.
  change (to_int (to_long (0 + 1))) with 1.
  change (to_int (1000000 * 1)) with 1000000.
  rewrite (to_long_id (tv_usec y - 1000000)) by long_range.
  rewrite (to_long_id (tv_sec y + 1)) by long_range.
  cbn [tv_sec tv_usec].
  rewrite (to_long_id (tv_usec x - (tv_usec y - 1000000))) by long_range.
  destruct (Z.gtb_spec (tv_usec x - (tv_usec y - 1000000)) 1000000) as [Hgt | _]; [ lia | ].
  cbn [tv_sec tv_usec].
  rewrite (to_long_id (tv_sec x - (tv_sec y + 1))) by long_range.
  rewrite (to_long_id (tv_usec x - (tv_usec y - 1000000))) by long_range.
  reflexivity.
Qed.

Lemma timeval_subtract_plain_any (x y : timeval) :
  timestamp x -> timestamp y -> tv_usec y <= tv_usec x ->
  timeval_subtract x y =
    (mk_timeval (tv_sec x - tv_sec y) (tv_usec x - tv_usec y), y, tv_sec x <? tv_sec y).
Proof.
  intros [Hxs Hxu] [Hys Hyu] Hle.
  change (2 ^ 62) with 4611686018427387904 in *.
  unfold timeval_subtract.
  destruct (Z.ltb_spec (tv_usec x) (tv_usec y)) as [Hlt | _]; [ lia | ].
  rewrite (to_long_id (tv_usec x - tv_usec y)) by long_range.
  destruct (Z.gtb_spec (tv_usec x - tv_usec y) 1000000) as [Hgt | _]; [ lia | ].
  rewrite (to_long_id (tv_sec x - tv_sec y)) by long_range.
  rewrite (to_long_id (tv_usec x - tv_usec y)) by long_range.
  reflexivity.
Qed.

(** The difference of two timestamps, in either order. *)
Lemma timeval_subtract_timestamps (x y : timeval) :
  timestamp x -> timestamp y ->
  micros (fst (fst (timeval_subtract x y))) = micros x - micros y
  /\ 0 <= tv_usec (fst (fst (timeval_subtract x y))) < 1000000
  /\ snd (timeval_subtract x y) = (micros x <? micros y)
  /\ micros (snd (fst (timeval_subtract x y))) = micros y.
Proof.
  intros Hx Hy. pose proof Hx as [Hxs Hxu]. pose proof Hy as [Hys Hyu].
  destruct (Z.lt_ge_cases (tv_usec x) (tv_usec y)) as [Hlt | Hge].
  - rewrite timeval_subtract_borrow_any by assumption.
    unfold micros; cbn [fst snd tv_sec tv_usec].
    repeat split; lia.
  - rewrite timeval_subtract_plain_any by (auto; lia).
    unfold micros; cbn [fst snd tv_sec tv_usec].
    repeat split; lia.
Qed.

Ltac int_range :=
  unfold in_int; rewrite INT_MIN_value, INT_MAX_value; lia.

(** Fields as they may come when the microseconds are not below one
    second. *)
Lemma timeval_subtract_loose (x y : timeval) :
  - 2 ^ 61 <= tv_sec x < 2 ^ 61 -> - 2 ^ 61 <= tv_sec y < 2 ^ 61 ->
  - 1000000000 <= tv_usec x <= 1000000000 ->
  - 1000000000 <= tv_usec y <= 1000000000 ->
  micros (fst (fst (timeval_subtract x y))) = micros x - micros y
  /\ 0 <= tv_usec (fst (fst (timeval_subtract x y))) <= 1000000
  /\ (tv_usec x - tv_usec y = 1000000 ->
      tv_usec (fst (fst (timeval_subtract x y))) = 1000000).
Proof.
  intros Hxs Hys Hxu Hyu.
  change (2 ^ 61) with 2305843009213693952 in *.
  unfold timeval_subtract, micros.
  destruct (Z.ltb_spec (tv_usec x) (tv_usec y)) as [Hlt | Hge].
  - rewrite (to_long_id (tv_usec y - tv_usec x)) by long_range.
    pose proof (Z.quot_rem' (tv_usec y - tv_usec x) 1000000) as Hdiv.
    pose proof (Z.rem_bound_pos (tv_usec y - tv_usec x) 1000000 ltac:(lia) ltac:(lia)) as Hrem.
    remember ((tv_usec y - tv_usec x) ÷ 1000000) as q eqn:Hq.
    remember (Z.rem (tv_usec y - tv_usec x) 1000000) as rest eqn:Hrest.
    clear Hq Hrest.
    rewrite (to_long_id (q + 1)) by long_range.
    rewrite (to_int_id (q + 1)) by int_range.
    rewrite (to_int_id (1000000 * (q + 1))) by int_range.
    rewrite (to_long_id (tv_usec y - 1000000 * (q + 1))) by long_range.
    rewrite (to_long_id (tv_sec y + (q + 1))) by long_range.
    cbn [tv_sec tv_usec].
    rewrite (to_long_id (tv_usec x - (tv_usec y - 1000000 * (q + 1)))) by long_range.
    destruct (Z.gtb_spec (tv_usec x - (tv_usec y - 1000000 * (q + 1))) 1000000)
      as [Hgt | _]; [ lia | ].
    cbn [fst snd tv_sec tv_usec].
    rewrite (to_long_id (tv_sec x - (tv_sec y + (q + 1)))) by long_range.
    rewrite (to_long_id (tv_usec x - (tv_usec y - 1000000 * (q + 1)))) by long_range.
    repeat split; lia.
  - rewrite (to_long_id (tv_usec x - tv_usec y)) by long_range.
    destruct (Z.gtb_spec (tv_usec x - tv_usec y) 1000000) as [Hgt | Hle].
    + pose proof (Z.quot_rem' (tv_usec x - tv_usec y) 1000000) as Hdiv.
      pose proof (Z.rem_bound_pos (tv_usec x - tv_usec y) 1000000 ltac:(lia) ltac:(lia))
        as Hrem.
      remember ((tv_usec x - tv_usec y) ÷ 1000000) as q eqn:Hq.
      remember (Z.rem (tv_usec x - tv_usec y) 1000000) as rest eqn:Hrest.
      clear Hq Hrest.
      rewrite (to_int_id q) by int_range.
      rewrite (to_int_id (1000000 * q)) by int_range.
      rewrite (to_long_id (tv_usec y + 1000000 * q)) by long_range.
      rewrite (to_long_id (tv_sec y - q)) by long_range.
      cbn [fst snd tv_sec tv_usec].
      rewrite (to_long_id (tv_sec x - (tv_sec y - q))) by long_range.
      rewrite (to_long_id (tv_usec x - (tv_usec y + 1000000 * q))) by long_range.
      repeat split; lia.
    + cbn [fst snd tv_sec tv_usec].
      rewrite (to_long_id (tv_sec x - tv_sec y)) by long_range.
      rewrite (to_long_id (tv_usec x - tv_usec y)) by long_range.
      repeat split; lia.
Qed.

(** ** Further properties of the filters *)

Section MoreFilterProperties.
Context {extraction : NumberExtraction}.

Lemma parse_all (lines : list string) :
  forall (acc numbers : list linenumber_t),
    Forall2 (fun tok n => extract tok = Some n) lines numbers ->
    LineFilter.parse lines acc = (acc ++ numbers, None).
Proof.
  induction lines as [ | line lines IH ]; intros acc numbers Hall;
    inversion Hall as [ | tok n lines' numbers' Htok Hrest ]; subst;
    cbn [LineFilter.parse].
  - rewrite app_nil_r. reflexivity.
  - rewrite Htok. rewrite (IH _ _ Hrest). rewrite <- app_assoc. reflexivity.
Qed.

Lemma parse_completed (lines : list string) :
  forall (acc result : list linenumber_t),
    LineFilter.parse lines acc = (result, None) ->
    exists numbers,
      Forall2 (fun tok n => extract tok = Some n) lines numbers
      /\ result = acc ++ numbers.
Proof.
  induction lines as [ | line lines IH ]; intros acc result; cbn [LineFilter.parse].
  - intros [= <-]. exists []. split; [ constructor | rewrite app_nil_r; reflexivity ].
  - destruct (extract line) as [ number | ] eqn:Hline; [ | discriminate ].
    intros Hrest. destruct (IH _ _ Hrest) as (numbers & Hall & ->).
    exists (number :: numbers). split; [ constructor; assumption | ].
    rewrite <- app_assoc. reflexivity.
Qed.

Lemma parse_first_bad (good rest : list string) (bad : string) :
  forall acc : list linenumber_t,
    Forall (fun tok => extract tok <> None) good -> extract bad = None ->
    LineFilter.parse (good ++ bad :: rest) acc = ([], Some bad).
Proof.
  induction good as [ | tok good IH ]; intros acc Hgood Hbad; cbn [app LineFilter.parse].
  - rewrite Hbad. reflexivity.
  - inversion Hgood as [ | tok0 good0 Htok Hrest ]; subst.
    destruct (extract tok) as [ number | ]; [ | contradiction ].
    exact (IH _ Hrest Hbad).
Qed.

Lemma setParams_succeeded (f f' : LineFilter.t) (params errmsg errmsg' : string) :
  LineFilter.setParams f params errmsg = (true, f', errmsg') <->
  exists numbers,
    Forall2 (fun tok n => extract tok = Some n)
      (getlines ","%char EmptyString params) numbers
    /\ LineFilter.linenumbers f' = LineFilter.linenumbers f ++ numbers
    /\ LineFilter.linenumbers f' <> []
    /\ errmsg' = errmsg.
Proof.
  unfold LineFilter.setParams. split.
  - destruct (LineFilter.parse _ _) as [result [ tok | ]] eqn:Hparse; [ discriminate | ].
    apply parse_completed in Hparse as (numbers & Hall & ->).
    destruct (LineFilter.linenumbers f ++ numbers) as [ | n ns ] eqn:Hresult;
      cbn [negb]; [ discriminate | ].
    intros [= <- <-]. exists numbers. cbn [LineFilter.linenumbers].
    repeat split; [ exact Hall | symmetry; exact Hresult | discriminate ].
  - intros (numbers & Hall & Hf' & Hne & ->).
    rewrite (parse_all _ _ _ Hall). rewrite <- Hf'.
    destruct f' as [result]. cbn [LineFilter.linenumbers] in *.
    destruct result as [ | n ns ]; [ contradiction | reflexivity ].
Qed.

Lemma chain_match_app (a b : FilterChain.t) (chunk : Chunk) :
  FilterChain.match_ (a ++ b) chunk
  = FilterChain.match_ a chunk && FilterChain.match_ b chunk.
Proof.
  induction a as [ | filter a IH ]; cbn [app FilterChain.match_]; [ reflexivity | ].
  destruct (Filter.match_ filter chunk); cbn [negb andb]; [ exact IH | reflexivity ].
Qed.

End MoreFilterProperties.

(** X1.  For two timestamps in either order, [timeval_subtract] gives the
    exact difference with a microsecond part between 0 and 999999, returns
    true exactly when the first is earlier than the second, and the value
    it leaves in its third argument denotes the same instant as before. *)
Theorem timeval_subtract_sign (x y : timeval) :
  timestamp x -> timestamp y ->
  let '(result, y', negative) := timeval_subtract x y in
  micros result = micros x - micros y
  /\ 0 <= tv_usec result < 1000000
  /\ (negative = true <-> micros x < micros y)
  /\ micros y' = micros y.
Proof.
  intros Hx Hy.
  pose proof (timeval_subtract_timestamps x y Hx Hy) as (Hexact & Husec & Hneg & Hy').
  destruct (timeval_subtract x y) as [[result y'] negative]. cbn [fst snd] in *.
  split; [ exact Hexact | split; [ exact Husec | split; [ | exact Hy' ] ] ].
  rewrite Hneg. apply Z.ltb_lt.
Qed.

Lemma timeval_subtract_sign_witness :
  let '(result, y', negative) :=
    timeval_subtract (mk_timeval 5 900000) (mk_timeval 6 100000) in
  micros result = micros (mk_timeval 5 900000) - micros (mk_timeval 6 100000)
  /\ 0 <= tv_usec result < 1000000
  /\ (negative = true <-> micros (mk_timeval 5 900000) < micros (mk_timeval 6 100000))
  /\ micros y' = micros (mk_timeval 6 100000).
Proof.
  apply (timeval_subtract_sign (mk_timeval 5 900000) (mk_timeval 6 100000)).
  - apply timestampb_spec. reflexivity.
  - apply timestampb_spec. reflexivity.
Defined.

(** X2.  For values whose microsecond fields need not be below one second
    but lie within 1000 seconds of zero (at most 1000000000 in absolute
    value, so that the [int] arithmetic of the function does not overflow),
    [timeval_subtract] still gives the exact difference, but its microsecond
    part lies between 0 and 1000000 inclusive: when the microseconds of the
    first exceed those of the second by exactly 1000000, the result keeps a
    microsecond part of 1000000 instead of carrying it into the seconds. *)
Theorem timeval_subtract_unnormalised (x y : timeval) :
  - 2 ^ 61 <= tv_sec x < 2 ^ 61 -> - 2 ^ 61 <= tv_sec y < 2 ^ 61 ->
  - 1000000000 <= tv_usec x <= 1000000000 ->
  - 1000000000 <= tv_usec y <= 1000000000 ->
  micros (fst (fst (timeval_subtract x y))) = micros x - micros y
  /\ 0 <= tv_usec (fst (fst (timeval_subtract x y))) <= 1000000
  /\ (tv_usec x - tv_usec y = 1000000 ->
      fst (fst (timeval_subtract x y))
      = mk_timeval (tv_sec x - tv_sec y) 1000000).
Proof.
  intros Hxs Hys Hxu Hyu.
  destruct (timeval_subtract_loose x y Hxs Hys Hxu Hyu) as (Hexact & Hrange & Hfull).
  split; [ exact Hexact | split; [ exact Hrange | ] ].
  intros Hgap. specialize (Hfull Hgap).
  destruct (fst (fst (timeval_subtract x y))) as [rs ru].
  unfold micros in Hexact. cbn [tv_sec tv_usec] in *. subst ru.
  f_equal. lia.
Qed.

Lemma timeval_subtract_unnormalised_witness :
  fst (fst (timeval_subtract (mk_timeval 7 1500000) (mk_timeval 5 500000)))
  = mk_timeval (7 - 5) 1000000.
Proof.
  apply (timeval_subtract_unnormalised (mk_timeval 7 1500000) (mk_timeval 5 500000));
    cbn [tv_sec tv_usec]; lia.
Defined.

Section TokenFacts.
Context {extraction : NumberExtraction}.

Lemma Forall2_numbers_in (lines : list string) (numbers : list linenumber_t) (n : linenumber_t) :
  Forall2 (fun tok m => extract tok = Some m) lines numbers ->
  In n numbers <-> exists tok, In tok lines /\ extract tok = Some n.
Proof.
  intros Hall. induction Hall as [ | tok m lines numbers Htok Hrest IH ]; cbn [In].
  - split; [ intros [] | intros (tok & [] & _) ].
  - rewrite IH. split.
    + intros [ <- | (tok' & Hin & Hextract) ].
      * exists tok. split; [ left; reflexivity | exact Htok ].
      * exists tok'. split; [ right; exact Hin | exact Hextract ].
    + intros (tok' & [ <- | Hin ] & Hextract).
      * left. congruence.
      * right. exists tok'. split; assumption.
Qed.

End TokenFacts.

(** X3.  [LineFilter::setParams] returns true exactly when every token of
    the parameters is a number and the filter then holds at least one line
    number; the numbers read are appended, in order, to the line numbers the
    filter held before the call (they are not replaced), and the error
    message is left as it was. *)
Theorem LineFilter_setParams_appends {extraction : NumberExtraction}
  (f f' : LineFilter.t) (params errmsg errmsg' : string) :
  LineFilter.setParams f params errmsg = (true, f', errmsg') <->
  exists numbers,
    Forall2 (fun tok n => extract tok = Some n)
      (getlines ","%char EmptyString params) numbers
    /\ LineFilter.linenumbers f' = LineFilter.linenumbers f ++ numbers
    /\ LineFilter.linenumbers f' <> []
    /\ errmsg' = errmsg.
Proof. apply setParams_succeeded. Qed.

Lemma LineFilter_setParams_appends_witness :
  @LineFilter.setParams decimal_extraction (LineFilter.mk [3]) "5, 7" "kept"
  = (true, LineFilter.mk [3; 5; 7], "kept"%string).
Proof.
  apply (proj2 (@LineFilter_setParams_appends decimal_extraction
                  (LineFilter.mk [3]) (LineFilter.mk [3; 5; 7]) "5, 7" "kept" "kept")).
  exists [5; 7]. split; [ | split; [ reflexivity | split; [ discriminate | reflexivity ] ] ].
  repeat constructor.
Defined.

(** X4.  When a token of the parameters is not a number, and every token
    before it is, [LineFilter::setParams] returns false, leaves the filter
    without line numbers, also those of earlier calls, and the error message
    names that first token. *)
Theorem LineFilter_setParams_first_bad_token {extraction : NumberExtraction}
  (f : LineFilter.t) (params errmsg bad : string) (good rest : list string) :
  getlines ","%char EmptyString params = good ++ bad :: rest ->
  Forall (fun tok => extract tok <> None) good ->
  extract bad = None ->
  LineFilter.setParams f params errmsg
  = (false, LineFilter.mk [], ("Not a number: " ++ bad)%string).
Proof.
  intros Htokens Hgood Hbad. unfold LineFilter.setParams.
  rewrite Htokens, (parse_first_bad good rest bad _ Hgood Hbad). reflexivity.
Qed.

Lemma LineFilter_setParams_first_bad_token_witness :
  @LineFilter.setParams decimal_extraction (LineFilter.mk [1; 2]) "3,x,5,y" "kept"
  = (false, LineFilter.mk [], "Not a number: x"%string).
Proof.
  apply (@LineFilter_setParams_first_bad_token decimal_extraction
           (LineFilter.mk [1; 2]) "3,x,5,y" "kept" "x" ["3"%string] ["5"%string; "y"%string]).
  - reflexivity.
  - constructor; [ discriminate | constructor ].
  - reflexivity.
Defined.

(** X5.  After a successful [LineFilter::setParams] on a filter as
    constructed, the filter matches a chunk exactly when some token of the
    parameters is a number that lies between the start line and the end line
    of the chunk, both included. *)
Theorem LineFilter_configured_match {extraction : NumberExtraction}
  (params errmsg errmsg' : string) (f' : LineFilter.t) (chunk : Chunk) :
  LineFilter.setParams LineFilter.create params errmsg = (true, f', errmsg') ->
  LineFilter.match_ f' chunk = true <->
  exists tok n,
    In tok (getlines ","%char EmptyString params)
    /\ extract tok = Some n
    /\ start_line chunk <= n <= end_line chunk.
Proof.
  intros Hset. apply setParams_succeeded in Hset as (numbers & Hall & Hf' & _ & _).
  cbn [LineFilter.create LineFilter.linenumbers app] in Hf'.
  unfold LineFilter.match_. rewrite match_loop_true, Hf'. split.
  - intros (n & Hin & Hrange).
    apply (Forall2_numbers_in _ _ n Hall) in Hin as (tok & Htok & Hextract).
    exists tok, n. repeat split; assumption || apply Hrange.
  - intros (tok & n & Htok & Hextract & Hrange).
    exists n. split; [ | exact Hrange ].
    apply (Forall2_numbers_in _ _ n Hall). exists tok. split; assumption.
Qed.

Lemma LineFilter_configured_match_witness :
  LineFilter.match_ (LineFilter.mk [3; 12]) (Script.chunk_of 10 14 "select 1;"%string) = true
  <-> exists tok n,
        In tok (getlines ","%char EmptyString "3,12")
        /\ decimal_extraction tok = Some n
        /\ 10 <= n <= 14.
Proof.
  apply (@LineFilter_configured_match decimal_extraction "3,12" "kept" "kept"
           (LineFilter.mk [3; 12]) (Script.chunk_of 10 14 "select 1;"%string)).
  reflexivity.
Defined.

(** X6.  A successful [LineFilter::setParams] never makes the filter match
    less: every chunk the filter matched before the call it matches after
    it. *)
Theorem LineFilter_setParams_keeps_matches {extraction : NumberExtraction}
  (f f' : LineFilter.t) (params errmsg errmsg' : string) (chunk : Chunk) :
  LineFilter.setParams f params errmsg = (true, f', errmsg') ->
  LineFilter.match_ f chunk = true ->
  LineFilter.match_ f' chunk = true.
Proof.
  intros Hset. apply setParams_succeeded in Hset as (numbers & _ & Hf' & _ & _).
  unfold LineFilter.match_. rewrite !match_loop_true, Hf'.
  intros (n & Hin & Hrange). exists n. split; [ | exact Hrange ].
  apply in_or_app. left. exact Hin.
Qed.

Lemma LineFilter_setParams_keeps_matches_witness :
  LineFilter.match_ (LineFilter.mk [3; 40]) (Script.chunk_of 1 5 "select 1;"%string) = true.
Proof.
  apply (@LineFilter_setParams_keeps_matches decimal_extraction
           (LineFilter.mk [3]) (LineFilter.mk [3; 40]) "40" "kept" "kept"
           (Script.chunk_of 1 5 "select 1;"%string)).
  - reflexivity.
  - reflexivity.
Defined.

(** X7.  A chain to which a filter was added with [FilterChain::addFilter]
    matches a chunk exactly when the chain matched it before and the added
    filter matches it; more generally two chains put one after the other
    match when both do. *)
Theorem FilterChain_addFilter_match (filters more : FilterChain.t) (filter : Filter.t)
  (chunk : Chunk) :
  FilterChain.match_ (FilterChain.addFilter filters filter) chunk
  = FilterChain.match_ filters chunk && Filter.match_ filter chunk
  /\ FilterChain.match_ (filters ++ more) chunk
     = FilterChain.match_ filters chunk && FilterChain.match_ more chunk.
Proof.
  split; [ | apply chain_match_app ].
  unfold FilterChain.addFilter. rewrite chain_match_app.
  cbn [FilterChain.match_]. destruct (Filter.match_ filter chunk); reflexivity.
Qed.

(** X8.  The order of the filters of a chain does not change what the chain
    matches. *)
Theorem FilterChain_match_permutation (filters filters' : FilterChain.t) (chunk : Chunk) :
  Permutation filters filters' ->
  FilterChain.match_ filters chunk = FilterChain.match_ filters' chunk.
Proof.
  intros Hperm.
  destruct (FilterChain.match_ filters chunk) eqn:Hleft;
    destruct (FilterChain.match_ filters' chunk) eqn:Hright; try reflexivity.
  - rewrite chain_match_true in Hleft.
    assert (Hall : FilterChain.match_ filters' chunk = true).
    { apply chain_match_true. intros f Hin. apply Hleft.
      apply (Permutation_in f (Permutation_sym Hperm)). exact Hin. }
    congruence.
  - rewrite chain_match_true in Hright.
    assert (Hall : FilterChain.match_ filters chunk = true).
    { apply chain_match_true. intros f Hin. apply Hright.
      apply (Permutation_in f Hperm). exact Hin. }
    congruence.
Qed.

Lemma FilterChain_match_permutation_witness :
  FilterChain.match_
    [Filter.Line (LineFilter.mk [5]); Filter.ContentRegex RegexFilter.create]
    (Script.chunk_of 3 7 "select 1;"%string)
  = FilterChain.match_
      [Filter.ContentRegex RegexFilter.create; Filter.Line (LineFilter.mk [5])]
      (Script.chunk_of 3 7 "select 1;"%string).
Proof.
  apply FilterChain_match_permutation. apply perm_swap.
Defined.

(** ** [cancel], [connect], [executeSql] and [finish] *)

Section EngineFacts.
Context {pq : Libpq} {sys : SysClock} {hdr : Headers}.
Local Open Scope string_scope.
Local Open Scope list_scope.
Import Db.

Lemma cancel_connected (errmsg : string) (s : Session) (c : PGconn) :
  conn (db s) = Some c -> PQstatus c = CONNECTION_OK ->
  cancel errmsg s =
    match PQgetCancel c with
    | None =>
        (Returns (false, errmsg),
         mk_Session (db s) (clock s)
           (log s ++ [(LogDebug, "got a working db connection");
                      (LogError, "could not get PGCancel pointer")])
           (submitted s))
    | Some cncl =>
        let '(rc, cnclbuf) := PQcancel cncl CANCEL_BUF_SIZE in
        if negb (rc =? 1)%Z then
          (Returns (false, cnclbuf),
           mk_Session (db s) (clock s)
             (log s ++ [(LogDebug, "got a working db connection");
                        (LogDebug, "Query successfuly canceled");
                        (LogDebug, "could not cancel running query: " ++ cnclbuf)%string])
             (submitted s))
        else
          (Returns (true, errmsg),
           mk_Session (db s) (clock s)
             (log s ++ [(LogDebug, "got a working db connection");
                        (LogDebug, "Query successfuly canceled")])
             (submitted s))
    end.
Proof.
  intros Hc Hok. unfold cancel.
  rewrite (bind_returns _ _ _ _ _ (isConnected_run s)).
  rewrite Hc. cbn [conn_status]. rewrite Hok. cbn [ConnStatusType_eqb negb].
  unfold bind, get, log_debug, log_error, modify, ret, add_log. cbn. rewrite Hc.
  destruct (PQgetCancel c) as [ cncl | ]; cbn.
  - destruct (PQcancel cncl CANCEL_BUF_SIZE) as [rc buf].
    destruct (rc =? 1)%Z; cbn; rewrite <- ?app_assoc; reflexivity.
  - rewrite <- ?app_assoc. reflexivity.
Qed.

Lemma connect_run (host db_name port user passwd : option string) (s : Session) :
  connect host db_name port user passwd s =
    (Returns (ConnStatusType_eqb
                (conn_status (PQsetdbLogin host port None None db_name user passwd))
                CONNECTION_OK),
     mk_Session
       (mk (PQsetdbLogin host port None None db_name user passwd)
          (do_commit (db s)) (failed_count (db s)) (in_transaction (db s)))
       (clock s)
       (log s ++ [(LogDebug,
                   if ConnStatusType_eqb
                        (conn_status (PQsetdbLogin host port None None db_name user passwd))
                        CONNECTION_OK
                   then "got a working db connection" else "no db connection")])
       (submitted s)).
Proof.
  unfold connect, bind, modify. cbn beta iota. rewrite isConnected_run. reflexivity.
Qed.

(** Every outcome of [executeSql], by what [PQexec] answers. *)
Lemma executeSql_cases (q : string) (silent : bool) (s : Session) :
  (exists c c' pgres,
      conn (db s) = Some c /\ PQexec c q = (c', Some pgres) /\ is_error pgres = false
      /\ fst (executeSql q silent s) = Returns tt)
  \/ (exists c c' pgres,
         conn (db s) = Some c /\ PQexec c q = (c', Some pgres) /\ is_error pgres = true
         /\ fst (executeSql q silent s)
            = Throws (mk_DbException
                        ("could not execute query " ++ String CString.dquote q
                         ++ String CString.dquote ": "
                         ++ match PQresultErrorField pgres PG_DIAG_MESSAGE_PRIMARY with
                            | Some e => e
                            | None => EmptyString
                            end)%string))
  \/ ((conn (db s) = None \/ exists c c', conn (db s) = Some c /\ PQexec c q = (c', None))
      /\ fst (executeSql q silent s) = Throws (mk_DbException "PQExec failed")).
Proof.
  destruct (conn (db s)) as [ c | ] eqn:Hc.
  - destruct (PQexec c q) as [c' [ pgres | ]] eqn:Hexec.
    + destruct (is_error pgres) eqn:Herr.
      * right. left. exists c, c', pgres.
        destruct (executeSql_refused q silent s c c' pgres Hc Hexec Herr) as [l ->].
        repeat split; assumption.
      * left. exists c, c', pgres.
        destruct (executeSql_accepted q silent s c c' Hc
                    (ex_intro _ pgres (conj Hexec Herr))) as [l ->].
        repeat split; assumption.
    + right. right.
      destruct (executeSql_no_result q silent s
                  (or_intror (ex_intro _ c (ex_intro _ c' (conj Hc Hexec)))))
        as (s' & -> & _).
      split; [ right; exists c, c'; split; [ reflexivity | exact Hexec ] | reflexivity ].
  - right. right.
    destruct (executeSql_no_result q silent s (or_introl Hc)) as (s' & -> & _).
    split; [ left; reflexivity | reflexivity ].
Qed.

(** [finish] on a session without open transaction and without failed
    chunk does nothing. *)
Lemma finish_idle (s : Session) :
  in_transaction (db s) = false -> failed_count (db s) = 0 ->
  finish s = (Returns tt, s).
Proof.
  intros Hopen Hfailed.
  destruct s as [[c cm failed open] clk lg sub]. cbn in Hopen, Hfailed. subst.
  unfold finish, bind, get, commit, rollback, modify, ret. cbn.
  destruct cm; reflexivity.
Qed.

(** What is left when the closing statement of [rollback] or [commit] is
    not accepted. *)
Lemma closing_not_returned (m : M Session unit) (q : string) (s : Session) :
  m s =
    bind get (fun s0 =>
      if in_transaction (db s0) then
        bind (executeSql q silent_default)
             (fun _ => modify (set_in_transaction false))
      else ret tt) s ->
  fst (m s) <> Returns tt ->
  (exists e, fst (m s) = Throws e)
  /\ in_transaction (db s) = true
  /\ in_transaction (db (snd (m s))) = true
  /\ submitted (snd (m s)) = submitted s ++ [q].
Proof.
  intros Hm.
  assert (Hm' : m s =
                (if in_transaction (db s) then
                   bind (executeSql q silent_default)
                        (fun _ => modify (set_in_transaction false))
                 else ret tt) s) by (rewrite Hm; reflexivity).
  rewrite Hm'. clear Hm Hm'.
  destruct (in_transaction (db s)) eqn:Hopen; [ | intros Hne; contradiction Hne; reflexivity ].
  unfold bind, modify.
  destruct (executeSql q silent_default s) as [r s'] eqn:Hexec.
  pose proof (executeSql_frame _ _ _ _ _ Hexec) as ((_ & _ & Hin) & _ & Hsub & _).
  pose proof (executeSql_cases q silent_default s) as Hcases. rewrite Hexec in Hcases.
  cbn [fst] in Hcases.
  destruct r as [ [] | e | ]; cbn [fst snd].
  - intros Hne. contradiction Hne. reflexivity.
  - intros _. split; [ exists e; reflexivity | ].
    split; [ reflexivity | split; [ congruence | exact Hsub ] ].
  - destruct Hcases as [(c & c' & p & _ & _ & _ & H) | [(c & c' & p & _ & _ & _ & H) | (_ & H)]];
      discriminate H.
Qed.

Lemma finish_not_returned (s : Session) :
  fst (finish s) <> Returns tt ->
  (exists e, fst (finish s) = Throws e)
  /\ in_transaction (db s) = true
  /\ in_transaction (db (snd (finish s))) = true
  /\ failed_count (db (snd (finish s))) = failed_count (db s)
  /\ do_commit (db (snd (finish s))) = do_commit (db s)
  /\ exists q, submitted (snd (finish s)) = submitted s ++ [q]
               /\ (q = "rollback;" \/ q = "commit;").
Proof.
  intros Hne.
  assert (Hshape : exists (m : M Session unit) (q : string),
             finish s = bind m (fun _ => modify (set_failed_count 0)) s
             /\ (q = "rollback;" \/ q = "commit;")
             /\ m s =
                  bind get (fun s0 =>
                    if in_transaction (db s0) then
                      bind (executeSql q silent_default)
                           (fun _ => modify (set_in_transaction false))
                    else ret tt) s
             /\ do_commit (db (snd (m s))) = do_commit (db s)
             /\ failed_count (db (snd (m s))) = failed_count (db s)).
  { destruct (Z.lt_ge_cases 0 (failed_count (db s))) as [Hfailed | Hclean].
    - exists rollback, "rollback;". split; [ exact (finish_failed s Hfailed) | ].
      split; [ left; reflexivity | split; [ reflexivity | ] ].
      pose proof (rollback_run s) as (_ & H2 & H3 & _). split; congruence.
    - destruct (do_commit (db s)) eqn:Hcommit.
      + exists commit, "commit;". split; [ apply finish_clean; lia | ].
        split; [ right; reflexivity | ].
        split; [ clear Hne Hclean; destruct s as [[c cm failed open] clk lg sub];
                 cbn in Hcommit; subst cm; reflexivity | ].
        pose proof (commit_run s Hcommit) as (_ & H2 & H3 & _). split; congruence.
      + exists rollback, "rollback;". split.
        * rewrite finish_clean by lia. unfold bind. rewrite commit_dry_run by exact Hcommit.
          reflexivity.
        * split; [ left; reflexivity | split; [ reflexivity | ] ].
          pose proof (rollback_run s) as (_ & H2 & H3 & _). split; congruence. }
  destruct Hshape as (m & q & Hfin & Hq & Hm & Hcommit & Hfailed).
  assert (Hmne : fst (m s) <> Returns tt).
  { intros Hret. apply Hne. exact (proj1 (proj2 (finish_close m s Hfin)) Hret). }
  destruct (closing_not_returned m q s Hm Hmne) as ((e & He) & Hopen & Hopen' & Hsent).
  assert (Hsame : finish s = (Throws e, snd (m s))).
  { rewrite Hfin. unfold bind. destruct (m s) as [r s1]. cbn [fst snd] in *. subst r.
    reflexivity. }
  rewrite Hsame. cbn [fst snd].
  split; [ exists e; reflexivity | ].
  split; [ exact Hopen | split; [ exact Hopen' | split; [ exact Hfailed | ] ] ].
  split; [ exact Hcommit | ]. exists q. split; assumption.
Qed.

End EngineFacts.

Section EngineForward.
Context {pq : Libpq} {sys : SysClock} {hdr : Headers}.
Local Open Scope string_scope.
Local Open Scope list_scope.
Import Db.

(** What [finish] hands to the server, in one formula. *)
Lemma finish_sent (s : Session) :
  submitted (snd (finish s)) =
    submitted s
    ++ (if in_transaction (db s) then
          [if (failed_count (db s) >? 0)%Z then "rollback;"
           else if do_commit (db s) then "commit;" else "rollback;"]
        else []).
Proof.
  destruct (Z.gtb_spec (failed_count (db s)) 0) as [Hfailed | Hclean].
  - destruct (finish_close _ s (finish_failed s ltac:(lia))) as (-> & _).
    exact (proj1 (rollback_run s)).
  - destruct (finish_close _ s (finish_clean s Hclean)) as (-> & _).
    destruct (do_commit (db s)) eqn:Hcommit.
    + exact (proj1 (commit_run s Hcommit)).
    + rewrite (commit_dry_run s Hcommit). exact (proj1 (rollback_run s)).
Qed.

(** [finish], its three cases of [rollback] and [commit] put together. *)
Lemma finish_run (s : Session) :
  finish s =
    (if in_transaction (db s) then
       bind (executeSql
               (if (failed_count (db s) >? 0)%Z then "rollback;"
                else if do_commit (db s) then "commit;" else "rollback;")
               silent_default)
            (fun _ => bind (modify (set_in_transaction false))
                        (fun _ => modify (set_failed_count 0)))
     else modify (set_failed_count 0)) s.
Proof.
  unfold finish, commit, rollback, bind at 1, get. cbn beta iota.
  destruct (failed_count (db s) >? 0)%Z.
  - unfold bind at 1 2, get. cbn beta iota.
    destruct (in_transaction (db s)); [ | reflexivity ].
    unfold bind. destruct (executeSql _ _ s) as [[ [] | e | ] s1]; reflexivity.
  - unfold bind at 1 2, get. cbn beta iota.
    destruct (do_commit (db s)); cbn [negb].
    + unfold bind at 1, get. cbn beta iota.
      destruct (in_transaction (db s)); [ | reflexivity ].
      unfold bind. destruct (executeSql _ _ s) as [[ [] | e | ] s1]; reflexivity.
    + unfold bind at 1, get. cbn beta iota.
      destruct (in_transaction (db s)); [ | reflexivity ].
      unfold bind. destruct (executeSql _ _ s) as [[ [] | e | ] s1]; reflexivity.
Qed.

Lemma finish_returned (s : Session) :
  fst (finish s) = Returns tt ->
  failed_count (db (snd (finish s))) = 0
  /\ in_transaction (db (snd (finish s))) = false
  /\ do_commit (db (snd (finish s))) = do_commit (db s)
  /\ clock (snd (finish s)) = clock s.
Proof.
  rewrite finish_run.
  destruct (in_transaction (db s)) eqn:Hopen.
  - unfold bind, modify.
    destruct (executeSql _ silent_default s) as [r s1] eqn:Hexec.
    apply executeSql_frame in Hexec as ((Hcommit & _ & _) & Hclock & _).
    destruct r as [ [] | e | ]; cbn; [ | discriminate | discriminate ].
    intros _. repeat split; assumption.
  - intros _. cbn. repeat split. exact Hopen.
Qed.

End EngineForward.

(** ** The engine outside the served call *)

(** X9.  [Db::cancel] always returns: it never throws, whatever the state
    of the connection.  It leaves the [Db] object, the clock and the
    statements sent as they were and only adds to the log; when it returns
    true, the error message is the one it was given. *)
Theorem cancel_never_throws {pq : Libpq} {sys : SysClock} (errmsg : string)
  (s : Db.Session) :
  exists (ok : bool) (msg : string) (s' : Db.Session),
    Db.cancel errmsg s = (Returns (ok, msg), s')
    /\ Db.db s' = Db.db s
    /\ Db.clock s' = Db.clock s
    /\ Db.submitted s' = Db.submitted s
    /\ (exists l, Db.log s' = Db.log s ++ l)
    /\ (ok = true -> msg = errmsg).
Proof.
  destruct (ConnStatusType_eqb (Db.conn_status (Db.conn (Db.db s))) CONNECTION_OK)
    eqn:Hstatus.
  - apply ConnStatusType_eqb_OK in Hstatus.
    destruct (Db.conn (Db.db s)) as [ c | ] eqn:Hc; [ | discriminate Hstatus ].
    cbn [Db.conn_status] in Hstatus. rewrite (cancel_connected errmsg s c Hc Hstatus).
    destruct (PQgetCancel c) as [ cncl | ].
    + destruct (PQcancel cncl CANCEL_BUF_SIZE) as [rc buf].
      destruct (rc =? 1); cbn [negb]; do 3 eexists;
        (split; [ reflexivity | ]); cbn;
        (split; [ reflexivity | split; [ reflexivity | split; [ reflexivity | ] ] ]);
        (split; [ eexists; reflexivity | ]); [ reflexivity | discriminate ].
    + do 3 eexists. split; [ reflexivity | ]. cbn.
      split; [ reflexivity | split; [ reflexivity | split; [ reflexivity | ] ] ].
      split; [ eexists; reflexivity | discriminate ].
  - assert (Hbad : Db.conn_status (Db.conn (Db.db s)) <> CONNECTION_OK).
    { intros Hok. apply ConnStatusType_eqb_OK in Hok. congruence. }
    rewrite (cancel_not_connected errmsg s Hbad).
    do 3 eexists. split; [ reflexivity | ]. cbn.
    split; [ reflexivity | split; [ reflexivity | split; [ reflexivity | ] ] ].
    split; [ eexists; reflexivity | reflexivity ].
Qed.

Lemma cancel_never_throws_witness :
  exists (ok : bool) (msg : string) (s' : Db.Session),
    @Db.cancel Script.libpq Script.sysclock "unchanged"%string
      (Script.session_on (Some Script.obliging) true 0 true)
    = (Returns (ok, msg), s')
    /\ Db.db s' = Db.db (Script.session_on (Some Script.obliging) true 0 true)
    /\ Db.clock s' = 5900000
    /\ Db.submitted s' = []
    /\ (exists l, Db.log s' = [] ++ l)
    /\ (ok = true -> msg = "unchanged"%string).
Proof.
  exact (@cancel_never_throws Script.libpq Script.sysclock "unchanged"%string
           (Script.session_on (Some Script.obliging) true 0 true)).
Defined.

(** X10.  On a usable connection: when no cancel handle can be obtained,
    [Db::cancel] returns false, leaves the error message as it was given and
    logs an error; when [PQcancel] returns 1, it returns true and leaves the
    error message.  As soon as a handle is obtained the debug log says
    that the query was cancelled, also when [PQcancel] then fails. *)
Theorem cancel_with_connection {pq : Libpq} {sys : SysClock} (s : Db.Session)
  (errmsg : string) (c : PGconn) :
  Db.conn (Db.db s) = Some c ->
  PQstatus c = CONNECTION_OK ->
  (PQgetCancel c = None ->
   exists s' : Db.Session,
     Db.cancel errmsg s = (Returns (false, errmsg), s')
     /\ In (LogError, "could not get PGCancel pointer"%string) (Db.log s'))
  /\ (forall (cncl : PGcancel) (buf : string),
         PQgetCancel c = Some cncl ->
         PQcancel cncl CANCEL_BUF_SIZE = (1, buf) ->
         exists s' : Db.Session,
           Db.cancel errmsg s = (Returns (true, errmsg), s'))
  /\ (forall cncl : PGcancel,
         PQgetCancel c = Some cncl ->
         In (LogDebug, "Query successfuly canceled"%string)
            (Db.log (snd (Db.cancel errmsg s)))).
Proof.
  intros Hc Hok. rewrite (cancel_connected errmsg s c Hc Hok).
  split; [ | split ].
  - intros ->. eexists. split; [ reflexivity | ].
    cbn. rewrite in_app_iff. right. right. left. reflexivity.
  - intros cncl buf -> ->. cbn. eexists. reflexivity.
  - intros cncl ->. destruct (PQcancel cncl CANCEL_BUF_SIZE) as [rc buf].
    destruct (rc =? 1); cbn; rewrite in_app_iff; right; right; left; reflexivity.
Qed.

Lemma cancel_with_connection_witness :
  (exists s' : Db.Session,
      @Db.cancel Script.libpq Script.sysclock "unchanged"%string
        (Script.session_on (Some Script.obliging) true 0 true)
      = (Returns (true, "unchanged"%string), s'))
  /\ In (LogError, "could not get PGCancel pointer"%string)
        (Db.log (snd (@Db.cancel Script.libpq Script.sysclock "unchanged"%string
                        (Script.session_on (Some (Script.mute_on "select 1;"%string))
                           true 0 true)))).
Proof.
  split.
  - apply (proj1 (proj2 (@cancel_with_connection Script.libpq Script.sysclock
                           (Script.session_on (Some Script.obliging) true 0 true)
                           "unchanged"%string Script.obliging eq_refl eq_refl))
             (1, EmptyString) EmptyString eq_refl eq_refl).
  - destruct (proj1 (@cancel_with_connection Script.libpq Script.sysclock
                       (Script.session_on (Some (Script.mute_on "select 1;"%string)) true 0 true)
                       "unchanged"%string (Script.mute_on "select 1;"%string)
                       eq_refl eq_refl) eq_refl) as (s' & Hrun & Hlog).
    rewrite Hrun. exact Hlog.
Defined.

(** X11.  [Db::connect] replaces the connection by the one [PQsetdbLogin]
    gives and returns whether it is usable; it sends nothing and keeps the
    commit flag, the count of failed chunks and the transaction flag.  So
    after a [connect] on an object whose transaction flag is set, a call of
    [runChunk] that returns has sent no begin on the new connection. *)
Theorem connect_keeps_transaction {pq : Libpq} {sys : SysClock} {hdr : Headers}
  (s : Db.Session) (host db_name port user passwd : option string) :
  (fst (Db.connect host db_name port user passwd s)
   = Returns (ConnStatusType_eqb
                (Db.conn_status (PQsetdbLogin host port None None db_name user passwd))
                CONNECTION_OK)
   /\ Db.conn (Db.db (snd (Db.connect host db_name port user passwd s)))
      = PQsetdbLogin host port None None db_name user passwd
   /\ Db.do_commit (Db.db (snd (Db.connect host db_name port user passwd s)))
      = Db.do_commit (Db.db s)
   /\ Db.failed_count (Db.db (snd (Db.connect host db_name port user passwd s)))
      = Db.failed_count (Db.db s)
   /\ Db.in_transaction (Db.db (snd (Db.connect host db_name port user passwd s)))
      = Db.in_transaction (Db.db s)
   /\ Db.clock (snd (Db.connect host db_name port user passwd s)) = Db.clock s
   /\ Db.submitted (snd (Db.connect host db_name port user passwd s)) = Db.submitted s)
  /\ (forall (chunk chunk' : Chunk) (ok : bool) (s2 : Db.Session),
         Db.in_transaction (Db.db s) = true ->
         Db.runChunk chunk (snd (Db.connect host db_name port user passwd s))
         = (Returns ok, chunk', s2) ->
         Db.submitted s2 =
           Db.submitted s
           ++ ["savepoint chunk;"%string; getSql chunk;
               if ok then "release savepoint chunk;"%string
               else "rollback to savepoint chunk;"%string]).
Proof.
  rewrite connect_run. split.
  - cbn. repeat split.
  - intros chunk chunk' ok s2 Hopen Hrun.
    apply runChunk_returned in Hrun
      as (clk1 & t0 & t1 & c & c' & pgres & _ & _ & _ & _ & _ & _ & _ & Hsent & _).
    rewrite Hsent. cbn [snd Db.db Db.in_transaction Db.submitted]. rewrite Hopen.
    reflexivity.
Qed.

Lemma connect_keeps_transaction_witness :
  let s := Script.session_on None true 0 true in
  let s1 := snd (@Db.connect Script.libpq Script.sysclock None None None None None s) in
  let chunk := Script.chunk_of 1 1 "select 1;"%string in
  Db.submitted (snd (@Db.runChunk Script.libpq Script.sysclock Script.headers chunk s1))
  = ["savepoint chunk;"%string; "select 1;"%string; "release savepoint chunk;"%string].
Proof.
  intros s s1 chunk.
  set (R := @Db.runChunk Script.libpq Script.sysclock Script.headers chunk s1).
  apply (proj2 (@connect_keeps_transaction Script.libpq Script.sysclock Script.headers
                  s None None None None None)
           chunk (snd (fst R)) true (snd R) eq_refl).
  exact (triple_eta R (Returns true) eq_refl).
Defined.

(** X12.  [Db::executeSql] ends in one of three ways: it returns when
    [PQexec] gives a result that is no error; it throws the exception
    "PQExec failed" when there is no connection or [PQexec] gives no
    result; it throws an exception that quotes the statement when the
    result is an error.  In every case the statement has been handed to
    [PQexec] exactly once, and the commit flag, the count of failed chunks,
    the transaction flag and the clock are as before. *)
Theorem executeSql_outcomes {pq : Libpq} {sys : SysClock} (sqlstr : string)
  (silent : bool) (s : Db.Session) :
  ((exists c c' pgres,
       Db.conn (Db.db s) = Some c /\ PQexec c sqlstr = (c', Some pgres)
       /\ is_error pgres = false
       /\ fst (Db.executeSql sqlstr silent s) = Returns tt)
   \/ (exists c c' pgres,
          Db.conn (Db.db s) = Some c /\ PQexec c sqlstr = (c', Some pgres)
          /\ is_error pgres = true
          /\ exists msg,
               fst (Db.executeSql sqlstr silent s)
               = Throws (mk_DbException
                           ("could not execute query " ++ String CString.dquote sqlstr
                            ++ String CString.dquote ": " ++ msg)%string))
   \/ ((Db.conn (Db.db s) = None
        \/ exists c c', Db.conn (Db.db s) = Some c /\ PQexec c sqlstr = (c', None))
       /\ fst (Db.executeSql sqlstr silent s) = Throws (mk_DbException "PQExec failed")))
  /\ Db.submitted (snd (Db.executeSql sqlstr silent s)) = Db.submitted s ++ [sqlstr]
  /\ Db.do_commit (Db.db (snd (Db.executeSql sqlstr silent s))) = Db.do_commit (Db.db s)
  /\ Db.failed_count (Db.db (snd (Db.executeSql sqlstr silent s)))
     = Db.failed_count (Db.db s)
  /\ Db.in_transaction (Db.db (snd (Db.executeSql sqlstr silent s)))
     = Db.in_transaction (Db.db s)
  /\ Db.clock (snd (Db.executeSql sqlstr silent s)) = Db.clock s.
Proof.
  split.
  - destruct (executeSql_cases sqlstr silent s)
      as [Hret | [(c & c' & pgres & Hc & Hexec & Herr & Hthrow) | Hnone]].
    + left. exact Hret.
    + right. left. exists c, c', pgres.
      split; [ exact Hc | split; [ exact Hexec | split; [ exact Herr | ] ] ].
      eexists. exact Hthrow.
    + right. right. exact Hnone.
  - destruct (Db.executeSql sqlstr silent s) as [r s'] eqn:Hrun.
    apply executeSql_frame in Hrun as ((Hcommit & Hfailed & Hopen) & Hclock & Hsent & _).
    cbn [snd]. repeat split; assumption.
Qed.

(** X13.  [Db::executeSql] does not stop when the connection is not usable:
    it logs a warning and hands the statement to [PQexec] all the same, and
    returns if the server answers without an error. *)
Theorem executeSql_unusable_connection {pq : Libpq} {sys : SysClock} (sqlstr : string)
  (silent : bool) (s : Db.Session) :
  Db.conn_status (Db.conn (Db.db s)) <> CONNECTION_OK ->
  In (LogWarn, "can not run chunk - no db connection"%string)
     (Db.log (snd (Db.executeSql sqlstr silent s)))
  /\ Db.submitted (snd (Db.executeSql sqlstr silent s)) = Db.submitted s ++ [sqlstr]
  /\ (forall c c', Db.conn (Db.db s) = Some c -> Db.accepted c sqlstr c' ->
                   fst (Db.executeSql sqlstr silent s) = Returns tt).
Proof.
  intros Hbad. split; [ | split ].
  - unfold Db.executeSql.
    rewrite (bind_returns _ _ _ _ _ (isConnected_run s)).
    destruct (ConnStatusType_eqb _ _) eqn:Hstatus.
    { apply ConnStatusType_eqb_OK in Hstatus. contradiction. }
    cbn [negb].
    rewrite (bind_returns _ _ _ _ _
               (eq_refl : Db.log_warn "can not run chunk - no db connection" _
                          = (Returns tt, _))).
    rewrite (bind_returns _ _ _ _ _
               (eq_refl : Db.log_debug _ _ = (Returns tt, _))).
    match goal with
    | |- In ?e (Db.log (snd (bind _ ?k ?S))) =>
        assert (Hin : In e (Db.log S))
          by (cbn; rewrite !in_app_iff; cbn; auto);
        generalize Hin; generalize S
    end.
    intros S HS. unfold bind, Db.exec.
    destruct (Db.conn (Db.db S)) as [ c | ].
    + destruct (PQexec c sqlstr) as [c' [ pgres | ]].
      * destruct (is_error pgres); [ destruct silent | ]; cbn;
          rewrite ?in_app_iff; auto.
      * cbn. rewrite ?in_app_iff; auto.
    + cbn. rewrite ?in_app_iff; auto.
  - destruct (Db.executeSql sqlstr silent s) as [r s'] eqn:Hrun.
    apply executeSql_frame in Hrun as (_ & _ & Hsent & _). exact Hsent.
  - intros c c' Hc Hacc.
    destruct (executeSql_accepted sqlstr silent s c c' Hc Hacc) as [l ->]. reflexivity.
Qed.

Lemma executeSql_unusable_connection_witness :
  In (LogWarn, "can not run chunk - no db connection"%string)
     (Db.log (snd (@Db.executeSql Script.libpq Script.sysclock "select 1;"%string false
                     (Script.session_on (Some Script.lost) true 0 true))))
  /\ Db.submitted (snd (@Db.executeSql Script.libpq Script.sysclock "select 1;"%string false
                          (Script.session_on (Some Script.lost) true 0 true)))
     = ["select 1;"%string].
Proof.
  pose proof (@executeSql_unusable_connection Script.libpq Script.sysclock
                "select 1;"%string false (Script.session_on (Some Script.lost) true 0 true)
                ltac:(discriminate)) as (Hlog & Hsent & _).
  split; [ exact Hlog | exact Hsent ].
Defined.

(** X14.  The parameter [silent] of [Db::executeSql] changes nothing but the
    log: the outcome, the [Db] object, the clock and the statements sent are
    the same with and without it.  With [silent] set, a statement the server
    answers, with an error or not, leaves no error entry in the log. *)
Theorem executeSql_silent {pq : Libpq} {sys : SysClock} (sqlstr : string)
  (s : Db.Session) :
  fst (Db.executeSql sqlstr true s) = fst (Db.executeSql sqlstr false s)
  /\ Db.db (snd (Db.executeSql sqlstr true s)) = Db.db (snd (Db.executeSql sqlstr false s))
  /\ Db.clock (snd (Db.executeSql sqlstr true s))
     = Db.clock (snd (Db.executeSql sqlstr false s))
  /\ Db.submitted (snd (Db.executeSql sqlstr true s))
     = Db.submitted (snd (Db.executeSql sqlstr false s))
  /\ (exists l, Db.log (snd (Db.executeSql sqlstr false s))
                = Db.log (snd (Db.executeSql sqlstr true s)) ++ l)
  /\ (forall c c' pgres,
         Db.conn (Db.db s) = Some c -> PQexec c sqlstr = (c', Some pgres) ->
         exists l,
           Db.log (snd (Db.executeSql sqlstr true s)) = Db.log s ++ l
           /\ Forall (fun entry => fst entry <> LogError) l).
Proof.
  unfold Db.executeSql.
  rewrite !(bind_returns _ _ _ _ _ (isConnected_run s)).
  unfold bind, Db.exec, Db.log_warn, Db.log_debug, Db.log_error, modify, ret, throw.
  destruct s as [[[ c | ] cm failed open] clk lg sub]; cbn.
  - destruct (PQexec c sqlstr) as [c' [ pgres | ]] eqn:Hexec.
    + destruct (ConnStatusType_eqb _ _); cbn; rewrite Hexec; cbn;
        destruct (is_error pgres); cbn;
        (repeat split;
         [ first [ exists []; rewrite app_nil_r; reflexivity | eexists; reflexivity ]
         | intros c0 c0' pgres0 _ _; rewrite <- ?app_assoc; eexists;
           (split; [ reflexivity | repeat constructor; discriminate ]) ]).
    + destruct (ConnStatusType_eqb _ _); cbn; rewrite Hexec; cbn;
        (repeat split;
         [ exists []; rewrite app_nil_r; reflexivity
         | intros c0 c0' pgres0 [= <-]; rewrite Hexec; discriminate ]).
  - repeat split; [ exists []; rewrite app_nil_r; reflexivity | discriminate ].
Qed.

Lemma executeSql_silent_witness :
  exists l,
    Db.log (snd (@Db.executeSql Script.libpq Script.sysclock "select 1;"%string true
                   (Script.session_on (Some Script.refusing) true 0 true)))
    = [] ++ l
    /\ Forall (fun entry => fst entry <> LogError) l.
Proof.
  exact (proj2 (proj2 (proj2 (proj2 (proj2
           (@executeSql_silent Script.libpq Script.sysclock "select 1;"%string
              (Script.session_on (Some Script.refusing) true 0 true))))))
           Script.refusing Script.refusing (Script.syntax_error None) eq_refl eq_refl).
Defined.

(** X15.  [Db::finish] is idempotent: after a call that returned, a second
    call returns as well, sends nothing and leaves the session as it is. *)
Theorem finish_twice {pq : Libpq} {sys : SysClock} {hdr : Headers} (s : Db.Session) :
  fst (Db.finish s) = Returns tt ->
  Db.finish (snd (Db.finish s)) = (Returns tt, snd (Db.finish s)).
Proof.
  intros Hret. destruct (finish_returned s Hret) as (Hfailed & Hopen & _).
  exact (finish_idle _ Hopen Hfailed).
Qed.

Lemma finish_twice_witness :
  let s := Script.session_on (Some Script.obliging) true 2 true in
  @Db.finish Script.libpq Script.sysclock Script.headers
    (snd (@Db.finish Script.libpq Script.sysclock Script.headers s))
  = (Returns tt, snd (@Db.finish Script.libpq Script.sysclock Script.headers s)).
Proof.
  intros s.
  apply (@finish_twice Script.libpq Script.sysclock Script.headers s).
  reflexivity.
Defined.

(** X16.  When [Db::finish] does not return, it has thrown: a transaction
    was open and the server did not accept the one statement, rollback or
    commit, that was sent.  The transaction flag is still set and the count
    of failed chunks has not been reset, so that a second call of [finish]
    sends the same statement again. *)
Theorem finish_throws_keeps_state {pq : Libpq} {sys : SysClock} {hdr : Headers}
  (s : Db.Session) :
  fst (Db.finish s) <> Returns tt ->
  (exists e, fst (Db.finish s) = Throws e)
  /\ Db.in_transaction (Db.db s) = true
  /\ Db.in_transaction (Db.db (snd (Db.finish s))) = true
  /\ Db.failed_count (Db.db (snd (Db.finish s))) = Db.failed_count (Db.db s)
  /\ Db.do_commit (Db.db (snd (Db.finish s))) = Db.do_commit (Db.db s)
  /\ exists q,
       (q = "rollback;"%string \/ q = "commit;"%string)
       /\ Db.submitted (snd (Db.finish s)) = Db.submitted s ++ [q]
       /\ Db.submitted (snd (Db.finish (snd (Db.finish s)))) = Db.submitted s ++ [q; q].
Proof.
  intros Hne.
  destruct (finish_not_returned s Hne)
    as (Hthrow & Hopen & Hopen' & Hfailed & Hcommit & q & Hsent & Hq).
  split; [ exact Hthrow | ].
  split; [ exact Hopen | split; [ exact Hopen' | split; [ exact Hfailed | ] ] ].
  split; [ exact Hcommit | ].
  exists q. split; [ exact Hq | split; [ exact Hsent | ] ].
  pose proof (finish_sent s) as Hfirst. rewrite Hopen, Hsent in Hfirst.
  apply app_inv_head in Hfirst. injection Hfirst as Hfirst.
  rewrite (finish_sent (snd (Db.finish s))).
  rewrite Hopen', Hfailed, Hcommit, <- Hfirst, Hsent, <- app_assoc. reflexivity.
Qed.

Lemma finish_throws_keeps_state_witness :
  let s := Script.session_on (Some Script.refusing) true 0 true in
  Db.in_transaction
    (Db.db (snd (@Db.finish Script.libpq Script.sysclock Script.headers s))) = true
  /\ Db.failed_count
       (Db.db (snd (@Db.finish Script.libpq Script.sysclock Script.headers s))) = 0.
Proof.
  intros s.
  pose proof (@finish_throws_keeps_state Script.libpq Script.sysclock Script.headers s
                ltac:(discriminate)) as (_ & _ & Hopen & Hfailed & _).
  split; [ exact Hopen | exact Hfailed ].
Defined.

(** ** Calls of [runChunk] that throw *)

Section RunChunkFailures.
Context {pq : Libpq} {sys : SysClock} {hdr : Headers}.
Local Open Scope string_scope.
Local Open Scope list_scope.
Import Db.

Lemma bind_throws {S A B : Type} (m : M S A) (k : A -> M S B) (s s' : S)
  (e : DbException) :
  m s = (Throws e, s') -> bind m k s = (Throws e, s').
Proof. unfold bind. intros ->. reflexivity. Qed.

Lemma now_failed (s : Session) (clk : Clock) (err : string) :
  gettimeofday (clock s) = (clk, inr err) ->
  now s = (Throws (mk_DbException err), mk_Session (db s) clk (log s) (submitted s)).
Proof. unfold now. intros ->. reflexivity. Qed.

Ltac at_state k :=
  match goal with
  | |- context [bind _ _ (?S, _)] => k S
  end.

Ltac project := cbn [db clock log submitted conn do_commit failed_count in_transaction add_log].

(** Without a usable connection [runChunk] throws at once. *)
Lemma runChunk_lost (s : Session) (chunk : Chunk) :
  conn_status (conn (db s)) <> CONNECTION_OK ->
  runChunk chunk s =
    (Throws (mk_DbException "lost db connection"), chunk,
     mk_Session (db s) (clock s) (log s ++ [(LogDebug, "no db connection")]) (submitted s)).
Proof.
  intros Hbad. unfold runChunk, runChunk_body.
  rewrite (bind_returns _ _ _ _ _ (in_session_run _ _ _ chunk _ (isConnected_run s))).
  destruct (ConnStatusType_eqb _ _) eqn:Hstatus.
  - apply ConnStatusType_eqb_OK in Hstatus. contradiction.
  - reflexivity.
Qed.

Lemma begin_refused (s : Session) (c c' : PGconn) (pgres : PGresult) :
  conn (db s) = Some c -> in_transaction (db s) = false ->
  PQexec c "begin;" = (c', Some pgres) -> is_error pgres = true ->
  exists l,
    begin s =
      (Throws (mk_DbException
                 ("could not execute query " ++ String CString.dquote "begin;"
                  ++ String CString.dquote ": "
                  ++ match PQresultErrorField pgres PG_DIAG_MESSAGE_PRIMARY with
                     | Some e => e
                     | None => EmptyString
                     end)),
       mk_Session (mk (Some c') (do_commit (db s)) (failed_count (db s)) false)
         (clock s) (log s ++ l) (submitted s ++ ["begin;"])).
Proof.
  intros Hc Hopen Hexec Herr. unfold begin, bind at 1, get. cbn beta iota.
  rewrite Hopen. cbn [negb].
  destruct (executeSql_refused "begin;" silent_default s c c' pgres Hc Hexec Herr) as [l H].
  exists l. rewrite (bind_throws _ _ _ _ _ H), Hopen. reflexivity.
Qed.

(** The server refuses the begin. *)
Lemma runChunk_begin_error (s : Session) (chunk : Chunk) (c c' : PGconn) (pgres : PGresult)
  (msg : string) :
  conn (db s) = Some c -> PQstatus c = CONNECTION_OK ->
  in_transaction (db s) = false ->
  PQexec c "begin;" = (c', Some pgres) -> is_error pgres = true ->
  PQresultErrorField pgres PG_DIAG_MESSAGE_PRIMARY = Some msg ->
  exists l,
    runChunk chunk s =
      (Throws (mk_DbException
                 ("could not execute query " ++ String CString.dquote "begin;"
                  ++ String CString.dquote ": " ++ msg)),
       chunk,
       mk_Session (mk (Some c') (do_commit (db s)) (failed_count (db s)) false)
         (clock s) (log s ++ l) (submitted s ++ ["begin;"])).
Proof.
  intros Hc Hok Hopen Hexec Herr Hmsg. unfold runChunk, runChunk_body.
  pose proof (isConnected_run s) as H1.
  rewrite Hc in H1. cbn [conn_status] in H1. rewrite Hok in H1.
  cbn [ConnStatusType_eqb] in H1.
  rewrite (bind_returns _ _ _ _ _ (in_session_run _ _ _ chunk _ H1)). cbn [negb].
  clear H1.
  at_state ltac:(fun S =>
    destruct (begin_refused S c c' pgres Hc Hopen Hexec Herr) as [l2 H2]).
  rewrite (bind_throws _ _ _ _ _ (in_session_run _ _ _ chunk _ H2)). clear H2.
  project. rewrite Hmsg, <- app_assoc. eexists. reflexivity.
Qed.

(** The engine up to the savepoint: what the three failures after it have
    in common. *)
Lemma runChunk_body_started (s : Session) (chunk : Chunk) (c c1 : PGconn) :
  conn (db s) = Some c -> PQstatus c = CONNECTION_OK ->
  (if in_transaction (db s) then c1 = c else accepted c "begin;" c1) ->
  exists l, forall k : Chunk -> timeval -> M RunState bool,
    bind (in_session isConnected)
      (fun connected =>
         if negb connected then throw (mk_DbException "lost db connection")
         else
           bind (in_session begin) (fun _ =>
           bind the_chunk (fun chunk0 =>
           bind (update_diagnostics (Diagnostics.set_status Diagnostics.Ok)) (fun _ =>
           bind (in_session now) (fun start_time => k chunk0 start_time)))))
      (s, chunk)
    = bind (in_session now) (k chunk)
        (mk_Session (mk (Some c1) (do_commit (db s)) (failed_count (db s)) true)
           (clock s) (log s ++ l)
           (submitted s ++ (if in_transaction (db s) then [] else ["begin;"])),
         set_diagnostics
           (Diagnostics.set_status Diagnostics.Ok (diagnostics chunk)) chunk).
Proof.
  intros Hc Hok Hbegin.
  pose proof (isConnected_run s) as H1.
  rewrite Hc in H1. cbn [conn_status] in H1. rewrite Hok in H1.
  cbn [ConnStatusType_eqb] in H1.
  destruct (begin_served (add_log (LogDebug, "got a working db connection") s) c c1 Hc Hbegin)
    as [l2 H2].
  exists ([(LogDebug, "got a working db connection")] ++ l2). intros k.
  rewrite (bind_returns _ _ _ _ _ (in_session_run _ _ _ chunk _ H1)). cbn [negb].
  rewrite (bind_returns _ _ _ _ _ (in_session_run _ _ _ chunk _ H2)).
  project.
  rewrite (bind_returns _ _ _ _ _ (the_chunk_run _ _)).
  rewrite (bind_returns _ _ _ _ _ (update_diagnostics_run _ _ _)).
  rewrite <- app_assoc. reflexivity.
Qed.

(** The clock cannot be read at the start. *)
Lemma runChunk_clock_start (s : Session) (chunk : Chunk) (c c1 : PGconn) (clk1 : Clock)
  (err : string) :
  conn (db s) = Some c -> PQstatus c = CONNECTION_OK ->
  (if in_transaction (db s) then c1 = c else accepted c "begin;" c1) ->
  gettimeofday (clock s) = (clk1, inr err) ->
  exists l,
    runChunk chunk s =
      (Throws (mk_DbException err),
       set_diagnostics (Diagnostics.set_status Diagnostics.Ok (diagnostics chunk)) chunk,
       mk_Session (mk (Some c1) (do_commit (db s)) (failed_count (db s)) true)
         clk1 (log s ++ l)
         (submitted s ++ (if in_transaction (db s) then [] else ["begin;"]))).
Proof.
  intros Hc Hok Hbegin Ht0. unfold runChunk, runChunk_body.
  destruct (runChunk_body_started s chunk c c1 Hc Hok Hbegin) as [l H].
  rewrite H. clear H.
  at_state ltac:(fun S =>
    rewrite (bind_throws _ _ _ _ _ (in_session_run _ _ _ _ _ (now_failed S clk1 err Ht0)))).
  project. exists l. reflexivity.
Qed.

(** [PQexec] gives no result for the SQL of the chunk. *)
Lemma runChunk_no_result (s : Session) (chunk : Chunk) (c c1 c2 c3 : PGconn) (clk1 : Clock)
  (t0 : timeval) :
  conn (db s) = Some c -> PQstatus c = CONNECTION_OK ->
  (if in_transaction (db s) then c1 = c else accepted c "begin;" c1) ->
  gettimeofday (clock s) = (clk1, inl t0) ->
  accepted c1 "savepoint chunk;" c2 ->
  PQexec c2 (getSql chunk) = (c3, None) ->
  exists l,
    runChunk chunk s =
      (Throws (mk_DbException "PQExec failed"),
       set_diagnostics (Diagnostics.set_status Diagnostics.Ok (diagnostics chunk)) chunk,
       mk_Session (mk (Some c3) (do_commit (db s)) (failed_count (db s)) true)
         clk1 (log s ++ l ++ [(LogError, "PQExec failed")])
         (submitted s ++ (if in_transaction (db s) then [] else ["begin;"])
          ++ ["savepoint chunk;"; getSql chunk])).
Proof.
  intros Hc Hok Hbegin Ht0 Hsp Hsql. unfold runChunk, runChunk_body.
  destruct (runChunk_body_started s chunk c c1 Hc Hok Hbegin) as [l H].
  rewrite H. clear H.
  at_state ltac:(fun S =>
    rewrite (bind_returns _ _ _ _ _ (in_session_run _ _ _ _ _ (now_run S clk1 t0 Ht0)))).
  project.
  at_state ltac:(fun S =>
    destruct (executeSql_accepted "savepoint chunk;" silent_default S c1 c2 eq_refl Hsp)
      as [l6 H6]).
  rewrite (bind_returns _ _ _ _ _ (in_session_run _ _ _ _ _ H6)). clear H6.
  project.
  at_state ltac:(fun S =>
    rewrite (bind_returns _ _ _ _ _
               (in_session_run _ _ _ _ _
                  (exec_run S (getSql chunk) c2 c3 None eq_refl Hsql)))).
  project.
  exists (l ++ l6). unfold bind, in_session, log_error, modify, throw, add_log. project.
  rewrite <- !app_assoc. reflexivity.
Qed.

(** The clock cannot be read at the end. *)
Lemma runChunk_clock_end (s : Session) (chunk : Chunk) (c c1 c2 c3 : PGconn)
  (clk1 clk2 : Clock) (t0 : timeval) (pgres : PGresult) (err : string) :
  conn (db s) = Some c -> PQstatus c = CONNECTION_OK ->
  (if in_transaction (db s) then c1 = c else accepted c "begin;" c1) ->
  gettimeofday (clock s) = (clk1, inl t0) ->
  accepted c1 "savepoint chunk;" c2 ->
  PQexec c2 (getSql chunk) = (c3, Some pgres) ->
  gettimeofday clk1 = (clk2, inr err) ->
  exists l,
    runChunk chunk s =
      (Throws (mk_DbException err),
       set_diagnostics (Diagnostics.set_status Diagnostics.Ok (diagnostics chunk)) chunk,
       mk_Session (mk (Some c3) (do_commit (db s)) (failed_count (db s)) true)
         clk2 (log s ++ l)
         (submitted s ++ (if in_transaction (db s) then [] else ["begin;"])
          ++ ["savepoint chunk;"; getSql chunk])).
Proof.
  intros Hc Hok Hbegin Ht0 Hsp Hsql Ht1. unfold runChunk, runChunk_body.
  destruct (runChunk_body_started s chunk c c1 Hc Hok Hbegin) as [l H].
  rewrite H. clear H.
  at_state ltac:(fun S =>
    rewrite (bind_returns _ _ _ _ _ (in_session_run _ _ _ _ _ (now_run S clk1 t0 Ht0)))).
  project.
  at_state ltac:(fun S =>
    destruct (executeSql_accepted "savepoint chunk;" silent_default S c1 c2 eq_refl Hsp)
      as [l6 H6]).
  rewrite (bind_returns _ _ _ _ _ (in_session_run _ _ _ _ _ H6)). clear H6.
  project.
  at_state ltac:(fun S =>
    rewrite (bind_returns _ _ _ _ _
               (in_session_run _ _ _ _ _
                  (exec_run S (getSql chunk) c2 c3 (Some pgres) eq_refl Hsql)))).
  project.
  at_state ltac:(fun S =>
    rewrite (bind_throws _ _ _ _ _ (in_session_run _ _ _ _ _ (now_failed S clk2 err Ht1)))).
  project.
  exists (l ++ l6). rewrite <- !app_assoc. reflexivity.
Qed.

End RunChunkFailures.

(** ** [runChunk] when the call is not served, and what every call keeps *)

(** X17.  Without a usable connection [Db::runChunk] throws the exception
    "lost db connection" at once: nothing is sent to the server, the clock
    is not read, the [Db] object is unchanged, and the chunk, its
    diagnostics included, is as it was. *)
Theorem runChunk_without_connection {pq : Libpq} {sys : SysClock} {hdr : Headers}
  (s : Db.Session) (chunk : Chunk) :
  Db.conn_status (Db.conn (Db.db s)) <> CONNECTION_OK ->
  exists s' : Db.Session,
    Db.runChunk chunk s = (Throws (mk_DbException "lost db connection"), chunk, s')
    /\ Db.db s' = Db.db s
    /\ Db.clock s' = Db.clock s
    /\ Db.submitted s' = Db.submitted s.
Proof.
  intros Hbad. rewrite (runChunk_lost s chunk Hbad).
  eexists. split; [ reflexivity | ]. repeat split.
Qed.

Lemma runChunk_without_connection_witness :
  exists s' : Db.Session,
    @Db.runChunk Script.libpq Script.sysclock Script.headers
      (Script.chunk_of 1 1 "select 1;"%string)
      (Script.session_on (Some Script.lost) true 0 false)
    = (Throws (mk_DbException "lost db connection"),
       Script.chunk_of 1 1 "select 1;"%string, s')
    /\ Db.db s' = Db.db (Script.session_on (Some Script.lost) true 0 false)
    /\ Db.clock s' = 5900000
    /\ Db.submitted s' = [].
Proof.
  apply (@runChunk_without_connection Script.libpq Script.sysclock Script.headers
           (Script.session_on (Some Script.lost) true 0 false)
           (Script.chunk_of 1 1 "select 1;"%string)).
  discriminate.
Defined.

(** X18.  When a call of [Db::runChunk] returns or throws, it has left the
    lines, the SQL and the description of the chunk and the commit flag as
    they were, has not cleared the transaction flag, has only added to the
    statements sent and to the log, and has changed the count of failed
    chunks in one case only: by one, when it returned false. *)
Theorem runChunk_defined_outcome {pq : Libpq} {sys : SysClock} {hdr : Headers}
  (s s' : Db.Session) (chunk chunk' : Chunk) (r : outcome bool) :
  Db.runChunk chunk s = (r, chunk', s') ->
  r <> Undefined ->
  start_line chunk' = start_line chunk
  /\ end_line chunk' = end_line chunk
  /\ sql chunk' = sql chunk
  /\ description chunk' = description chunk
  /\ Db.do_commit (Db.db s') = Db.do_commit (Db.db s)
  /\ (Db.in_transaction (Db.db s) = true -> Db.in_transaction (Db.db s') = true)
  /\ (exists sent, Db.submitted s' = Db.submitted s ++ sent)
  /\ (exists l, Db.log s' = Db.log s ++ l)
  /\ Db.failed_count (Db.db s') =
       match r with
       | Returns false => to_int (Db.failed_count (Db.db s) + 1)
       | _ => Db.failed_count (Db.db s)
       end.
Proof.
  unfold Db.runChunk.
  destruct (Db.runChunk_body (s, chunk)) as [r0 [s0 chunk0]] eqn:Hrun.
  intros [= <- <- <-] _.
  apply runChunk_body_counted in Hrun
    as ((Hcommit & Hopen & Hsent & Hlog) & (H1 & H2 & H3 & H4) & Hcount).
  cbn [fst snd] in *.
  repeat (split; [ assumption | ]). exact Hcount.
Qed.

Lemma runChunk_defined_outcome_witness :
  let s := Script.session_on (Some (Script.mute_on "select 1;"%string)) true 0 true in
  let R := @Db.runChunk Script.libpq Script.sysclock Script.headers
             (Script.chunk_of 1 1 "select 1;"%string) s in
  fst (fst R) = Throws (mk_DbException "PQExec failed")
  /\ sql (snd (fst R)) = "select 1;"%string
  /\ Db.in_transaction (Db.db (snd R)) = true
  /\ Db.failed_count (Db.db (snd R)) = 0.
Proof.
  intros s R.
  pose proof (@runChunk_defined_outcome Script.libpq Script.sysclock Script.headers
                s (snd R) (Script.chunk_of 1 1 "select 1;"%string) (snd (fst R))
                (Throws (mk_DbException "PQExec failed"))
                (triple_eta R (Throws (mk_DbException "PQExec failed")) eq_refl)
                ltac:(discriminate))
    as (_ & _ & Hsql & _ & _ & Hopen & _ & _ & Hcount).
  split; [ reflexivity | ].
  split; [ exact Hsql | split; [ exact (Hopen eq_refl) | exact Hcount ] ].
Defined.

(** X19.  When [Db::runChunk] returns, the connection of the object was
    usable, the server accepted the begin (if no transaction was open) and
    the savepoint, and gave a result for the SQL of the chunk; the value
    returned is true exactly when that result is no error.  The server then
    accepted the release of the savepoint (for true) or the rollback to it
    (for false).  The status of the chunk is [Ok] for true and [Fail] for
    false, the transaction flag is set, and the statements sent are the
    savepoint, the SQL and the release or the rollback, after a begin if no
    transaction was open. *)
Theorem runChunk_returned_trace {pq : Libpq} {sys : SysClock} {hdr : Headers}
  (s s' : Db.Session) (chunk chunk' : Chunk) (ok : bool) :
  Db.runChunk chunk s = (Returns ok, chunk', s') ->
  (exists (c c1 c2 c3 c4 : PGconn) (pgres : PGresult),
      Db.conn (Db.db s) = Some c
      /\ PQstatus c = CONNECTION_OK
      /\ (if Db.in_transaction (Db.db s) then c1 = c else Db.accepted c "begin;" c1)
      /\ Db.accepted c1 "savepoint chunk;" c2
      /\ PQexec c2 (getSql chunk) = (c3, Some pgres)
      /\ is_error pgres = negb ok
      /\ Db.accepted c3 (if ok then "release savepoint chunk;"%string
                         else "rollback to savepoint chunk;"%string) c4
      /\ Db.conn (Db.db s') = Some c4)
  /\ Diagnostics.status (diagnostics chunk')
     = (if ok then Diagnostics.Ok else Diagnostics.Fail)
  /\ Db.in_transaction (Db.db s') = true
  /\ Db.submitted s' =
       Db.submitted s
       ++ (if Db.in_transaction (Db.db s) then [] else ["begin;"%string])
       ++ ["savepoint chunk;"%string; getSql chunk;
           if ok then "release savepoint chunk;"%string
           else "rollback to savepoint chunk;"%string].
Proof.
  intros Hrun.
  apply runChunk_returned in Hrun
    as (clk1 & t0 & t1 & c3 & c4 & pgres & _ & _ & (Hanswered & Hclosing & Hc4) & Herr
        & _ & Hopen & _ & Hsent & _ & Hstatus & _).
  destruct Hanswered as (c & c1 & c2 & Hc & Hok & Hbegin & Hsave & Hexec).
  split.
  - exists c, c1, c2, c3, c4, pgres.
    split; [ exact Hc | split; [ exact Hok | split; [ exact Hbegin | ] ] ].
    split; [ exact Hsave | split; [ exact Hexec | split; [ exact Herr | ] ] ].
    split; [ exact Hclosing | exact Hc4 ].
  - split; [ exact Hstatus | split; [ exact Hopen | exact Hsent ] ].
Qed.

Lemma runChunk_returned_trace_witness :
  let s := Script.session_on (Some (Script.rejecting Script.two_statements (Some "11"%string)))
             true 0 false in
  let R := @Db.runChunk Script.libpq Script.sysclock Script.headers
             (Script.chunk_of 10 11 Script.two_statements) s in
  Diagnostics.status (diagnostics (snd (fst R))) = Diagnostics.Fail
  /\ Db.submitted (snd R) =
       ["begin;"%string; "savepoint chunk;"%string; Script.two_statements;
        "rollback to savepoint chunk;"%string].
Proof.
  intros s R.
  pose proof (@runChunk_returned_trace Script.libpq Script.sysclock Script.headers
                s (snd R) (Script.chunk_of 10 11 Script.two_statements) (snd (fst R)) false
                (triple_eta R (Returns false) eq_refl)) as (_ & Hstatus & _ & Hsent).
  split; [ exact Hstatus | exact Hsent ].
Defined.

(** X20.  [Db::runChunk] does not clear the diagnostics of an earlier run.
    When it returns true, the error line, the SQL state and the three
    messages of the chunk are those from before the call.  When it returns
    false, the SQL state and each message is the field of the error the
    server gave for the SQL of the chunk in this call, and the value from
    before the call for a field that error does not carry. *)
Theorem runChunk_message_fields {pq : Libpq} {sys : SysClock} {hdr : Headers}
  (s s' : Db.Session) (chunk chunk' : Chunk) (ok : bool) :
  Db.runChunk chunk s = (Returns ok, chunk', s') ->
  (ok = true ->
   Diagnostics.error_line (diagnostics chunk') = Diagnostics.error_line (diagnostics chunk)
   /\ Diagnostics.sqlstate (diagnostics chunk') = Diagnostics.sqlstate (diagnostics chunk)
   /\ Diagnostics.msg_primary (diagnostics chunk')
      = Diagnostics.msg_primary (diagnostics chunk)
   /\ Diagnostics.msg_detail (diagnostics chunk')
      = Diagnostics.msg_detail (diagnostics chunk)
   /\ Diagnostics.msg_hint (diagnostics chunk') = Diagnostics.msg_hint (diagnostics chunk))
  /\ (ok = false ->
      exists (c c1 c2 c3 : PGconn) (pgres : PGresult),
        Db.conn (Db.db s) = Some c
        /\ (if Db.in_transaction (Db.db s) then c1 = c else Db.accepted c "begin;" c1)
        /\ Db.accepted c1 "savepoint chunk;" c2
        /\ PQexec c2 (getSql chunk) = (c3, Some pgres)
        /\ is_error pgres = true
        /\ Diagnostics.sqlstate (diagnostics chunk')
           = match PQresultErrorField pgres PG_DIAG_SQLSTATE with
             | Some v => v
             | None => Diagnostics.sqlstate (diagnostics chunk)
             end
        /\ Diagnostics.msg_primary (diagnostics chunk')
           = match PQresultErrorField pgres PG_DIAG_MESSAGE_PRIMARY with
             | Some v => v
             | None => Diagnostics.msg_primary (diagnostics chunk)
             end
        /\ Diagnostics.msg_detail (diagnostics chunk')
           = match PQresultErrorField pgres PG_DIAG_MESSAGE_DETAIL with
             | Some v => v
             | None => Diagnostics.msg_detail (diagnostics chunk)
             end
        /\ Diagnostics.msg_hint (diagnostics chunk')
           = match PQresultErrorField pgres PG_DIAG_MESSAGE_HINT with
             | Some v => v
             | None => Diagnostics.msg_hint (diagnostics chunk)
             end).
Proof.
  intros Hrun.
  apply runChunk_returned in Hrun
    as (clk1 & t0 & t1 & c3 & c4 & pgres & _ & _ & (Hanswered & _) & Herr & _ & _ & _ & _
        & _ & _ & _ & Hstate & Hprimary & Hdetail & Hhint & Hline).
  split.
  - intros ->. split; [ exact (Hline eq_refl) | ]. repeat split; assumption.
  - intros ->. destruct Hanswered as (c & c1 & c2 & Hc & _ & Hbegin & Hsave & Hexec).
    exists c, c1, c2, c3, pgres. unfold Db.field_or in *.
    split; [ exact Hc | split; [ exact Hbegin | split; [ exact Hsave | ] ] ].
    split; [ exact Hexec | split; [ exact Herr | ] ]. repeat split; assumption.
Qed.

Lemma runChunk_message_fields_witness :
  let s := Script.session_on (Some (Script.rejecting Script.two_statements (Some "11"%string)))
             true 0 false in
  let R := @Db.runChunk Script.libpq Script.sysclock Script.headers
             (Script.chunk_of 10 11 Script.two_statements) s in
  exists pgres : PGresult,
    @PQexec Script.libpq (Script.rejecting Script.two_statements (Some "11"%string))
      Script.two_statements
    = (Script.rejecting Script.two_statements (Some "11"%string), Some pgres)
    /\ Diagnostics.sqlstate (diagnostics (snd (fst R)))
       = match PQresultErrorField pgres PG_DIAG_SQLSTATE with
         | Some v => v
         | None => EmptyString
         end
    /\ Diagnostics.msg_detail (diagnostics (snd (fst R)))
       = match PQresultErrorField pgres PG_DIAG_MESSAGE_DETAIL with
         | Some v => v
         | None => EmptyString
         end.
Proof.
  intros s R.
  destruct (proj2 (@runChunk_message_fields Script.libpq Script.sysclock Script.headers
                     s (snd R) (Script.chunk_of 10 11 Script.two_statements) (snd (fst R))
                     false (triple_eta R (Returns false) eq_refl)) eq_refl)
    as (c & c1 & c2 & c3 & pgres & Hc & Hbegin & Hsave & Hexec & _ & Hstate & _ & Hdetail & _).
  exists pgres.
  injection Hc as <-.
  destruct Hbegin as (p1 & Hb & _). injection Hb as <- _.
  destruct Hsave as (p2 & Hs & _). injection Hs as <- _.
  split; [ | split; [ exact Hstate | exact Hdetail ] ].
  injection Hexec as <- <-. reflexivity.
Defined.

(** X21.  When [Db::runChunk] returns, it has read the clock exactly twice,
    and the runtime of the chunk is what [timeval_subtract] gives for the
    second reading and the first; for two readings that are timestamps the
    runtime is their exact difference, with a microsecond part between 0 and
    999999. *)
Theorem runChunk_runtime {pq : Libpq} {sys : SysClock} {hdr : Headers}
  (s s' : Db.Session) (chunk chunk' : Chunk) (ok : bool) :
  Db.runChunk chunk s = (Returns ok, chunk', s') ->
  exists (clk1 : Clock) (t0 t1 : timeval),
    gettimeofday (Db.clock s) = (clk1, inl t0)
    /\ gettimeofday clk1 = (Db.clock s', inl t1)
    /\ Diagnostics.runtime (diagnostics chunk') = fst (fst (timeval_subtract t1 t0))
    /\ (timestamp t0 -> timestamp t1 ->
        micros (Diagnostics.runtime (diagnostics chunk')) = micros t1 - micros t0
        /\ 0 <= tv_usec (Diagnostics.runtime (diagnostics chunk')) < 1000000).
Proof.
  intros Hrun.
  apply runChunk_returned in Hrun
    as (clk1 & t0 & t1 & c & c' & pgres & Ht0 & Ht1 & _ & _ & _ & _ & _ & _
        & _ & _ & Hruntime & _).
  exists clk1, t0, t1.
  split; [ exact Ht0 | split; [ exact Ht1 | split; [ exact Hruntime | ] ] ].
  intros Hstart Hend. rewrite Hruntime.
  destruct (timeval_subtract_timestamps t1 t0 Hend Hstart) as (Hdiff & Husec & _).
  split; assumption.
Qed.

Lemma runChunk_runtime_witness :
  let s := Script.session_on (Some (Script.rejecting Script.two_statements (Some "11"%string)))
             true 0 false in
  let R := @Db.runChunk Script.libpq Script.sysclock Script.headers
             (Script.chunk_of 1 1 "select 1;"%string) s in
  exists (clk1 : Z) (t0 t1 : timeval),
    @gettimeofday Script.sysclock 5900000 = (clk1, inl t0)
    /\ @gettimeofday Script.sysclock clk1 = (Db.clock (snd R), inl t1)
    /\ Diagnostics.runtime (diagnostics (snd (fst R))) = fst (fst (timeval_subtract t1 t0))
    /\ (timestamp t0 -> timestamp t1 ->
        micros (Diagnostics.runtime (diagnostics (snd (fst R)))) = micros t1 - micros t0
        /\ 0 <= tv_usec (Diagnostics.runtime (diagnostics (snd (fst R)))) < 1000000).
Proof.
  intros s R.
  exact (@runChunk_runtime Script.libpq Script.sysclock Script.headers
           s (snd R) (Script.chunk_of 1 1 "select 1;"%string) (snd (fst R)) true
           (triple_eta R (Returns true) eq_refl)).
Defined.

(** X22.  When [PQexec] gives no result for the SQL of the chunk,
    [Db::runChunk] throws the exception "PQExec failed" and logs an error.
    The status of the chunk is [Ok] all the same, the failure is not
    counted, and the savepoint is neither released nor rolled back to: the
    last statements sent are the savepoint and the SQL. *)
Theorem runChunk_null_result {pq : Libpq} {sys : SysClock} {hdr : Headers}
  (s : Db.Session) (chunk : Chunk) (c c1 c2 c3 : PGconn) (clk1 : Clock) (t0 : timeval) :
  Db.conn (Db.db s) = Some c ->
  PQstatus c = CONNECTION_OK ->
  (if Db.in_transaction (Db.db s) then c1 = c else Db.accepted c "begin;" c1) ->
  gettimeofday (Db.clock s) = (clk1, inl t0) ->
  Db.accepted c1 "savepoint chunk;" c2 ->
  PQexec c2 (getSql chunk) = (c3, None) ->
  exists (chunk' : Chunk) (s' : Db.Session),
    Db.runChunk chunk s = (Throws (mk_DbException "PQExec failed"), chunk', s')
    /\ Diagnostics.status (diagnostics chunk') = Diagnostics.Ok
    /\ Db.failed_count (Db.db s') = Db.failed_count (Db.db s)
    /\ Db.in_transaction (Db.db s') = true
    /\ Db.submitted s' =
         Db.submitted s
         ++ (if Db.in_transaction (Db.db s) then [] else ["begin;"%string])
         ++ ["savepoint chunk;"%string; getSql chunk]
    /\ In (LogError, "PQExec failed"%string) (Db.log s').
Proof.
  intros Hc Hok Hbegin Ht0 Hsp Hsql.
  destruct (runChunk_no_result s chunk c c1 c2 c3 clk1 t0 Hc Hok Hbegin Ht0 Hsp Hsql)
    as [l ->].
  eexists. eexists. split; [ reflexivity | ]. cbn.
  repeat split. rewrite !in_app_iff. right. right. left. reflexivity.
Qed.

Lemma runChunk_null_result_witness :
  exists (chunk' : Chunk) (s' : Db.Session),
    @Db.runChunk Script.libpq Script.sysclock Script.headers
      (Script.chunk_of 1 1 "select 1;"%string)
      (Script.session_on (Some (Script.mute_on "select 1;"%string)) true 0 false)
    = (Throws (mk_DbException "PQExec failed"), chunk', s')
    /\ Diagnostics.status (diagnostics chunk') = Diagnostics.Ok
    /\ Db.failed_count (Db.db s') = 0
    /\ Db.in_transaction (Db.db s') = true
    /\ Db.submitted s' = ["begin;"%string; "savepoint chunk;"%string; "select 1;"%string]
    /\ In (LogError, "PQExec failed"%string) (Db.log s').
Proof.
  apply (@runChunk_null_result Script.libpq Script.sysclock Script.headers
           (Script.session_on (Some (Script.mute_on "select 1;"%string)) true 0 false)
           (Script.chunk_of 1 1 "select 1;"%string)
           (Script.mute_on "select 1;"%string) (Script.mute_on "select 1;"%string)
           (Script.mute_on "select 1;"%string) (Script.mute_on "select 1;"%string)
           6100000 (mk_timeval 5 900000)).
  - reflexivity.
  - reflexivity.
  - exists Script.command_ok. split; reflexivity.
  - reflexivity.
  - exists Script.command_ok. split; reflexivity.
  - reflexivity.
Defined.

(** X23.  When no transaction is open and the server answers the begin with
    an error, [Db::runChunk] throws an exception that quotes the statement
    and the primary message of the error.  Only the begin has been sent,
    the transaction flag is still unset, the count of failed chunks is
    unchanged and the chunk, its status included, is as it was. *)
Theorem runChunk_begin_refused {pq : Libpq} {sys : SysClock} {hdr : Headers}
  (s : Db.Session) (chunk : Chunk) (c c' : PGconn) (pgres : PGresult) (msg : string) :
  Db.conn (Db.db s) = Some c ->
  PQstatus c = CONNECTION_OK ->
  Db.in_transaction (Db.db s) = false ->
  PQexec c "begin;" = (c', Some pgres) ->
  is_error pgres = true ->
  PQresultErrorField pgres PG_DIAG_MESSAGE_PRIMARY = Some msg ->
  exists s' : Db.Session,
    Db.runChunk chunk s
    = (Throws (mk_DbException
                 ("could not execute query " ++ String CString.dquote "begin;"
                  ++ String CString.dquote ": " ++ msg)%string),
       chunk, s')
    /\ Db.submitted s' = Db.submitted s ++ ["begin;"%string]
    /\ Db.in_transaction (Db.db s') = false
    /\ Db.failed_count (Db.db s') = Db.failed_count (Db.db s).
Proof.
  intros Hc Hok Hopen Hexec Herr Hmsg.
  destruct (runChunk_begin_error s chunk c c' pgres msg Hc Hok Hopen Hexec Herr Hmsg)
    as [l ->].
  eexists. split; [ reflexivity | ]. repeat split.
Qed.

Lemma runChunk_begin_refused_witness :
  exists s' : Db.Session,
    @Db.runChunk Script.libpq Script.sysclock Script.headers
      (Script.chunk_of 1 1 "select 1;"%string)
      (Script.session_on (Some (Script.rejecting "begin;"%string None)) true 0 false)
    = (Throws (mk_DbException
                 ("could not execute query " ++ String CString.dquote "begin;"
                  ++ String CString.dquote ": " ++ "syntax error at or near selct")%string),
       Script.chunk_of 1 1 "select 1;"%string, s')
    /\ Db.submitted s' = ["begin;"%string]
    /\ Db.in_transaction (Db.db s') = false
    /\ Db.failed_count (Db.db s') = 0.
Proof.
  apply (@runChunk_begin_refused Script.libpq Script.sysclock Script.headers
           (Script.session_on (Some (Script.rejecting "begin;"%string None)) true 0 false)
           (Script.chunk_of 1 1 "select 1;"%string)
           (Script.rejecting "begin;"%string None) (Script.rejecting "begin;"%string None)
           (Script.syntax_error None) "syntax error at or near selct"%string).
  - reflexivity.
  - reflexivity.
  - reflexivity.
  - reflexivity.
  - reflexivity.
  - reflexivity.
Defined.

(** X24.  When the clock cannot be read, [Db::runChunk] throws an exception
    with the text of the system error.  At the first reading nothing but the
    begin has been sent.  At the second reading the SQL of the chunk has
    been sent and answered: whatever the answer was, the status of the chunk
    is [Ok], the count of failed chunks is unchanged and the savepoint is
    neither released nor rolled back to. *)
Theorem runChunk_clock_failure {pq : Libpq} {sys : SysClock} {hdr : Headers}
  (s : Db.Session) (chunk : Chunk) (c c1 : PGconn) :
  Db.conn (Db.db s) = Some c ->
  PQstatus c = CONNECTION_OK ->
  (if Db.in_transaction (Db.db s) then c1 = c else Db.accepted c "begin;" c1) ->
  (forall (clk1 : Clock) (err : string),
      gettimeofday (Db.clock s) = (clk1, inr err) ->
      exists (chunk' : Chunk) (s' : Db.Session),
        Db.runChunk chunk s = (Throws (mk_DbException err), chunk', s')
        /\ Db.submitted s' =
             Db.submitted s
             ++ (if Db.in_transaction (Db.db s) then [] else ["begin;"%string]))
  /\ (forall (clk1 clk2 : Clock) (t0 : timeval) (c2 c3 : PGconn) (pgres : PGresult)
             (err : string),
         gettimeofday (Db.clock s) = (clk1, inl t0) ->
         Db.accepted c1 "savepoint chunk;" c2 ->
         PQexec c2 (getSql chunk) = (c3, Some pgres) ->
         gettimeofday clk1 = (clk2, inr err) ->
         exists (chunk' : Chunk) (s' : Db.Session),
           Db.runChunk chunk s = (Throws (mk_DbException err), chunk', s')
           /\ Diagnostics.status (diagnostics chunk') = Diagnostics.Ok
           /\ Db.failed_count (Db.db s') = Db.failed_count (Db.db s)
           /\ Db.submitted s' =
                Db.submitted s
                ++ (if Db.in_transaction (Db.db s) then [] else ["begin;"%string])
                ++ ["savepoint chunk;"%string; getSql chunk]).
Proof.
  intros Hc Hok Hbegin. split.
  - intros clk1 err Ht0.
    destruct (runChunk_clock_start s chunk c c1 clk1 err Hc Hok Hbegin Ht0) as [l ->].
    eexists. eexists. split; reflexivity.
  - intros clk1 clk2 t0 c2 c3 pgres err Ht0 Hsp Hsql Ht1.
    destruct (runChunk_clock_end s chunk c c1 c2 c3 clk1 clk2 t0 pgres err
                Hc Hok Hbegin Ht0 Hsp Hsql Ht1) as [l ->].
    eexists. eexists. split; [ reflexivity | ]. repeat split.
Qed.

Lemma runChunk_clock_failure_witness :
  (exists (chunk' : Chunk) (s' : Db.Session),
      @Db.runChunk Script.libpq Script.running_down Script.headers
        (Script.chunk_of 10 11 Script.two_statements)
        (Script.session_until 0
           (Script.rejecting Script.two_statements (Some "11"%string)) false)
      = (Throws (mk_DbException "Invalid argument"), chunk', s')
      /\ Db.submitted s' = ["begin;"%string])
  /\ (exists (chunk' : Chunk) (s' : Db.Session),
         @Db.runChunk Script.libpq Script.running_down Script.headers
           (Script.chunk_of 10 11 Script.two_statements)
           (Script.session_until 1
              (Script.rejecting Script.two_statements (Some "11"%string)) false)
         = (Throws (mk_DbException "Invalid argument"), chunk', s')
         /\ Diagnostics.status (diagnostics chunk') = Diagnostics.Ok
         /\ Db.failed_count (Db.db s') = 0
         /\ Db.submitted s' =
              ["begin;"%string; "savepoint chunk;"%string; Script.two_statements]).
Proof.
  set (server := Script.rejecting Script.two_statements (Some "11"%string)).
  split.
  - apply (proj1 (@runChunk_clock_failure Script.libpq Script.running_down Script.headers
                    (Script.session_until 0 server false)
                    (Script.chunk_of 10 11 Script.two_statements) server server
                    eq_refl eq_refl
                    (ex_intro _ Script.command_ok (conj eq_refl eq_refl)))
             O "Invalid argument"%string eq_refl).
  - apply (proj2 (@runChunk_clock_failure Script.libpq Script.running_down Script.headers
                    (Script.session_until 1 server false)
                    (Script.chunk_of 10 11 Script.two_statements) server server
                    eq_refl eq_refl
                    (ex_intro _ Script.command_ok (conj eq_refl eq_refl)))
             O O (mk_timeval 5 900000) server server
             (Script.syntax_error (Some "11"%string)) "Invalid argument"%string
             eq_refl (ex_intro _ Script.command_ok (conj eq_refl eq_refl)) eq_refl eq_refl).
Defined.

(** ** Runs, the encoding and the end of the connection *)

Lemma failures_bound (results : list bool) :
  0 <= Db.failures results <= Z.of_nat (List.length results).
Proof.
  induction results as [ | ok results IH ]; [ cbn; lia | ].
  cbn [Db.failures List.length]. destruct ok; lia.
Qed.

Lemma failures_none (results : list bool) :
  Db.failures results = 0 <-> forallb (fun ok => ok) results = true.
Proof.
  induction results as [ | ok results IH ]; [ cbn; tauto | ].
  cbn [Db.failures forallb]. pose proof (failures_bound results) as Hbound.
  destruct ok; cbn [andb].
  - rewrite <- IH. split; lia.
  - split; [ lia | discriminate ].
Qed.

Section ProcessProperties.
Context {pq : Libpq} {sys : SysClock} {hdr : Headers}.
Local Open Scope string_scope.
Local Open Scope list_scope.
Import Db.

Lemma disconnect_live (p : Process) :
  dangling p = false ->
  disconnect p =
    match finish (session p) with
    | (Returns _, s') =>
        (Returns tt,
         mk_Process s' (released p ++ [conn (db s')])
           (match conn (db s') with Some _ => true | None => false end))
    | (Throws e, s') => (Throws e, mk_Process s' (released p) false)
    | (Undefined, s') => (Undefined, mk_Process s' (released p) false)
    end.
Proof.
  intros Hlive.
  unfold disconnect, bind, finish_in_process, finish_connection, holds_released.
  rewrite Hlive. cbn [andb].
  destruct (finish (session p)) as [[ [] | e | ] s']; [ | reflexivity | reflexivity ].
  cbn [session released dangling]. destruct (conn (db s')); reflexivity.
Qed.

(** [disconnect] on an object that holds a released connection and has no
    open transaction: [finish] has nothing to send, and the connection is
    handed to [PQfinish] again. *)
Lemma disconnect_released (p : Process) (c : PGconn) :
  dangling p = true -> conn (db (session p)) = Some c ->
  in_transaction (db (session p)) = false -> failed_count (db (session p)) = 0 ->
  fst (disconnect p) = Undefined.
Proof.
  intros Hgone Hc Hopen Hfailed.
  unfold disconnect, bind, finish_in_process, finish_connection, holds_released.
  rewrite Hgone, Hc, Hopen. cbn [andb].
  rewrite (finish_idle _ Hopen Hfailed). cbn [session dangling]. rewrite Hc.
  reflexivity.
Qed.

End ProcessProperties.

(** X25.  In a run of calls of [Db::runChunk] that all return, one value is
    returned for each chunk, and, as long as the count stays within an
    [int], the count of failed chunks grows by the number of calls that
    returned false; the commit flag is as before the run. *)
Theorem run_counts_failures {pq : Libpq} {sys : SysClock} {hdr : Headers}
  (s s' : Db.Session) (chunks : list Chunk) (results : list bool) :
  Db.run s chunks results s' ->
  0 <= Db.failed_count (Db.db s) ->
  Db.failed_count (Db.db s) + Z.of_nat (List.length chunks) <= INT_MAX ->
  List.length results = List.length chunks
  /\ Db.failed_count (Db.db s') = Db.failed_count (Db.db s) + Db.failures results
  /\ Db.failures results = Z.of_nat (List.length (filter negb results))
  /\ Db.do_commit (Db.db s') = Db.do_commit (Db.db s).
Proof.
  intros Hrun Hlow Hhigh.
  assert (Hlen : List.length results = List.length chunks).
  { clear Hlow Hhigh. induction Hrun; cbn [List.length]; congruence. }
  pose proof (failures_bound results) as Hbound. rewrite Hlen in Hbound.
  pose proof INT_MIN_value as Hmin.
  destruct (run_counted s s' chunks results Hrun ltac:(lia) ltac:(lia))
    as (Hcount & Hcommit & _).
  split; [ exact Hlen | split; [ exact Hcount | split; [ | exact Hcommit ] ] ].
  clear. induction results as [ | ok results IH ]; [ reflexivity | ].
  cbn [Db.failures filter negb]. destruct ok; cbn [negb List.length]; lia.
Qed.

Lemma run_counts_failures_witness :
  let s := Script.session_on (Some (Script.rejecting Script.two_statements (Some "11"%string)))
             true 0 false in
  let R1 := @Db.runChunk Script.libpq Script.sysclock Script.headers
              (Script.chunk_of 1 1 "select 1;"%string) s in
  let R2 := @Db.runChunk Script.libpq Script.sysclock Script.headers
              (Script.chunk_of 10 11 Script.two_statements) (snd R1) in
  Db.failed_count (Db.db (snd R2)) = 0 + Db.failures [true; false].
Proof.
  intros s R1 R2.
  refine (proj1 (proj2
            (@run_counts_failures Script.libpq Script.sysclock Script.headers s (snd R2)
               [Script.chunk_of 1 1 "select 1;"%string;
                Script.chunk_of 10 11 Script.two_statements]
               [true; false] _ _ _))).
  - apply (@Db.run_cons Script.libpq Script.sysclock Script.headers
             s (Script.chunk_of 1 1 "select 1;"%string) true (snd (fst R1)) (snd R1)).
    + exact (triple_eta R1 (Returns true) eq_refl).
    + apply (@Db.run_cons Script.libpq Script.sysclock Script.headers
               (snd R1) (Script.chunk_of 10 11 Script.two_statements) false
               (snd (fst R2)) (snd R2)).
      * exact (triple_eta R2 (Returns false) eq_refl).
      * apply Db.run_nil.
  - cbn. lia.
  - vm_compute. discriminate.
Defined.

(** X26.  A whole session: after a run of at least one chunk on an object
    without failed chunks and without open transaction, [Db::finish] sends
    commit when the commit flag is set and every call of the run returned
    true, and rollback otherwise.  The statements of the session are then
    one begin, for each chunk the savepoint, its SQL and the release of the
    savepoint or the rollback to it, and that closing statement. *)
Theorem run_then_finish {pq : Libpq} {sys : SysClock} {hdr : Headers}
  (s s' : Db.Session) (chunks : list Chunk) (results : list bool) :
  Db.run s chunks results s' ->
  Db.failed_count (Db.db s) = 0 ->
  Db.in_transaction (Db.db s) = false ->
  chunks <> [] ->
  Z.of_nat (List.length chunks) <= INT_MAX ->
  Db.submitted (snd (Db.finish s')) =
    Db.submitted s ++ ["begin;"%string] ++ Db.brackets chunks results
    ++ [if Db.do_commit (Db.db s) && forallb (fun ok => ok) results
        then "commit;"%string else "rollback;"%string].
Proof.
  intros Hrun Hfailed Hopen Hsome Hlen.
  assert (Hsame : List.length results = List.length chunks).
  { clear - Hrun. induction Hrun; cbn [List.length]; congruence. }
  pose proof (failures_bound results) as Hbound. rewrite Hsame in Hbound.
  pose proof INT_MIN_value as Hmin.
  destruct (run_counted s s' chunks results Hrun ltac:(lia) ltac:(lia))
    as (Hcount & Hcommit & Hopen' & Hsent & _).
  rewrite finish_sent, Hsent, Hcount, Hcommit, Hopen', Hopen, Hfailed.
  destruct chunks as [ | chunk chunks ]; [ contradiction | ].
  rewrite <- !app_assoc. do 3 f_equal.
  rewrite Z.add_0_l.
  destruct (Z.gtb_spec (Db.failures results) 0) as [Hpos | Hzero].
  - destruct (forallb (fun ok => ok) results) eqn:Hall.
    + apply failures_none in Hall. lia.
    + rewrite andb_false_r. reflexivity.
  - assert (Hall : forallb (fun ok => ok) results = true) by (apply failures_none; lia).
    rewrite Hall, andb_true_r. reflexivity.
Qed.

Lemma run_then_finish_witness :
  let s := Script.session_on (Some (Script.rejecting Script.two_statements (Some "11"%string)))
             true 0 false in
  let R1 := @Db.runChunk Script.libpq Script.sysclock Script.headers
              (Script.chunk_of 1 1 "select 1;"%string) s in
  let R2 := @Db.runChunk Script.libpq Script.sysclock Script.headers
              (Script.chunk_of 10 11 Script.two_statements) (snd R1) in
  Db.submitted (snd (@Db.finish Script.libpq Script.sysclock Script.headers (snd R2)))
  = ["begin;"%string;
     "savepoint chunk;"%string; "select 1;"%string; "release savepoint chunk;"%string;
     "savepoint chunk;"%string; Script.two_statements;
     "rollback to savepoint chunk;"%string;
     "rollback;"%string].
Proof.
  intros s R1 R2.
  refine (@run_then_finish Script.libpq Script.sysclock Script.headers s (snd R2)
            [Script.chunk_of 1 1 "select 1;"%string;
             Script.chunk_of 10 11 Script.two_statements]
            [true; false] _ eq_refl eq_refl _ _).
  - apply (@Db.run_cons Script.libpq Script.sysclock Script.headers
             s (Script.chunk_of 1 1 "select 1;"%string) true (snd (fst R1)) (snd R1)).
    + exact (triple_eta R1 (Returns true) eq_refl).
    + apply (@Db.run_cons Script.libpq Script.sysclock Script.headers
               (snd R1) (Script.chunk_of 10 11 Script.two_statements) false
               (snd (fst R2)) (snd R2)).
      * exact (triple_eta R2 (Returns false) eq_refl).
      * apply Db.run_nil.
  - discriminate.
  - vm_compute. discriminate.
Defined.

(** X27.  [Db::setEncoding] never throws and writes nothing to the log.  It
    returns false for a [NULL] name, leaving the session untouched, and
    otherwise returns true exactly when [PQsetClientEncoding] answers 0; it
    does not ask whether the connection is usable and keeps the commit flag,
    the count of failed chunks and the transaction flag. *)
Theorem setEncoding_outcome {pq : Libpq} {sys : SysClock} {pqc : LibpqClient}
  (enc_name : option string) (s : Db.Session) :
  exists (ok : bool) (s' : Db.Session),
    Db.setEncoding enc_name s = (Returns ok, s')
    /\ Db.do_commit (Db.db s') = Db.do_commit (Db.db s)
    /\ Db.failed_count (Db.db s') = Db.failed_count (Db.db s)
    /\ Db.in_transaction (Db.db s') = Db.in_transaction (Db.db s)
    /\ Db.log s' = Db.log s
    /\ (enc_name = None -> ok = false /\ s' = s)
    /\ (forall (name : string) (c c' : PGconn) (rc : Z),
           enc_name = Some name -> Db.conn (Db.db s) = Some c ->
           PQsetClientEncoding c name = (c', rc) ->
           ok = (rc =? 0) /\ Db.conn (Db.db s') = Some c').
Proof.
  destruct enc_name as [ name | ].
  - unfold Db.setEncoding, Db.set_client_encoding, bind.
    destruct (Db.conn (Db.db s)) as [ c | ] eqn:Hc.
    + destruct (PQsetClientEncoding c name) as [c' rc] eqn:Hset.
      exists (rc =? 0), (Db.set_conn (Some c') s).
      split; [ destruct (rc =? 0); reflexivity | ].
      do 4 (split; [ reflexivity | ]).
      split; [ discriminate | ].
      intros name0 c0 c0' rc0 [= <-] [= <-]. rewrite Hset. intros [= <- <-].
      split; reflexivity.
    + exists false, s. split; [ reflexivity | ].
      do 4 (split; [ reflexivity | ]).
      split; [ discriminate | discriminate ].
  - exists false, s. split; [ reflexivity | ].
    do 4 (split; [ reflexivity | ]).
    split; [ intros _; split; reflexivity | discriminate ].
Qed.

Lemma setEncoding_outcome_witness :
  exists (ok : bool) (s' : Db.Session),
    @Db.setEncoding Script.libpq Script.sysclock Script.client (Some "LATIN1"%string)
      (Script.session_on (Some Script.obliging) true 0 true)
    = (Returns ok, s')
    /\ ok = false
    /\ Db.log s' = [].
Proof.
  destruct (@setEncoding_outcome Script.libpq Script.sysclock Script.client
              (Some "LATIN1"%string) (Script.session_on (Some Script.obliging) true 0 true))
    as (ok & s' & Hrun & _ & _ & _ & Hlog & _ & Hcode).
  exists ok, s'. split; [ exact Hrun | ].
  split; [ | exact Hlog ].
  exact (proj1 (Hcode "LATIN1"%string Script.obliging Script.obliging (-1)
                  eq_refl eq_refl eq_refl)).
Defined.

(** X28.  [Db::disconnect], on an object whose connection has not been
    released before, releases the connection only when [Db::finish]
    returns: the connection is then handed to [PQfinish], and the object
    goes on holding it.  When [finish] does not return, [disconnect] throws
    the exception of [finish] and the connection is not released. *)
Theorem disconnect_outcome {pq : Libpq} {sys : SysClock} {hdr : Headers}
  (p : Db.Process) :
  Db.dangling p = false ->
  (fst (Db.finish (Db.session p)) = Returns tt ->
   exists p' : Db.Process,
     Db.disconnect p = (Returns tt, p')
     /\ Db.session p' = snd (Db.finish (Db.session p))
     /\ Db.released p' = Db.released p ++ [Db.conn (Db.db (Db.session p'))])
  /\ (fst (Db.finish (Db.session p)) <> Returns tt ->
      exists (e : DbException) (p' : Db.Process),
        Db.disconnect p = (Throws e, p')
        /\ fst (Db.finish (Db.session p)) = Throws e
        /\ Db.session p' = snd (Db.finish (Db.session p))
        /\ Db.released p' = Db.released p).
Proof.
  intros Hlive. rewrite (disconnect_live p Hlive). split.
  - intros Hret. destruct (Db.finish (Db.session p)) as [r s']. cbn [fst snd] in *.
    subst r. eexists. split; [ reflexivity | ]. split; reflexivity.
  - intros Hne. destruct (finish_not_returned (Db.session p) Hne) as ((e & He) & _).
    destruct (Db.finish (Db.session p)) as [r s']. cbn [fst snd] in *. subst r.
    exists e. eexists. split; [ reflexivity | ]. repeat split.
Qed.

Lemma disconnect_outcome_witness :
  let p := @Db.mk_Process Script.libpq Script.sysclock
             (Script.session_on (Some Script.refusing) true 0 true) [] false in
  exists (e : DbException) (p' : Db.Process),
    @Db.disconnect Script.libpq Script.sysclock Script.headers p = (Throws e, p')
    /\ fst (@Db.finish Script.libpq Script.sysclock Script.headers (Db.session p)) = Throws e
    /\ Db.session p'
       = snd (@Db.finish Script.libpq Script.sysclock Script.headers (Db.session p))
    /\ Db.released p' = [].
Proof.
  intros p.
  apply (proj2 (@disconnect_outcome Script.libpq Script.sysclock Script.headers p eq_refl)).
  discriminate.
Defined.

(** X29.  [Db::disconnect] does not forget the connection it released.  After
    a call that returned on an object which holds a connection, that
    connection has been handed to [PQfinish] and a second call (the
    destructor, say) hands it to [PQfinish] again: the second call has no
    defined behaviour.  On an object without connection the second call
    returns. *)
Theorem disconnect_twice {pq : Libpq} {sys : SysClock} {hdr : Headers}
  (p p' : Db.Process) :
  Db.dangling p = false ->
  Db.disconnect p = (Returns tt, p') ->
  (forall c : PGconn,
      Db.conn (Db.db (Db.session p')) = Some c ->
      In (Some c) (Db.released p') /\ fst (Db.disconnect p') = Undefined)
  /\ (Db.conn (Db.db (Db.session p')) = None -> fst (Db.disconnect p') = Returns tt).
Proof.
  intros Hlive. rewrite (disconnect_live p Hlive).
  destruct (Db.finish (Db.session p)) as [r s1] eqn:Hfirst.
  destruct r as [ [] | e | ]; [ | discriminate | discriminate ].
  intros [= <-]. cbn [Db.session Db.released].
  assert (Hret : fst (Db.finish (Db.session p)) = Returns tt) by (rewrite Hfirst; reflexivity).
  destruct (finish_returned _ Hret) as (Hfailed & Hopen & _).
  rewrite Hfirst in Hfailed, Hopen. cbn [snd] in Hfailed, Hopen.
  split.
  - intros c Hc. split.
    + rewrite Hc, in_app_iff. right. left. reflexivity.
    + apply (disconnect_released _ c); cbn [Db.session Db.dangling]; try assumption.
      rewrite Hc. reflexivity.
  - intros Hnone.
    unfold Db.disconnect, bind, Db.finish_in_process, Db.finish_connection, Db.holds_released.
    cbn [Db.session Db.dangling Db.released]. rewrite Hnone, Hopen. cbn [andb].
    rewrite (finish_idle s1 Hopen Hfailed). cbn [Db.session]. rewrite Hnone. reflexivity.
Qed.

Lemma disconnect_twice_witness :
  let p := @Db.mk_Process Script.libpq Script.sysclock
             (Script.session_on (Some Script.obliging) true 0 true) [] false in
  let p' := snd (@Db.disconnect Script.libpq Script.sysclock Script.headers p) in
  In (Some Script.obliging) (Db.released p')
  /\ fst (@Db.disconnect Script.libpq Script.sysclock Script.headers p') = Undefined.
Proof.
  intros p p'.
  apply (proj1 (@disconnect_twice Script.libpq Script.sysclock Script.headers p p'
                  eq_refl eq_refl) Script.obliging).
  reflexivity.
Defined.
